(** * xv6 (Qiuarctica): the e1000 descriptor-ring driver and the trap dispatcher

    A shallow embedding of [kernel/e1000.c] and [kernel/trap.c].

    - machine integers are [Z] with the wrap-around of each C type written
      out ([u8], [u16], [u32], [u64]);
    - the descriptor rings and the buffer-slot arrays are lists indexed with
      stdpp's lookup and insert; the register block is a [gmap Z Z];
    - the code is written in a small state monad that also collects the
      calls to the functions the two files do not define (lock operations,
      page allocator, packet ingress, interrupt controller, ...);
    - constants and macros of headers that are not part of the two files
      are fields of type classes, instantiated with the values of the
      qemu [virt] platform only where a concrete run is evaluated. *)

From Stdlib Require Import ZArith Lia String.
From stdpp Require Import base list gmap.

Open Scope Z_scope.

(** ** Machine integers *)

Definition u8  (z : Z) : Z := z mod 2^8.
Definition u16 (z : Z) : Z := z mod 2^16.
Definition u32 (z : Z) : Z := z mod 2^32.
Definition u64 (z : Z) : Z := z mod 2^64.

(** * kernel/e1000.c *)
Module E1000.

(** Constants of [e1000_dev.h]: register indices (in 32-bit words) and the
    bits of the control registers and of the descriptors. *)
Class e1000_dev_h := {
  E1000_CTL : Z; E1000_ICR : Z; E1000_IMS : Z; E1000_RCTL : Z;
  E1000_TCTL : Z; E1000_TIPG : Z;
  E1000_RDBAL : Z; E1000_RDTR : Z; E1000_RADV : Z; E1000_RDH : Z;
  E1000_RDT : Z; E1000_RDLEN : Z;
  E1000_TDBAL : Z; E1000_TDLEN : Z; E1000_TDH : Z; E1000_TDT : Z;
  E1000_MTA : Z; E1000_RA : Z;
  E1000_CTL_RST : Z;
  E1000_TCTL_EN : Z; E1000_TCTL_PSP : Z;
  E1000_TCTL_CT_SHIFT : Z; E1000_TCTL_COLD_SHIFT : Z;
  E1000_RCTL_EN : Z; E1000_RCTL_BAM : Z; E1000_RCTL_SZ_2048 : Z;
  E1000_RCTL_SECRC : Z;
  E1000_TXD_CMD_EOP : Z; E1000_TXD_CMD_RS : Z;
  E1000_TXD_STAT_DD : Z; E1000_RXD_STAT_DD : Z
}.

(** [#define TX_RING_SIZE 16] and [#define RX_RING_SIZE 16]; the driver is
    written against the two names, so they are kept abstract and fixed to 16
    by the instance [e1000_c_rings] below. *)
Class ring_sizes := { TX_RING_SIZE : Z; RX_RING_SIZE : Z }.

(** Addresses of the two static descriptor arrays, as the linker lays them out. *)
Class ring_addrs := { tx_ring_addr : Z; rx_ring_addr : Z }.

(** [struct tx_desc]: the legacy transmit descriptor of the device
    (64-bit address, 16-bit length, 8-bit cso, cmd, status, css, 16-bit special). *)
Record tx_desc := mk_tx_desc {
  txd_addr : Z; txd_length : Z; txd_cso : Z; txd_cmd : Z;
  txd_status : Z; txd_css : Z; txd_special : Z
}.

(** [struct rx_desc]: the receive descriptor
    (64-bit address, 16-bit length, 16-bit checksum, 8-bit status and errors,
    16-bit special). *)
Record rx_desc := mk_rx_desc {
  rxd_addr : Z; rxd_length : Z; rxd_csum : Z;
  rxd_status : Z; rxd_errors : Z; rxd_special : Z
}.

Definition tx_desc_zero : tx_desc := mk_tx_desc 0 0 0 0 0 0 0.
Definition rx_desc_zero : rx_desc := mk_rx_desc 0 0 0 0 0 0.

(** Both descriptors are 16 bytes long. *)
Definition sizeof_tx_desc : Z := 8 + 2 + 1 + 1 + 1 + 1 + 2.
Definition sizeof_rx_desc : Z := 8 + 2 + 2 + 1 + 1 + 2.

(** What the device does to the receive ring while the driver is not looking:
    it fills the buffer of descriptor [rc_slot] with a frame of [rc_len]
    bytes and sets the status byte to [rc_status]. *)
Record rx_completion := mk_rx_completion {
  rc_slot : nat; rc_len : Z; rc_status : Z
}.

(** The driver's static variables, the page allocator's free list and the
    schedule of the device: [device] holds, for each coming call of [net_rx],
    the descriptors the device completes during that call. *)
Record state := mk_state {
  tx_ring : list tx_desc;
  tx_bufs : list Z;
  rx_ring : list rx_desc;
  rx_bufs : list Z;
  regs : gmap Z Z;
  e1000_lock : bool;
  freelist : list Z;
  device : list (list rx_completion)
}.

Definition set_tx_ring (v : list tx_desc) (s : state) : state :=
  mk_state v (tx_bufs s) (rx_ring s) (rx_bufs s) (regs s) (e1000_lock s)
           (freelist s) (device s).
Definition set_tx_bufs (v : list Z) (s : state) : state :=
  mk_state (tx_ring s) v (rx_ring s) (rx_bufs s) (regs s) (e1000_lock s)
           (freelist s) (device s).
Definition set_rx_ring (v : list rx_desc) (s : state) : state :=
  mk_state (tx_ring s) (tx_bufs s) v (rx_bufs s) (regs s) (e1000_lock s)
           (freelist s) (device s).
Definition set_rx_bufs (v : list Z) (s : state) : state :=
  mk_state (tx_ring s) (tx_bufs s) (rx_ring s) v (regs s) (e1000_lock s)
           (freelist s) (device s).
Definition set_regs (v : gmap Z Z) (s : state) : state :=
  mk_state (tx_ring s) (tx_bufs s) (rx_ring s) (rx_bufs s) v (e1000_lock s)
           (freelist s) (device s).
Definition set_lock (v : bool) (s : state) : state :=
  mk_state (tx_ring s) (tx_bufs s) (rx_ring s) (rx_bufs s) (regs s) v
           (freelist s) (device s).
Definition set_freelist (v : list Z) (s : state) : state :=
  mk_state (tx_ring s) (tx_bufs s) (rx_ring s) (rx_bufs s) (regs s)
           (e1000_lock s) v (device s).
Definition set_device (v : list (list rx_completion)) (s : state) : state :=
  mk_state (tx_ring s) (tx_bufs s) (rx_ring s) (rx_bufs s) (regs s)
           (e1000_lock s) (freelist s) v.

(** Calls that leave the driver, in the order they are made. [EvNetRx] also
    records the ring index the delivered buffer was detached from. *)
Inductive event :=
| EvAcquire
| EvRelease
| EvKalloc (pa : Z)
| EvKfree (pa : Z)
| EvNetRx (slot buf len : Z).

(** How a driver function ends: it returns, the kernel panics, an array is
    indexed outside its bounds, or the model of a loop runs out of fuel. *)
Inductive outcome (A : Type) :=
| Done (a : A) (s : state)
| Panicked (msg : string)
| OutOfBounds
| OutOfFuel.
Arguments Done {A} a s.
Arguments Panicked {A} msg.
Arguments OutOfBounds {A}.
Arguments OutOfFuel {A}.

Definition M (A : Type) : Type := state -> list event * outcome A.

Definition ret {A} (a : A) : M A := fun s => ([], Done a s).

(** [after t r]: the run [r], with the calls [t] made before it. *)
Definition after {A} (t : list event) (r : list event * outcome A)
  : list event * outcome A := (t ++ r.1, r.2).

Definition bind {A B} (m : M A) (k : A -> M B) : M B :=
  fun s =>
    match m s with
    | (t1, Done a s1) => after t1 (k a s1)
    | (t1, Panicked msg) => (t1, Panicked msg)
    | (t1, OutOfBounds) => (t1, OutOfBounds)
    | (t1, OutOfFuel) => (t1, OutOfFuel)
    end.

Notation "'let*' x ':=' m 'in' k" := (bind m (fun x => k))
  (at level 10, x name, m at level 100, k at level 200).
Notation "m ';;;' k" := (bind m (fun _ => k))
  (at level 100, k at level 200, right associativity).

Definition panic {A} (msg : string) : M A := fun _ => ([], Panicked msg).
Definition out_of_fuel {A} : M A := fun _ => ([], OutOfFuel).
Definition get : M state := fun s => ([], Done s s).
Definition modify (f : state -> state) : M unit := fun s => ([], Done tt (f s)).
Definition emit (e : event) : M unit := fun s => ([e], Done tt s).

(** Modelled from the spec: the mutual-exclusion lock of [spinlock.c], seen
    from the one hart that runs the driver. [acquire] panics when this hart
    already holds the lock, [release] when it does not. *)
Definition holding : M bool := fun s => ([], Done (e1000_lock s) s).
Definition acquire : M unit :=
  let* h := holding in
  if h then panic "acquire" else emit EvAcquire ;;; modify (set_lock true).
Definition release : M unit :=
  let* h := holding in
  if h then emit EvRelease ;;; modify (set_lock false) else panic "release".

(** Modelled from the spec: the page allocator ([allocate-page],
    [free-page]) as the free list of [kalloc.c]: [kalloc] takes the first
    free page and returns 0 when there is none, [kfree] puts a page back. *)
Definition kalloc : M Z :=
  let* s := get in
  match freelist s with
  | [] => emit (EvKalloc 0) ;;; ret 0
  | pa :: rest => modify (set_freelist rest) ;;; emit (EvKalloc pa) ;;; ret pa
  end.
Definition kfree (pa : Z) : M unit :=
  emit (EvKfree pa) ;;; modify (fun s => set_freelist (pa :: freelist s) s).

(** The device writes a completed descriptor back. *)
Definition rx_complete (c : rx_completion) (ring : list rx_desc) : list rx_desc :=
  match ring !! rc_slot c with
  | Some d =>
      <[rc_slot c := mk_rx_desc (rxd_addr d) (u16 (rc_len c)) (rxd_csum d)
                                (u8 (rc_status c)) (rxd_errors d) (rxd_special d)]> ring
  | None => ring
  end.

(** The device takes the next entry of its schedule. *)
Definition device_step (s : state) : state :=
  match device s with
  | [] => s
  | cs :: rest =>
      set_device rest
        (set_rx_ring (foldl (fun ring c => rx_complete c ring) (rx_ring s) cs) s)
  end.

(** Modelled from the spec: packet ingress [deliver(buffer, length)]. The
    call is recorded, and the device goes on filling the receive ring while
    the driver is inside it. *)
Definition net_rx (slot buf len : Z) : M unit :=
  emit (EvNetRx slot buf len) ;;;
  modify device_step.

(** [regs[r]] read and written as a 32-bit word. *)
Definition read_reg (r : Z) : M Z := fun s => ([], Done (regs s !!! r) s).
Definition write_reg (r v : Z) : M unit :=
  modify (fun s => set_regs (<[r := u32 v]> (regs s)) s).

(** Array accesses. *)
Definition at_index {A} (l : list A) (i : Z) : M A :=
  match (if i <? 0 then None else l !! Z.to_nat i) with
  | Some x => ret x
  | None => fun _ => ([], OutOfBounds)
  end.
Definition get_tx_desc (i : Z) : M tx_desc := let* s := get in at_index (tx_ring s) i.
Definition get_rx_desc (i : Z) : M rx_desc := let* s := get in at_index (rx_ring s) i.
Definition get_tx_buf (i : Z) : M Z := let* s := get in at_index (tx_bufs s) i.
Definition get_rx_buf (i : Z) : M Z := let* s := get in at_index (rx_bufs s) i.
Definition put_tx_desc (i : Z) (d : tx_desc) : M unit :=
  get_tx_desc i ;;; modify (fun s => set_tx_ring (<[Z.to_nat i := d]> (tx_ring s)) s).
Definition put_rx_desc (i : Z) (d : rx_desc) : M unit :=
  get_rx_desc i ;;; modify (fun s => set_rx_ring (<[Z.to_nat i := d]> (rx_ring s)) s).
Definition put_tx_buf (i : Z) (b : Z) : M unit :=
  get_tx_buf i ;;; modify (fun s => set_tx_bufs (<[Z.to_nat i := b]> (tx_bufs s)) s).
Definition put_rx_buf (i : Z) (b : Z) : M unit :=
  get_rx_buf i ;;; modify (fun s => set_rx_bufs (<[Z.to_nat i := b]> (rx_bufs s)) s).

(** *** Reading a trace *)

(** The deliveries to the network stack, as (slot, buffer, length). *)
Definition deliveries (t : list event) : list (Z * Z * Z) :=
  omap (fun e => match e with EvNetRx i b l => Some (i, b, l) | _ => None end) t.

(** The pages [kalloc] handed out. *)
Definition allocations (t : list event) : list Z :=
  omap (fun e => match e with EvKalloc pa => Some pa | _ => None end) t.

(** The calls to the collaborators (allocator and network stack), each with
    whether the ring lock is held at the moment of the call; [held] is the
    state of the lock before the first event. *)
Fixpoint calls_with_lock (held : bool) (t : list event) : list (event * bool) :=
  match t with
  | [] => []
  | EvAcquire :: t' => calls_with_lock true t'
  | EvRelease :: t' => calls_with_lock false t'
  | e :: t' => (e, held) :: calls_with_lock held t'
  end.

(** What the loop of [e1000_recv] does for one packet: release, deliver,
    acquire, allocate. *)
Definition drain_trace (l : list (Z * Z * Z * Z)) : list event :=
  flat_map (fun '(slot, buf, len, pa) =>
              [EvRelease; EvNetRx slot buf len; EvAcquire; EvKalloc pa]) l.

(** [for (i = 0; i < n; i++) body(i)] *)
Fixpoint for_range (n : nat) (i : Z) (body : Z -> M unit) : M unit :=
  match n with
  | O => ret tt
  | S n' => body i ;;; for_range n' (i + 1) body
  end.

Section Driver.
Context {dev : e1000_dev_h} {sizes : ring_sizes} {addrs : ring_addrs}.

(** [void e1000_init(uint32 *xregs)]; [initlock] leaves the lock free, and
    the barrier orders accesses that the model already runs in order. *)
Definition e1000_init : M unit :=
  modify (set_lock false) ;;;
  (* Reset the device *)
  write_reg E1000_IMS 0 ;;;
  let* ctl := read_reg E1000_CTL in
  write_reg E1000_CTL (Z.lor ctl E1000_CTL_RST) ;;;
  write_reg E1000_IMS 0 ;;;
  (* Transmit initialization *)
  modify (fun s => set_tx_ring ((fun _ => tx_desc_zero) <$> tx_ring s) s) ;;;
  for_range (Z.to_nat TX_RING_SIZE) 0 (fun i =>
    let* d := get_tx_desc i in
    put_tx_desc i (mk_tx_desc (txd_addr d) (txd_length d) (txd_cso d) (txd_cmd d)
                              (u8 E1000_TXD_STAT_DD) (txd_css d) (txd_special d)) ;;;
    put_tx_buf i 0) ;;;
  write_reg E1000_TDBAL tx_ring_addr ;;;
  if negb (TX_RING_SIZE * sizeof_tx_desc mod 128 =? 0) then panic "e1000" else
  write_reg E1000_TDLEN (TX_RING_SIZE * sizeof_tx_desc) ;;;
  write_reg E1000_TDT 0 ;;;
  write_reg E1000_TDH 0 ;;;
  (* Receive initialization *)
  modify (fun s => set_rx_ring ((fun _ => rx_desc_zero) <$> rx_ring s) s) ;;;
  for_range (Z.to_nat RX_RING_SIZE) 0 (fun i =>
    let* pa := kalloc in
    put_rx_buf i pa ;;;
    if pa =? 0 then panic "e1000" else
    let* d := get_rx_desc i in
    put_rx_desc i (mk_rx_desc (u64 pa) (rxd_length d) (rxd_csum d) (rxd_status d)
                              (rxd_errors d) (rxd_special d))) ;;;
  write_reg E1000_RDBAL rx_ring_addr ;;;
  if negb (RX_RING_SIZE * sizeof_rx_desc mod 128 =? 0) then panic "e1000" else
  write_reg E1000_RDH 0 ;;;
  write_reg E1000_RDT (RX_RING_SIZE - 1) ;;;
  write_reg E1000_RDLEN (RX_RING_SIZE * sizeof_rx_desc) ;;;
  (* filter by qemu's MAC address, 52:54:00:12:34:56 *)
  write_reg E1000_RA 0x12005452 ;;;
  write_reg (E1000_RA + 1) (Z.lor 0x5634 (Z.shiftl 1 31)) ;;;
  (* multicast table *)
  for_range (Z.to_nat (4096 / 32)) 0 (fun i => write_reg (E1000_MTA + i) 0) ;;;
  (* transmitter control bits *)
  write_reg E1000_TCTL
    (Z.lor (Z.lor (Z.lor E1000_TCTL_EN E1000_TCTL_PSP)
                  (Z.shiftl 0x10 E1000_TCTL_CT_SHIFT))
           (Z.shiftl 0x40 E1000_TCTL_COLD_SHIFT)) ;;;
  write_reg E1000_TIPG (Z.lor (Z.lor 10 (Z.shiftl 8 10)) (Z.shiftl 6 20)) ;;;
  (* receiver control bits *)
  write_reg E1000_RCTL
    (Z.lor (Z.lor (Z.lor E1000_RCTL_EN E1000_RCTL_BAM) E1000_RCTL_SZ_2048)
           E1000_RCTL_SECRC) ;;;
  (* ask e1000 for receive interrupts *)
  write_reg E1000_RDTR 0 ;;;
  write_reg E1000_RADV 0 ;;;
  write_reg E1000_IMS (Z.shiftl 1 7).

(** [int e1000_transmit(char *buf, int len)] *)
Definition e1000_transmit (buf len : Z) : M Z :=
  acquire ;;;
  let* tdt := read_reg E1000_TDT in
  let tail := tdt mod TX_RING_SIZE in
  if (tail <? 0) || (tail >=? TX_RING_SIZE) then panic "e1000_transmit" else
  let* d := get_tx_desc tail in
  if Z.land (txd_status d) E1000_TXD_STAT_DD =? 0 then
    (* error: *)
    let* h := holding in
    (if h then release else ret tt) ;;;
    ret (-1)
  else
    let* old := get_tx_buf tail in
    (if old =? 0 then ret tt else kfree old) ;;;
    put_tx_buf tail buf ;;;
    let* desc := get_tx_desc tail in
    put_tx_desc tail
      (mk_tx_desc (u64 buf) (u16 len) (txd_cso desc)
                  (u8 (Z.lor E1000_TXD_CMD_EOP E1000_TXD_CMD_RS)) 0
                  (txd_css desc) (txd_special desc)) ;;;
    write_reg E1000_TDT ((tail + 1) mod TX_RING_SIZE) ;;;
    release ;;;
    ret 0.

(** The [while] loop of [e1000_recv]; [tail] is the local [int]. *)
Fixpoint recv_loop (fuel : nat) (tail : Z) : M unit :=
  match fuel with
  | O => out_of_fuel
  | S fuel' =>
      let* d := get_rx_desc tail in
      if Z.land (rxd_status d) E1000_RXD_STAT_DD =? 0 then ret tt else
      let* buf := get_rx_buf tail in
      let len := rxd_length d in
      release ;;;
      net_rx tail buf len ;;;
      acquire ;;;
      let* pa := kalloc in
      put_rx_buf tail pa ;;;
      if pa =? 0 then panic "e1000" else
      let* d1 := get_rx_desc tail in
      put_rx_desc tail
        (mk_rx_desc (u64 pa) (rxd_length d1) (rxd_csum d1) (rxd_status d1)
                    (rxd_errors d1) (rxd_special d1)) ;;;
      let* d2 := get_rx_desc tail in
      put_rx_desc tail
        (mk_rx_desc (rxd_addr d2) (rxd_length d2) (rxd_csum d2) 0
                    (rxd_errors d2) (rxd_special d2)) ;;;
      write_reg E1000_RDT tail ;;;
      recv_loop fuel' (Z.rem (tail + 1) RX_RING_SIZE)
  end.

(** [static void e1000_recv(void)] *)
Definition e1000_recv (fuel : nat) : M unit :=
  acquire ;;;
  let* rdt := read_reg E1000_RDT in
  let tail := u32 (rdt + 1) mod RX_RING_SIZE in
  recv_loop fuel tail ;;;
  release.


(** *** Vocabulary of the statements about the transmit ring *)

(** The ring sizes are positive [int] constants. *)
Definition sizes_ok : Prop :=
  0 < TX_RING_SIZE < 2^31 /\ 0 < RX_RING_SIZE < 2^31.

(** The index [e1000_transmit] works on: the tail register modulo the capacity. *)
Definition tx_tail (s : state) : Z := (regs s !!! E1000_TDT) mod TX_RING_SIZE.

(** The done bit of transmit descriptor [i]. *)
Definition tx_done_at (s : state) (i : Z) : bool :=
  match tx_ring s !! Z.to_nat i with
  | Some d => negb (Z.land (txd_status d) E1000_TXD_STAT_DD =? 0)
  | None => false
  end.

(** The arrays have their declared sizes and nobody holds the lock. *)
Definition tx_wf (s : state) : Prop :=
  length (tx_ring s) = Z.to_nat TX_RING_SIZE /\
  length (tx_bufs s) = Z.to_nat TX_RING_SIZE /\
  e1000_lock s = false.

(** The state a successful [e1000_transmit buf len] leaves behind. *)
Definition transmitted (buf len : Z) (s : state) : state :=
  let i := Z.to_nat (tx_tail s) in
  let old := default 0 (tx_bufs s !! i) in
  let d := default tx_desc_zero (tx_ring s !! i) in
  mk_state
    (<[i := mk_tx_desc (u64 buf) (u16 len) (txd_cso d)
                       (u8 (Z.lor E1000_TXD_CMD_EOP E1000_TXD_CMD_RS)) 0
                       (txd_css d) (txd_special d)]> (tx_ring s))
    (<[i := buf]> (tx_bufs s))
    (rx_ring s) (rx_bufs s)
    (<[E1000_TDT := u32 ((tx_tail s + 1) mod TX_RING_SIZE)]> (regs s))
    false
    (if old =? 0 then freelist s else old :: freelist s)
    (device s).

(** Back-to-back calls of [e1000_transmit], one per [(buf, len)] request,
    with nothing else touching the driver in between; the list of the values
    returned. A call that does not return ends the run. *)
Fixpoint transmit_seq (reqs : list (Z * Z)) (s : state) : list Z :=
  match reqs with
  | [] => []
  | (buf, len) :: rest =>
      match e1000_transmit buf len s with
      | (_, Done r s') => r :: transmit_seq rest s'
      | _ => []
      end
  end.

(** *** Vocabulary of the statements about the receive ring *)

(** The index [e1000_recv] starts at. *)
Definition rx_head (s : state) : Z :=
  u32 (regs s !!! E1000_RDT + 1) mod RX_RING_SIZE.

(** The done bit of receive descriptor [i]. *)
Definition rx_done_at (s : state) (i : Z) : bool :=
  match rx_ring s !! Z.to_nat i with
  | Some d => negb (Z.land (rxd_status d) E1000_RXD_STAT_DD =? 0)
  | None => false
  end.

Definition rx_wf (s : state) : Prop :=
  length (rx_ring s) = Z.to_nat RX_RING_SIZE /\
  length (rx_bufs s) = Z.to_nat RX_RING_SIZE.

(** The state after slot [tail] got the page [pa] as its new buffer:
    lines 149 to 155 of [e1000_recv]. *)
Definition refilled (tail pa : Z) (s : state) : state :=
  let i := Z.to_nat tail in
  let d := default rx_desc_zero (rx_ring s !! i) in
  mk_state (tx_ring s) (tx_bufs s)
    (<[i := mk_rx_desc (u64 pa) (rxd_length d) (rxd_csum d) 0
                       (rxd_errors d) (rxd_special d)]> (rx_ring s))
    (<[i := pa]> (rx_bufs s))
    (<[E1000_RDT := u32 tail]> (regs s))
    (e1000_lock s) (tl (freelist s)) (device s).

(** *** Vocabulary of the statements about the loop of [e1000_recv] *)

(** The state of the driver at the head of the loop. *)
Definition loop_pre (tail : Z) (s : state) : Prop :=
  e1000_lock s = true /\ rx_wf s /\ 0 <= tail < RX_RING_SIZE.

(** What the loop reads and computes in one turn. *)
Definition turn_buf (tail : Z) (s : state) : Z :=
  default 0 (rx_bufs s !! Z.to_nat tail).

Definition turn_len (tail : Z) (s : state) : Z :=
  rxd_length (default rx_desc_zero (rx_ring s !! Z.to_nat tail)).

Definition turn_page (s : state) : Z := hd 0 (freelist (device_step s)).

Definition turn_state (tail : Z) (s : state) : state :=
  refilled tail (turn_page s) (device_step s).

(** How a run of the loop can end. *)
Definition loop_end (tail : Z) (s : state) (l : list (Z * Z * Z * Z))
    (o : outcome unit) : Prop :=
  match o with
  | Done _ s' =>
      e1000_lock s' = true /\ rx_wf s' /\
      rx_done_at s' ((tail + Z.of_nat (length l)) mod RX_RING_SIZE) = false /\
      Forall (fun x => x.2 <> 0) l /\
      tx_ring s' = tx_ring s /\ tx_bufs s' = tx_bufs s
  | Panicked msg =>
      msg = "e1000"%string /\
      exists l0 x, l = l0 ++ [x] /\ x.2 = 0 /\ Forall (fun x => x.2 <> 0) l0
  | OutOfBounds => False
  | OutOfFuel => Forall (fun x => x.2 <> 0) l
  end.

(** The [k]-th packet of a run comes from slot [tail + k] modulo the
    capacity; its buffer is the one the slot held when the run started or,
    from the second visit of the slot on, the page allocated for the slot
    at the visit before. *)
Definition loop_order (tail : Z) (s : state) (l : list (Z * Z * Z * Z))
    (o : outcome unit) : Prop :=
  forall (k : nat) slot buf len pa,
    l !! k = Some (slot, buf, len, pa) ->
    slot = (tail + Z.of_nat k) mod RX_RING_SIZE /\
    ((k < Z.to_nat RX_RING_SIZE)%nat -> rx_bufs s !! Z.to_nat slot = Some buf) /\
    ((Z.to_nat RX_RING_SIZE <= k)%nat ->
       exists d, l !! (k - Z.to_nat RX_RING_SIZE)%nat = Some d /\ d.2 = buf).

(** While the device is idle, the packets of a run are the descriptors that
    were done when it started, from the start index up to the first one that
    is not done, and at most one turn of the ring. *)
Definition loop_quiet (tail : Z) (s : state) (l : list (Z * Z * Z * Z))
    (o : outcome unit) : Prop :=
  device s = [] ->
  (forall k : nat, (k < length l)%nat ->
     rx_done_at s ((tail + Z.of_nat k) mod RX_RING_SIZE) = true) /\
  (length l <= Z.to_nat RX_RING_SIZE)%nat /\
  (forall s', o = Done tt s' -> (length l < Z.to_nat RX_RING_SIZE)%nat ->
     rx_done_at s ((tail + Z.of_nat (length l)) mod RX_RING_SIZE) = false).

(** The slots a run took a packet from. *)
Definition slots (l : list (Z * Z * Z * Z)) : list nat :=
  (fun x => Z.to_nat x.1.1.1) <$> l.

(** When a run returns, every slot it took a packet from holds a page the
    allocator handed out during the run, which is not null and is the
    address in the slot's descriptor; the other slots hold what they held. *)
Definition loop_slots (tail : Z) (s : state) (l : list (Z * Z * Z * Z))
    (o : outcome unit) : Prop :=
  forall s', o = Done tt s' -> forall i : nat,
    (i ∈ slots l ->
       exists pa, rx_bufs s' !! i = Some pa /\ pa <> 0 /\ pa ∈ l.*2 /\
                  rxd_addr <$> rx_ring s' !! i = Some (u64 pa)) /\
    (i ∉ slots l ->
       rx_bufs s' !! i = rx_bufs s !! i /\
       rxd_addr <$> rx_ring s' !! i = rxd_addr <$> rx_ring s !! i).

(** The trace and the outcome of [e1000_recv], from those of its loop. *)
Definition recv_result (l : list (Z * Z * Z * Z)) (o : outcome unit)
  : list event * outcome unit :=
  match o with
  | Done _ s1 => (EvAcquire :: drain_trace l ++ [EvRelease], Done tt (set_lock false s1))
  | _ => (EvAcquire :: drain_trace l, o)
  end.

(** The ring lock as a leaf lock: it is not held at any call of a
    collaborator. *)
Definition leaf_lock (t : list event) : Prop :=
  Forall (fun c => c.2 = false) (calls_with_lock false t).

(** *** Vocabulary of further statements about the driver *)

(** The pages given back to the allocator. *)
Definition frees (t : list event) : list Z :=
  omap (fun e => match e with EvKfree pa => Some pa | _ => None end) t.

(** The registers after a run of the loop of [e1000_recv]: only the
    receive tail is written, and it ends at the last slot handled. *)
Definition loop_regs (tail : Z) (s : state) (l : list (Z * Z * Z * Z))
    (o : outcome unit) : Prop :=
  forall s', o = Done tt s' ->
    (forall r, r <> E1000_RDT -> regs s' !!! r = regs s !!! r) /\
    (l = [] -> s' = s) /\
    (l <> [] ->
       regs s' !!! E1000_RDT =
         (tail + Z.of_nat (length l) - 1) mod RX_RING_SIZE).

(** The pages and the schedule of the device after a run of the loop: one
    page and one entry are used per packet, from the front. *)
Definition loop_pages (tail : Z) (s : state) (l : list (Z * Z * Z * Z))
    (o : outcome unit) : Prop :=
  forall s', o = Done tt s' ->
    l.*2 = take (length l) (freelist s) /\
    freelist s' = drop (length l) (freelist s) /\
    device s' = drop (length l) (device s).


(** *** Vocabulary of the statements about [e1000_init] *)

(** The transmit ring as the initialisation leaves it: every descriptor is
    zero but for the done bit, every buffer slot is empty. *)
Definition tx_fresh (s : state) : Prop :=
  length (tx_ring s) = Z.to_nat TX_RING_SIZE /\
  length (tx_bufs s) = Z.to_nat TX_RING_SIZE /\
  forall i, 0 <= i < TX_RING_SIZE ->
    tx_ring s !! Z.to_nat i = Some (mk_tx_desc 0 0 0 0 (u8 E1000_TXD_STAT_DD) 0 0) /\
    tx_bufs s !! Z.to_nat i = Some 0.

(** The receive ring as the initialisation leaves it: slot [i] holds the
    [i]-th page of [pages], whose address is in the descriptor, and no
    descriptor is done. *)
Definition rx_fresh (pages : list Z) (s : state) : Prop :=
  rx_wf s /\
  forall i, 0 <= i < RX_RING_SIZE ->
    exists pa,
      pages !! Z.to_nat i = Some pa /\ pa <> 0 /\
      rx_bufs s !! Z.to_nat i = Some pa /\
      rx_ring s !! Z.to_nat i = Some (mk_rx_desc (u64 pa) 0 0 0 0 0).

(** The registers [e1000_init] writes after the two tail registers. *)
Definition later_regs : list Z :=
  [E1000_IMS; E1000_RADV; E1000_RDTR; E1000_RCTL; E1000_TIPG; E1000_TCTL;
   E1000_RA + 1; E1000_RA; E1000_RDLEN; E1000_RDH; E1000_RDBAL; E1000_TDH].

(** The two tail registers are registers of their own: they differ from
    each other, from the registers above and from the 128 words of the
    multicast table. *)
Definition tails_apart : Prop :=
  E1000_TDT <> E1000_RDT /\
  Forall (fun r => r <> E1000_TDT /\ r <> E1000_RDT) later_regs /\
  ~ (E1000_MTA <= E1000_TDT < E1000_MTA + 128) /\
  ~ (E1000_MTA <= E1000_RDT < E1000_MTA + 128).

(** The parts of the state that a loop over one ring leaves alone. *)
Definition tx_side (s : state) := (tx_ring s, tx_bufs s).
Definition rx_side (s : state) := (rx_ring s, rx_bufs s, freelist s).
Definition rest_of (s : state) := (regs s, e1000_lock s, device s).

(** What [e1000_init] asks of the static arrays, of the device's layout
    and of the allocator: the arrays have their declared sizes, the rings
    are a multiple of 128 bytes long, and the free list starts with as many
    pages as the receive ring has slots. *)
Definition init_pre (s : state) : Prop :=
  length (tx_ring s) = Z.to_nat TX_RING_SIZE /\
  length (tx_bufs s) = Z.to_nat TX_RING_SIZE /\
  rx_wf s /\
  (TX_RING_SIZE * sizeof_tx_desc) mod 128 = 0 /\
  (RX_RING_SIZE * sizeof_rx_desc) mod 128 = 0 /\
  (Z.to_nat RX_RING_SIZE <= length (freelist s))%nat /\
  Forall (fun pa => pa <> 0) (take (Z.to_nat RX_RING_SIZE) (freelist s)).

(** The static variables before [e1000_init] runs: zero-filled arrays of the
    declared sizes, a register block after reset, the lock free. *)
Definition boot_state (free : list Z) (dev : list (list rx_completion)) : state :=
  mk_state (replicate (Z.to_nat TX_RING_SIZE) tx_desc_zero)
           (replicate (Z.to_nat TX_RING_SIZE) 0)
           (replicate (Z.to_nat RX_RING_SIZE) rx_desc_zero)
           (replicate (Z.to_nat RX_RING_SIZE) 0)
           ∅ false free dev.

End Driver.

(** The sizes fixed by [e1000.c]. *)
Definition e1000_c_rings : ring_sizes :=
  {| TX_RING_SIZE := 16; RX_RING_SIZE := 16 |}.

(** A transmit ring of 12 descriptors is 192 bytes long. *)
Definition twelve_tx_rings : ring_sizes :=
  {| TX_RING_SIZE := 12; RX_RING_SIZE := 16 |}.

(** The values of [e1000_dev.h] for the 82540EM that qemu emulates, used for
    the concrete runs below. *)
Definition qemu_e1000 : e1000_dev_h := {|
  E1000_CTL := 0x00000 / 4; E1000_ICR := 0x000C0 / 4; E1000_IMS := 0x000D0 / 4;
  E1000_RCTL := 0x00100 / 4; E1000_TCTL := 0x00400 / 4; E1000_TIPG := 0x00410 / 4;
  E1000_RDBAL := 0x02800 / 4; E1000_RDTR := 0x02820 / 4; E1000_RADV := 0x0282C / 4;
  E1000_RDH := 0x02810 / 4; E1000_RDT := 0x02818 / 4; E1000_RDLEN := 0x02808 / 4;
  E1000_TDBAL := 0x03800 / 4; E1000_TDLEN := 0x03808 / 4; E1000_TDH := 0x03810 / 4;
  E1000_TDT := 0x03818 / 4; E1000_MTA := 0x05200 / 4; E1000_RA := 0x05400 / 4;
  E1000_CTL_RST := 0x00400000;
  E1000_TCTL_EN := 0x00000002; E1000_TCTL_PSP := 0x00000008;
  E1000_TCTL_CT_SHIFT := 4; E1000_TCTL_COLD_SHIFT := 12;
  E1000_RCTL_EN := 0x00000002; E1000_RCTL_BAM := 0x00008000;
  E1000_RCTL_SZ_2048 := 0x00000000; E1000_RCTL_SECRC := 0x04000000;
  E1000_TXD_CMD_EOP := 0x01; E1000_TXD_CMD_RS := 0x08;
  E1000_TXD_STAT_DD := 0x00000001; E1000_RXD_STAT_DD := 0x01
|}.

Definition qemu_ring_addrs : ring_addrs :=
  {| tx_ring_addr := 0x80021000; rx_ring_addr := 0x80021100 |}.

(** *** Concrete states of the ring of 16 *)
Section Runs.
#[local] Existing Instance qemu_e1000.
#[local] Existing Instance e1000_c_rings.
#[local] Existing Instance qemu_ring_addrs.

(** 48 free pages. *)
Definition free_pages : list Z :=
  (fun i : nat => 0x87000000 + 4096 * Z.of_nat i) <$> seq 0 48.

(** The driver after [e1000_init], with [dev] as the device's schedule. *)
Definition booted (dev : list (list rx_completion)) : state :=
  match e1000_init (boot_state free_pages dev) with
  | (_, Done _ s) => s
  | _ => boot_state [] []
  end.

(** The device has received a 60-byte frame into each of the slots [into]
    (status: done and end of packet). *)
Definition received (into : list nat) (s : state) : state :=
  set_rx_ring
    (foldl (fun ring c => rx_complete c ring) (rx_ring s)
           ((fun i => mk_rx_completion i 60 3) <$> into)) s.

(** Descriptors 0 to 3 done out of 16, the device idle. *)
Definition four_packets : state := received [0; 1; 2; 3]%nat (booted []).

(** All 16 descriptors done; while the driver delivers the second packet
    the device fills slot 0, which the driver has just given back, again. *)
Definition full_ring_and_one : state :=
  received (seq 0 16) (booted [[]; [mk_rx_completion 0 72 3]]).

(** Descriptors 0 to 3 done and the allocator out of pages. *)
Definition four_packets_no_pages : state := set_freelist [] four_packets.

(** 17 frames to send. *)
Definition seventeen_frames : list (Z * Z) :=
  (fun i : nat => (0x88000000 + 4096 * Z.of_nat i, 60)) <$> seq 0 17.

(** The ring after 16 transmits is full: the 17th leaves it alone. *)
Definition full_tx_ring : state :=
  Eval vm_compute in
    foldl (fun s '(buf, len) =>
             match e1000_transmit buf len s with
             | (_, Done _ s') => s'
             | _ => s
             end) (booted []) (take 16 seventeen_frames).

(** The device has sent the frame of transmit slot [i]: it sets the done
    bit of the descriptor. *)
Definition tx_completed (i : nat) (s : state) : state :=
  match tx_ring s !! i with
  | Some d =>
      set_tx_ring
        (<[i := mk_tx_desc (txd_addr d) (txd_length d) (txd_cso d) (txd_cmd d)
                           (u8 (Z.lor (txd_status d) E1000_TXD_STAT_DD))
                           (txd_css d) (txd_special d)]> (tx_ring s)) s
  | None => s
  end.

(** The full ring, once the device has sent the frame of slot 0. *)
Definition first_frame_sent : state := tx_completed 0 full_tx_ring.

(** The state [e1000_recv] leaves. *)
Definition drained (s : state) : state :=
  match e1000_recv 40 s with
  | (_, Done _ s') => s'
  | _ => s
  end.

(** The static variables at boot, with five free pages only. *)
Definition boot_five_pages : state := boot_state (take 5 free_pages) [].

End Runs.

End E1000.

(** * kernel/trap.c *)
Module Trap.

(** Constants, macros and symbols that [trap.c] takes from [riscv.h],
    [memlayout.h], [param.h], [fcntl.h] and the linker. *)
Class kernel_h := {
  SSTATUS_SPP : Z; SSTATUS_SPIE : Z; SSTATUS_SIE : Z;
  PGSIZE : Z; PGROUNDDOWN : Z -> Z; MAKE_SATP : Z -> Z;
  PTE_R : Z; PTE_W : Z; PTE_X : Z; PTE_U : Z;
  UART0_IRQ : Z; VIRTIO0_IRQ : Z; TRAMPOLINE : Z;
  MAX_VMA : Z;
  PROT_READ : Z; PROT_WRITE : Z; PROT_EXEC : Z;
  kernelvec : Z; trampoline : Z; uservec : Z; userret : Z; usertrap_addr : Z
}.

(** The supervisor registers the file reads and writes. *)
Record csr := mk_csr {
  sepc : Z; sstatus : Z; scause : Z; stval : Z; stvec : Z;
  satp : Z; tp : Z; time : Z; stimecmp : Z
}.

(** [struct mmap_VMA], the fields the fault handler reads. *)
Record mmap_VMA := mk_vma {
  vma_valid : Z; vma_addr : Z; vma_len : Z; vma_prot : Z;
  vma_file : Z; vma_offset : Z
}.

(** [struct proc] with its trap frame, the fields the file touches. *)
Record proc := mk_proc {
  p_killed : Z; p_pid : Z;
  tf_epc : Z; tf_kernel_satp : Z; tf_kernel_sp : Z;
  tf_kernel_trap : Z; tf_kernel_hartid : Z;
  p_vma : list mmap_VMA; p_pagetable : Z; p_kstack : Z
}.

(** The contents of the inode behind an open file; [i_error] makes reads fail. *)
Record inode := mk_inode { i_data : list Z; i_error : bool }.
#[export] Instance inode_inhabited : Inhabited inode := populate (mk_inode [] false).

(** The kernel as the trap code sees it. The last five fields stand for the
    collaborators: what [plic_claim] returns, what [mappages] returns, what
    each coming [yield] leaves in (sepc, sstatus, scause) when it comes back,
    and whether the system call kills the process. *)
Record kstate := mk_kstate {
  csrs : csr;
  cur : option proc;
  ticks : Z;
  freelist : list Z;
  mem : gmap Z (list Z);
  file_inode : gmap Z inode;
  mappings : list (Z * Z * Z * Z);
  plic_irq : Z;
  mappages_ret : Z;
  yield_script : list (Z * Z * Z);
  syscall_kills : bool
}.

Definition with_csrs (f : csr -> csr) (s : kstate) : kstate :=
  mk_kstate (f (csrs s)) (cur s) (ticks s) (freelist s) (mem s) (file_inode s)
            (mappings s) (plic_irq s) (mappages_ret s) (yield_script s)
            (syscall_kills s).
Definition with_cur (f : option proc -> option proc) (s : kstate) : kstate :=
  mk_kstate (csrs s) (f (cur s)) (ticks s) (freelist s) (mem s) (file_inode s)
            (mappings s) (plic_irq s) (mappages_ret s) (yield_script s)
            (syscall_kills s).
Definition with_ticks (f : Z -> Z) (s : kstate) : kstate :=
  mk_kstate (csrs s) (cur s) (f (ticks s)) (freelist s) (mem s) (file_inode s)
            (mappings s) (plic_irq s) (mappages_ret s) (yield_script s)
            (syscall_kills s).
Definition with_freelist (f : list Z -> list Z) (s : kstate) : kstate :=
  mk_kstate (csrs s) (cur s) (ticks s) (f (freelist s)) (mem s) (file_inode s)
            (mappings s) (plic_irq s) (mappages_ret s) (yield_script s)
            (syscall_kills s).
Definition with_mem (f : gmap Z (list Z) -> gmap Z (list Z)) (s : kstate) : kstate :=
  mk_kstate (csrs s) (cur s) (ticks s) (freelist s) (f (mem s)) (file_inode s)
            (mappings s) (plic_irq s) (mappages_ret s) (yield_script s)
            (syscall_kills s).
Definition with_mappings (f : list (Z * Z * Z * Z) -> list (Z * Z * Z * Z))
    (s : kstate) : kstate :=
  mk_kstate (csrs s) (cur s) (ticks s) (freelist s) (mem s) (file_inode s)
            (f (mappings s)) (plic_irq s) (mappages_ret s) (yield_script s)
            (syscall_kills s).
Definition with_yield_script (f : list (Z * Z * Z) -> list (Z * Z * Z))
    (s : kstate) : kstate :=
  mk_kstate (csrs s) (cur s) (ticks s) (freelist s) (mem s) (file_inode s)
            (mappings s) (plic_irq s) (mappages_ret s) (f (yield_script s))
            (syscall_kills s).

Definition set_sepc (v : Z) (c : csr) : csr :=
  mk_csr v (sstatus c) (scause c) (stval c) (stvec c) (satp c) (tp c) (time c) (stimecmp c).
Definition set_sstatus (v : Z) (c : csr) : csr :=
  mk_csr (sepc c) v (scause c) (stval c) (stvec c) (satp c) (tp c) (time c) (stimecmp c).
Definition set_scause (v : Z) (c : csr) : csr :=
  mk_csr (sepc c) (sstatus c) v (stval c) (stvec c) (satp c) (tp c) (time c) (stimecmp c).
Definition set_stvec (v : Z) (c : csr) : csr :=
  mk_csr (sepc c) (sstatus c) (scause c) (stval c) v (satp c) (tp c) (time c) (stimecmp c).
Definition set_stimecmp (v : Z) (c : csr) : csr :=
  mk_csr (sepc c) (sstatus c) (scause c) (stval c) (stvec c) (satp c) (tp c) (time c) v.

Definition set_killed (v : Z) (p : proc) : proc :=
  mk_proc v (p_pid p) (tf_epc p) (tf_kernel_satp p) (tf_kernel_sp p)
          (tf_kernel_trap p) (tf_kernel_hartid p) (p_vma p) (p_pagetable p) (p_kstack p).
Definition set_epc (v : Z) (p : proc) : proc :=
  mk_proc (p_killed p) (p_pid p) v (tf_kernel_satp p) (tf_kernel_sp p)
          (tf_kernel_trap p) (tf_kernel_hartid p) (p_vma p) (p_pagetable p) (p_kstack p).
Definition set_kernel_frame (ksatp ksp ktrap khart : Z) (p : proc) : proc :=
  mk_proc (p_killed p) (p_pid p) (tf_epc p) ksatp ksp ktrap khart
          (p_vma p) (p_pagetable p) (p_kstack p).

(** Calls that leave the file, in the order they are made. [EvSyscall]
    records the saved program counter and the status register that the
    system-call handler finds. *)
Inductive event :=
| EvSyscall (epc status : Z)
| EvYield
| EvUserret (satp_arg : Z)
| EvPrintf (fmt : string)
| EvPlicClaim (irq : Z)
| EvPlicComplete (irq : Z)
| EvUartintr
| EvVirtioDiskIntr
| EvAcquireTickslock
| EvReleaseTickslock
| EvWakeupTicks
| EvKalloc (pa : Z)
| EvKfree (pa : Z)
| EvMemset (pa c n : Z)
| EvBeginOp
| EvEndOp
| EvIlock (f : Z)
| EvIunlock (f : Z)
| EvReadi (f dst off n : Z)
| EvMappages (pagetable va size pa perm : Z).

(** How a trap handler ends: it returns, the kernel panics, the process
    exits (the call of [exit] does not return), or the code dereferences
    the current process when there is none. *)
Inductive outcome (A : Type) :=
| Done (a : A) (s : kstate)
| Panicked (msg : string) (s : kstate)
| Exited (status : Z) (s : kstate)
| NoProcess.
Arguments Done {A} a s.
Arguments Panicked {A} msg s.
Arguments Exited {A} status s.
Arguments NoProcess {A}.

Definition M (A : Type) : Type := kstate -> list event * outcome A.

Definition after {A} (t : list event) (r : list event * outcome A)
  : list event * outcome A := (t ++ r.1, r.2).

Definition ret {A} (a : A) : M A := fun s => ([], Done a s).

Definition bind {A B} (m : M A) (k : A -> M B) : M B :=
  fun s =>
    match m s with
    | (t1, Done a s1) => after t1 (k a s1)
    | (t1, Panicked msg s1) => (t1, Panicked msg s1)
    | (t1, Exited st s1) => (t1, Exited st s1)
    | (t1, NoProcess) => (t1, NoProcess)
    end.

Notation "'let*' x ':=' m 'in' k" := (bind m (fun x => k))
  (at level 10, x name, m at level 100, k at level 200).
Notation "m ';;;' k" := (bind m (fun _ => k))
  (at level 100, k at level 200, right associativity).

Definition panic {A} (msg : string) : M A := fun s => ([], Panicked msg s).
Definition get : M kstate := fun s => ([], Done s s).
Definition modify (f : kstate -> kstate) : M unit := fun s => ([], Done tt (f s)).
Definition emit (e : event) : M unit := fun s => ([e], Done tt s).
Definition when_ (b : bool) (m : M unit) : M unit := if b then m else ret tt.

Definition reader {A} (f : kstate -> A) : M A := fun s => ([], Done (f s) s).

(** Register accessors of [riscv.h]. *)
Definition r_sepc : M Z := reader (fun s => sepc (csrs s)).
Definition r_sstatus : M Z := reader (fun s => sstatus (csrs s)).
Definition r_scause : M Z := reader (fun s => scause (csrs s)).
Definition r_stval : M Z := reader (fun s => stval (csrs s)).
Definition r_satp : M Z := reader (fun s => satp (csrs s)).
Definition r_tp : M Z := reader (fun s => tp (csrs s)).
Definition r_time : M Z := reader (fun s => time (csrs s)).
Definition w_sepc (v : Z) : M unit := modify (with_csrs (set_sepc v)).
Definition w_sstatus (v : Z) : M unit := modify (with_csrs (set_sstatus v)).
Definition w_stvec (v : Z) : M unit := modify (with_csrs (set_stvec v)).
Definition w_stimecmp (v : Z) : M unit := modify (with_csrs (set_stimecmp v)).

(** [myproc()] and the accesses through the pointer it returns. *)
Definition myproc : M proc :=
  fun s => match cur s with
           | Some p => ([], Done p s)
           | None => ([], NoProcess)
           end.
Definition have_proc : M bool :=
  reader (fun s => match cur s with Some _ => true | None => false end).
Definition update_proc (f : proc -> proc) : M unit :=
  myproc ;;; modify (with_cur (fmap f)).

(** Modelled from the spec: process control, [is-killed], [mark-killed]
    and [terminate]; [exit] does not return. *)
Definition killed : M bool :=
  let* p := myproc in ret (negb (p_killed p =? 0)).
Definition setkilled : M unit := update_proc (set_killed 1).
Definition exit {A} (status : Z) : M A := fun s => ([], Exited status s).

Definition printf (fmt : string) : M unit := emit (EvPrintf fmt).

(** Modelled from the spec: the page allocator as the free list of
    [kalloc.c]; a page that is handed out holds junk until it is written. *)
Definition kalloc : M Z :=
  let* s := get in
  match freelist s with
  | [] => emit (EvKalloc 0) ;;; ret 0
  | pa :: rest => modify (with_freelist (fun _ => rest)) ;;; emit (EvKalloc pa) ;;; ret pa
  end.
Definition kfree (pa : Z) : M unit :=
  emit (EvKfree pa) ;;; modify (with_freelist (cons pa)).

Section Code.
Context {hdr : kernel_h}.

(** Interrupt enable bit of [sstatus]. *)
Definition intr_on : M unit :=
  let* x := r_sstatus in w_sstatus (Z.lor x SSTATUS_SIE).
Definition intr_off : M unit :=
  let* x := r_sstatus in w_sstatus (Z.land x (u64 (Z.lnot SSTATUS_SIE))).
Definition intr_get : M bool :=
  let* x := r_sstatus in ret (negb (Z.land x SSTATUS_SIE =? 0)).

(** [memset(pa, c, n)] on a page. *)
Definition memset (pa c n : Z) : M unit :=
  emit (EvMemset pa c n) ;;;
  modify (with_mem (fun m =>
    let old := default [] (m !! pa) in
    <[pa := replicate (Z.to_nat n) (u8 c) ++ drop (Z.to_nat n) old]> m)).

(** Modelled from the spec: the file read
    [read(file, dest, offset, len) -> bytes_read]. It copies the bytes of
    the file from [off] on into the page at [dst], as many as the file has
    left and at most [n], and returns their number; a failing read returns
    -1 and copies nothing. *)
Definition readi (f dst off n : Z) : M Z :=
  emit (EvReadi f dst off n) ;;;
  let* s := get in
  let ip := file_inode s !!! f in
  if i_error ip then ret (-1) else
  let left := Z.max 0 (Z.of_nat (length (i_data ip)) - off) in
  let k := Z.min n left in
  let bytes := take (Z.to_nat k) (drop (Z.to_nat off) (i_data ip)) in
  modify (with_mem (fun m =>
    let old := default [] (m !! dst) in
    <[dst := bytes ++ drop (Z.to_nat k) old]> m)) ;;;
  ret k.

(** Modelled from the spec: the page-table mapper
    [map(pagetable, va, pa, len, perm) -> result]; a successful call is
    recorded in [mappings]. *)
Definition mappages (pagetable va size pa perm : Z) : M Z :=
  emit (EvMappages pagetable va size pa perm) ;;;
  let* s := get in
  if mappages_ret s =? 0 then
    modify (with_mappings (cons (pagetable, va, pa, perm))) ;;; ret 0
  else ret (mappages_ret s).

(** Modelled from the spec: the scheduler's [yield]. Other code runs before
    it comes back, and the traps taken meanwhile leave their values in
    sepc, sstatus and scause. *)
Definition yield : M unit :=
  emit EvYield ;;;
  modify (fun s =>
    match yield_script s with
    | [] => s
    | (pc, st, cause) :: rest =>
        with_yield_script (fun _ => rest)
          (with_csrs (fun c => set_sepc pc (set_sstatus st (set_scause cause c))) s)
    end).

(** Modelled from the spec: the system-call handler. *)
Definition syscall : M unit :=
  let* p := myproc in
  let* st := r_sstatus in
  emit (EvSyscall (tf_epc p) st) ;;;
  let* s := get in
  when_ (syscall_kills s) setkilled.

(** Modelled from the spec: the interrupt controller, [claim() -> id_or_zero]
    and [complete(id)]. *)
Definition plic_claim : M Z :=
  let* s := get in emit (EvPlicClaim (plic_irq s)) ;;; ret (plic_irq s).
Definition plic_complete (irq : Z) : M unit := emit (EvPlicComplete irq).

Definition uartintr : M unit := emit EvUartintr.
Definition virtio_disk_intr : M unit := emit EvVirtioDiskIntr.

(** [void clockintr()] *)
Definition clockintr : M unit :=
  let* hart := r_tp in
  when_ (hart =? 0)
    (emit EvAcquireTickslock ;;;
     modify (with_ticks (fun t => u32 (t + 1))) ;;;
     emit EvWakeupTicks ;;;
     emit EvReleaseTickslock) ;;;
  let* now := r_time in
  w_stimecmp (u64 (now + 1000000)).

(** [int devintr()] *)
Definition devintr : M Z :=
  let* cause := r_scause in
  if cause =? 0x8000000000000009 then
    let* irq := plic_claim in
    (if irq =? UART0_IRQ then uartintr
     else if irq =? VIRTIO0_IRQ then virtio_disk_intr
     else if negb (irq =? 0) then printf "unexpected interrupt irq=%d\n"
     else ret tt) ;;;
    when_ (negb (irq =? 0)) (plic_complete irq) ;;;
    ret 1
  else if cause =? 0x8000000000000005 then
    clockintr ;;;
    ret 2
  else ret 0.

(** The tests of the fault handler on one VMA. *)
Definition vma_contains (v : mmap_VMA) (va : Z) : bool :=
  (va >=? vma_addr v) && (va <? u64 (vma_addr v + vma_len v)).
Definition vma_denies (cause : Z) (v : mmap_VMA) : bool :=
  ((cause =? 0xd) && (Z.land (vma_prot v) PROT_READ =? 0)) ||
  ((cause =? 0xc) && (Z.land (vma_prot v) PROT_EXEC =? 0)) ||
  ((cause =? 0xf) && (Z.land (vma_prot v) PROT_WRITE =? 0)).

(** The slot the loop of the fault handler stops at: the first valid one
    that holds [va]. *)
Definition vma_hit (va : Z) (v : mmap_VMA) : bool :=
  negb (vma_valid v =? 0) && vma_contains v va.
Definition vma_find (vmas : list mmap_VMA) (va : Z) : option mmap_VMA :=
  List.find (vma_hit va) vmas.

(** The invariant of the data model: no address lies in two valid VMAs. *)
Definition vmas_disjoint (vmas : list mmap_VMA) : Prop :=
  forall (i j : nat) v w a,
    vmas !! i = Some v -> vmas !! j = Some w ->
    vma_valid v <> 0 -> vma_valid w <> 0 ->
    vma_contains v a = true -> vma_contains w a = true -> i = j.

(** The causes of the three page faults: load, store, instruction. *)
Definition page_fault_cause (c : Z) : Prop := c = 0xd \/ c = 0xf \/ c = 0xc.

(** The permission bits of the new mapping. *)
Definition vma_flags (v : mmap_VMA) : Z :=
  let flag := PTE_U in
  let flag := if Z.land (vma_prot v) PROT_READ =? 0 then flag else Z.lor flag PTE_R in
  let flag := if Z.land (vma_prot v) PROT_WRITE =? 0 then flag else Z.lor flag PTE_W in
  let flag := if Z.land (vma_prot v) PROT_EXEC =? 0 then flag else Z.lor flag PTE_X in
  flag.

(** The file offset of the page that holds [va], as the 64-bit expression
    [PGROUNDDOWN(va) - vma->addr + vma->offset] computes it. *)
Definition vma_file_offset (v : mmap_VMA) (va : Z) : Z :=
  u64 (PGROUNDDOWN va - vma_addr v + vma_offset v).

(** The same offset as [readi] receives it. The prototype of [readi] is in
    [defs.h], which is not among the sources; as in upstream xv6,
    [int readi(struct inode*, int, uint64, uint off, uint n)], the call
    converts the 64-bit argument to the 32-bit [uint off]. *)
Definition readi_off (v : mmap_VMA) (va : Z) : Z := u32 (vma_file_offset v va).

(** The body of the loop of [usertrap] for the VMA that holds [va], up to
    its [break]; the value is [find]. [read_failed] tells that the branch
    for a backing file ended in one of its [break]s. *)
Definition fault_in_vma (v : mmap_VMA) (va : Z) : M Z :=
  let* p := myproc in
  let* cause := r_scause in
  if vma_denies cause v then
    printf "usertrap(): unexpected scause 0x%lx pid=%d\n" ;;;
    printf "            sepc=0x%lx stval=0x%lx\n" ;;;
    setkilled ;;; ret 0
  else
  let* pa := kalloc in
  if pa =? 0 then
    printf "usertrap(): kalloc failed\n" ;;; setkilled ;;; ret 0
  else
  memset pa 0 PGSIZE ;;;
  let flag := vma_flags v in
  let* read_failed :=
    (if negb (vma_file v =? 0) then
       let f := vma_file v in
       if f =? 0 then
         printf "usertrap(): file not found\n" ;;; setkilled ;;; ret true
       else
       emit EvBeginOp ;;;
       emit (EvIlock f) ;;;
       let* n := readi f pa (readi_off v va) PGSIZE in
       emit (EvIunlock f) ;;;
       emit EvEndOp ;;;
       if n <? 0 then
         kfree pa ;;; printf "usertrap(): fileread failed\n" ;;; setkilled ;;; ret true
       else ret false
     else ret false) in
  if read_failed then ret 1 else
  let* r := mappages (p_pagetable p) (PGROUNDDOWN va) PGSIZE pa flag in
  if negb (r =? 0) then
    kfree pa ;;; printf "usertrap(): mappages failed\n" ;;; setkilled ;;; ret 1
  else ret 1.

(** The loop over [p->vma]: invalid slots and slots that do not hold [va]
    are skipped, the first slot that holds it is handled and ends the loop. *)
Fixpoint vma_scan (vmas : list mmap_VMA) (va : Z) : M Z :=
  match vmas with
  | [] => ret 0
  | v :: rest =>
      if vma_valid v =? 0 then vma_scan rest va
      else if vma_contains v va then fault_in_vma v va
      else vma_scan rest va
  end.

(** The page-fault branch of [usertrap]. *)
Definition page_fault : M unit :=
  let* va := r_stval in
  let* p := myproc in
  let* find := vma_scan (take (Z.to_nat MAX_VMA) (p_vma p)) va in
  when_ (find =? 0)
    (printf "usertrap(): unexpected scause 0x%lx pid=%d\n" ;;;
     printf "            sepc=0x%lx stval=0x%lx\n" ;;;
     setkilled).

(** [void usertrapret(void)] *)
Definition usertrapret : M unit :=
  let* p := myproc in
  intr_off ;;;
  w_stvec (u64 (TRAMPOLINE + (uservec - trampoline))) ;;;
  let* ksatp := r_satp in
  let* hart := r_tp in
  update_proc (set_kernel_frame ksatp (u64 (p_kstack p + PGSIZE)) usertrap_addr hart) ;;;
  let* x := r_sstatus in
  let x := Z.land x (u64 (Z.lnot SSTATUS_SPP)) in
  let x := Z.lor x SSTATUS_SPIE in
  w_sstatus x ;;;
  let* p' := myproc in
  w_sepc (tf_epc p') ;;;
  emit (EvUserret (MAKE_SATP (p_pagetable p'))).

(** [void usertrap(void)] *)
Definition usertrap : M unit :=
  let* st := r_sstatus in
  if negb (Z.land st SSTATUS_SPP =? 0) then panic "usertrap: not from user mode" else
  w_stvec kernelvec ;;;
  let* p := myproc in
  let* pc := r_sepc in
  update_proc (set_epc pc) ;;;
  let* cause := r_scause in
  let* which_dev :=
    (if cause =? 8 then
       let* k := killed in
       when_ k (exit (-1)) ;;;
       let* p1 := myproc in
       update_proc (set_epc (u64 (tf_epc p1 + 4))) ;;;
       intr_on ;;;
       syscall ;;;
       ret 0
     else
       let* dev := devintr in
       if negb (dev =? 0) then ret dev
       else
         let* c := r_scause in
         (if (c =? 0xd) || (c =? 0xf) || (c =? 0xc) then page_fault
          else
            printf "usertrap(): unexpected scause 0x%lx pid=%d\n" ;;;
            printf "            sepc=0x%lx stval=0x%lx\n" ;;;
            setkilled) ;;;
         ret dev) in
  let* k := killed in
  when_ k (exit (-1)) ;;;
  when_ (which_dev =? 2) yield ;;;
  usertrapret.

(** [void kerneltrap()] *)
Definition kerneltrap : M unit :=
  let* saved_sepc := r_sepc in
  let* saved_sstatus := r_sstatus in
  let* saved_scause := r_scause in
  if Z.land saved_sstatus SSTATUS_SPP =? 0 then
    panic "kerneltrap: not from supervisor mode" else
  let* ie := intr_get in
  if ie then panic "kerneltrap: interrupts enabled" else
  let* which_dev := devintr in
  (if which_dev =? 0 then
     printf "scause=0x%lx sepc=0x%lx stval=0x%lx\n" ;;;
     panic "kerneltrap"
   else ret tt) ;;;
  let* running := have_proc in
  when_ ((which_dev =? 2) && running) yield ;;;
  w_sepc saved_sepc ;;;
  w_sstatus saved_sstatus.

(** *** Vocabulary of the statements about the handlers *)

(** The state [usertrap] has built when it looks at the cause: traps go to
    [kernelvec] and the trapped program counter is in the trap frame. *)
Definition entered (s : kstate) : kstate :=
  with_cur (fmap (set_epc (sepc (csrs s)))) (with_csrs (set_stvec kernelvec) s).

(** What [devintr] calls between [plic_claim] and [plic_complete]. *)
Definition service (irq : Z) : list event :=
  if irq =? UART0_IRQ then [EvUartintr]
  else if irq =? VIRTIO0_IRQ then [EvVirtioDiskIntr]
  else if negb (irq =? 0) then [EvPrintf "unexpected interrupt irq=%d\n"]
  else [].

(** The state after a timer tick. *)
Definition ticked (s : kstate) : kstate :=
  with_csrs (set_stimecmp (u64 (time (csrs s) + 1000000)))
    (if tp (csrs s) =? 0 then with_ticks (fun t => u32 (t + 1)) s else s).

(** The process is marked killed. *)
Definition marked_killed (s : kstate) : kstate := with_cur (fmap (set_killed 1)) s.

(** What [usertrap] prints for a fault it does not accept. *)
Definition violation_report : list event :=
  [EvPrintf "usertrap(): unexpected scause 0x%lx pid=%d\n";
   EvPrintf "            sepc=0x%lx stval=0x%lx\n"].




(** *** The steps of [fault_in_vma], by name *)

(** The state after [kalloc] handed out the first free page [pa] and
    [memset] zeroed it: lines 81 to 87. *)
Definition page_zeroed (pa : Z) (rest : list Z) (s : kstate) : kstate :=
  with_mem (fun m =>
    let old := default [] (m !! pa) in
    <[pa := replicate (Z.to_nat PGSIZE) (u8 0) ++ drop (Z.to_nat PGSIZE) old]> m)
    (with_freelist (fun _ => rest) s).

(** The branch for a backing file, lines 95 to 116; the value tells that
    it ended in one of its [break]s. *)
Definition fault_read (v : mmap_VMA) (va pa : Z) : M bool :=
  if negb (vma_file v =? 0) then
    let f := vma_file v in
    if f =? 0 then
      printf "usertrap(): file not found\n" ;;; setkilled ;;; ret true
    else
    emit EvBeginOp ;;;
    emit (EvIlock f) ;;;
    let* n := readi f pa (readi_off v va) PGSIZE in
    emit (EvIunlock f) ;;;
    emit EvEndOp ;;;
    if n <? 0 then
      kfree pa ;;; printf "usertrap(): fileread failed\n" ;;; setkilled ;;; ret true
    else ret false
  else ret false.

(** The mapping of the page, lines 117 to 124. *)
Definition fault_map (v : mmap_VMA) (va pa : Z) (p : proc) : M Z :=
  let* r := mappages (p_pagetable p) (PGROUNDDOWN va) PGSIZE pa (vma_flags v) in
  if negb (r =? 0) then
    kfree pa ;;; printf "usertrap(): mappages failed\n" ;;; setkilled ;;; ret 1
  else ret 1.

(** What the handler calls around a read of the backing file. *)
Definition file_read_trace (v : mmap_VMA) (va pa : Z) : list event :=
  [EvBeginOp; EvIlock (vma_file v);
   EvReadi (vma_file v) pa (readi_off v va) PGSIZE;
   EvIunlock (vma_file v); EvEndOp].

End Code.

(** The values of the headers on qemu's [virt] machine, used for the
    concrete runs. *)
Definition qemu_virt : kernel_h := {|
  SSTATUS_SPP := Z.shiftl 1 8; SSTATUS_SPIE := Z.shiftl 1 5; SSTATUS_SIE := Z.shiftl 1 1;
  PGSIZE := 4096;
  PGROUNDDOWN := fun a => Z.land a (u64 (Z.lnot (4096 - 1)));
  MAKE_SATP := fun pt => Z.lor (Z.shiftl 8 60) (Z.shiftr pt 12);
  PTE_R := Z.shiftl 1 1; PTE_W := Z.shiftl 1 2; PTE_X := Z.shiftl 1 3;
  PTE_U := Z.shiftl 1 4;
  UART0_IRQ := 10; VIRTIO0_IRQ := 1;
  TRAMPOLINE := Z.shiftl 1 38 - 4096;
  MAX_VMA := 16;
  PROT_READ := 1; PROT_WRITE := 2; PROT_EXEC := 4;
  kernelvec := 0x80005000; trampoline := 0x80007000; uservec := 0x80007000;
  userret := 0x8000709c; usertrap_addr := 0x80002000
|}.

(** *** Concrete states *)

(** A process with one file-backed, read-only mapping of three pages at
    0x40000000, from offset 4096 of file 7. *)
Definition demo_proc : proc :=
  mk_proc 0 3 0 0 0 0 0
    [mk_vma 0 0 0 0 0 0; mk_vma 1 0x40000000 (3 * 4096) 1 7 4096]
    0x87fff000 0x3fffffa000.

(** A kernel that runs [demo_proc] on hart 0; file 7 has 5000 bytes, all 0xAB,
    and the first free page is full of junk. *)
Definition demo_kernel (c : csr) : kstate :=
  mk_kstate c (Some demo_proc) 41
    [0x87654000; 0x87655000]
    {[ 0x87654000 := replicate 4096 5 ]}
    {[ 7 := mk_inode (replicate 5000 0xAB) false ]}
    [] 0 0 [] false.

(** Registers at a trap from kernel mode (SPP set, interrupts off). *)
Definition kernel_csr (cause : Z) : csr :=
  mk_csr 0x80001234 0x100 cause 0 0x80005000 0x8000000000087fff 0 5000000 0.

(** Registers at a trap from user mode (SPP clear). *)
Definition user_csr (cause tval : Z) : csr :=
  mk_csr 0x1000 0x20 cause tval 0x3ffffff000 0x8000000000087fff 0 5000000 0.

(** A system call of [demo_proc], and the same with the process killed. *)
Definition syscall_trap : kstate := demo_kernel (user_csr 8 0).
Definition syscall_trap_killed : kstate :=
  with_cur (fmap (set_killed 1)) syscall_trap.

(** A store into the read-only mapping, a load from its first page, and a
    load from an address that no VMA holds. *)
Definition store_fault : kstate := demo_kernel (user_csr 0xf 0x40000123).
Definition load_fault : kstate := demo_kernel (user_csr 0xd 0x40000010).
Definition stray_fault : kstate := demo_kernel (user_csr 0xd 0x50000000).

(** The interrupt controller hands out identifier 33, the network card of
    the [virt] machine, on an external interrupt. *)
Definition network_irq_pending : kstate :=
  mk_kstate (kernel_csr 0x8000000000000009) (Some demo_proc) 41 [] ∅ ∅ [] 33 0 [] false.

(** A timer interrupt in kernel mode; the [yield] it causes comes back after
    another process has made a system call (cause 8). *)
Definition timer_then_nested_trap : kstate :=
  mk_kstate (kernel_csr 0x8000000000000005) (Some demo_proc) 41 [] ∅ ∅ [] 0 0
            [(0x2000, 0x20, 8)] false.


(** The same timer interrupt, once [kerneltrap] has handled it. *)
Definition timer_trap_handled : kstate :=
  match kerneltrap (hdr := qemu_virt) timer_then_nested_trap with
  | (_, Done _ s') => s'
  | _ => timer_then_nested_trap
  end.

(** A trap that claims to come from user code while the status says
    supervisor, an illegal instruction (cause 2) of [demo_proc], and a timer
    interrupt taken in user mode whose [yield] comes back after another
    process has trapped. *)
Definition misrouted_trap : kstate := demo_kernel (kernel_csr 8).
Definition illegal_instruction : kstate := demo_kernel (user_csr 2 0).
Definition user_timer_trap : kstate :=
  mk_kstate (user_csr 0x8000000000000005 0) (Some demo_proc) 41
    [0x87654000; 0x87655000] ∅ ∅ [] 0 0 [(0x2000, 0x20, 8)] false.

(** The load of [load_fault] with no free page, with an inode whose reads
    fail, and with a page table that cannot take the mapping. *)
Definition load_fault_no_page : kstate := with_freelist (fun _ => []) load_fault.
Definition load_fault_bad_read : kstate :=
  mk_kstate (user_csr 0xd 0x40000010) (Some demo_proc) 41
    [0x87654000; 0x87655000]
    {[ 0x87654000 := replicate 4096 5 ]}
    {[ 7 := mk_inode (replicate 5000 0xAB) true ]}
    [] 0 0 [] false.
Definition load_fault_bad_map : kstate :=
  mk_kstate (user_csr 0xd 0x40000010) (Some demo_proc) 41
    [0x87654000; 0x87655000]
    {[ 0x87654000 := replicate 4096 5 ]}
    {[ 7 := mk_inode (replicate 5000 0xAB) false ]}
    [] 0 (-1) [] false.


(** A process whose second VMA, read-write, lies inside its first one,
    read-only; and a store into the page that both hold. *)
Definition overlap_proc : proc :=
  mk_proc 0 5 0 0 0 0 0
    [mk_vma 1 0x40000000 (3 * 4096) 1 0 0; mk_vma 1 0x40000000 4096 3 0 0]
    0x87ffd000 0x3fffff6000.
Definition overlap_store_fault : kstate :=
  mk_kstate (user_csr 0xf 0x40000123) (Some overlap_proc) 41
    [0x87654000; 0x87655000] ∅ ∅ [] 0 0 [] false.

(** A mapping of two pages that starts one page below the top of the
    64-bit address space. *)
Definition top_vma : mmap_VMA := mk_vma 1 (2^64 - 4096) 8192 3 0 0.

End Trap.

(** * Facts about the driver *)
Module E1000Facts.
Import E1000.
Section Facts.
Context {dev : e1000_dev_h} {sizes : ring_sizes} {addrs : ring_addrs}.

Lemma after_nil {A} (r : list event * outcome A) : after [] r = r.
Proof. destruct r; reflexivity. Qed.

Lemma after_after {A} t1 t2 (r : list event * outcome A) :
  after t1 (after t2 r) = after (t1 ++ t2) r.
Proof. unfold after; simpl. by rewrite app_assoc. Qed.

Lemma after_pair {A} t1 t2 (o : outcome A) : after t1 (t2, o) = (t1 ++ t2, o).
Proof. reflexivity. Qed.

Lemma bind_ret {A B} (a : A) (k : A -> M B) s : bind (ret a) k s = k a s.
Proof. unfold bind, ret. apply after_nil. Qed.

Lemma bind_panic {A B} msg (k : A -> M B) s : bind (panic msg) k s = ([], Panicked msg).
Proof. reflexivity. Qed.

Lemma bind_get {B} (k : state -> M B) s : bind get k s = k s s.
Proof. unfold bind, get. apply after_nil. Qed.

Lemma bind_modify {B} f (k : unit -> M B) s : bind (modify f) k s = k tt (f s).
Proof. unfold bind, modify. apply after_nil. Qed.

Lemma bind_emit {B} e (k : unit -> M B) s : bind (emit e) k s = after [e] (k tt s).
Proof. reflexivity. Qed.

Lemma bind_bind {A B C} (m : M A) (k1 : A -> M B) (k2 : B -> M C) s :
  bind (bind m k1) k2 s = bind m (fun a => bind (k1 a) k2) s.
Proof.
  unfold bind. destruct (m s) as [t1 [a s1| | |]]; try reflexivity.
  unfold after at 1 3; simpl.
  destruct (k1 a s1) as [t2 [b s2| | |]]; simpl; try reflexivity.
  unfold after; simpl. by rewrite app_assoc.
Qed.

Lemma bind_holding {B} (k : bool -> M B) s : bind holding k s = k (e1000_lock s) s.
Proof. unfold bind, holding. apply after_nil. Qed.

Lemma bind_acquire {B} (k : unit -> M B) s :
  e1000_lock s = false ->
  bind acquire k s = after [EvAcquire] (k tt (set_lock true s)).
Proof.
  intros Hl. unfold acquire. rewrite bind_bind, bind_holding, Hl.
  by rewrite bind_bind, bind_emit, bind_modify.
Qed.

Lemma bind_release {B} (k : unit -> M B) s :
  e1000_lock s = true ->
  bind release k s = after [EvRelease] (k tt (set_lock false s)).
Proof.
  intros Hl. unfold release. rewrite bind_bind, bind_holding, Hl.
  by rewrite bind_bind, bind_emit, bind_modify.
Qed.

Lemma bind_read_reg {B} r (k : Z -> M B) s : bind (read_reg r) k s = k (regs s !!! r) s.
Proof. unfold bind, read_reg. apply after_nil. Qed.

Lemma bind_write_reg {B} r v (k : unit -> M B) s :
  bind (write_reg r v) k s = k tt (set_regs (<[r := u32 v]> (regs s)) s).
Proof. unfold write_reg. by rewrite bind_modify. Qed.

Lemma bind_at_index {A B} (l : list A) i x (k : A -> M B) s :
  0 <= i -> l !! Z.to_nat i = Some x -> bind (at_index l i) k s = k x s.
Proof.
  intros Hi Hx. unfold at_index.
  destruct (Z.ltb_spec i 0); [lia|]. rewrite Hx. apply bind_ret.
Qed.

Lemma bind_kfree {B} pa (k : unit -> M B) s :
  bind (kfree pa) k s = after [EvKfree pa] (k tt (set_freelist (pa :: freelist s) s)).
Proof. unfold kfree. by rewrite bind_bind, bind_emit, bind_modify. Qed.

Lemma bind_kalloc {B} (k : Z -> M B) s :
  bind kalloc k s =
    after [EvKalloc (hd 0 (freelist s))]
          (k (hd 0 (freelist s)) (set_freelist (tl (freelist s)) s)).
Proof.
  unfold kalloc. rewrite bind_bind, bind_get.
  destruct (freelist s) as [|pa rest] eqn:E; simpl.
  - rewrite bind_bind, bind_emit, bind_ret. f_equal. f_equal.
    destruct s; simpl in *; by subst.
  - by rewrite bind_bind, bind_modify, bind_bind, bind_emit, bind_ret.
Qed.

(** *** [e1000_transmit] *)

Lemma set_lock_id s : e1000_lock s = false -> set_lock false (set_lock true s) = s.
Proof. destruct s; simpl; intros ->; reflexivity. Qed.

Lemma range_guard t n : 0 <= t < n -> (t <? 0) || (t >=? n) = false.
Proof.
  intros. apply orb_false_iff. split; [apply Z.ltb_ge; lia|].
  rewrite Z.geb_leb. apply Z.leb_gt; lia.
Qed.

Lemma tx_tail_range s : 0 < TX_RING_SIZE -> 0 <= tx_tail s < TX_RING_SIZE.
Proof. intros. apply Z.mod_pos_bound; lia. Qed.

Lemma tx_tail_lt_length {A} s (l : list A) :
  0 < TX_RING_SIZE -> length l = Z.to_nat TX_RING_SIZE ->
  (Z.to_nat (tx_tail s) < length l)%nat.
Proof. intros HN ->. pose proof (tx_tail_range s HN). lia. Qed.

Lemma transmit_fail s buf len :
  0 < TX_RING_SIZE -> tx_wf s ->
  tx_done_at s (tx_tail s) = false ->
  e1000_transmit buf len s = ([EvAcquire; EvRelease], Done (-1) s).
Proof.
  intros HN (Hr & Hb & Hl) Hdone.
  pose proof (tx_tail_range s HN) as Ht.
  destruct (lookup_lt_is_Some_2 (tx_ring s) _ (tx_tail_lt_length s _ HN Hr)) as [d Hd].
  unfold tx_done_at in Hdone. rewrite Hd in Hdone.
  apply negb_false_iff in Hdone.
  unfold e1000_transmit.
  rewrite bind_acquire by done. rewrite bind_read_reg.
  change (regs (set_lock true s) !!! E1000_TDT `mod` TX_RING_SIZE) with (tx_tail s).
  rewrite range_guard by done.
  unfold get_tx_desc. rewrite bind_bind, bind_get.
  rewrite (bind_at_index _ _ d) by (done || lia).
  rewrite Hdone. rewrite bind_holding. simpl e1000_lock. cbv iota.
  rewrite bind_release by done.
  rewrite set_lock_id by done. reflexivity.
Qed.

Lemma transmit_ok s buf len :
  0 < TX_RING_SIZE -> tx_wf s ->
  tx_done_at s (tx_tail s) = true ->
  e1000_transmit buf len s =
    (EvAcquire ::
       (let old := default 0 (tx_bufs s !! Z.to_nat (tx_tail s)) in
        if old =? 0 then [] else [EvKfree old]) ++ [EvRelease],
     Done 0 (transmitted buf len s)).
Proof.
  intros HN (Hr & Hb & Hl) Hdone.
  pose proof (tx_tail_range s HN) as Ht.
  destruct (lookup_lt_is_Some_2 (tx_ring s) _ (tx_tail_lt_length s _ HN Hr)) as [d Hd].
  destruct (lookup_lt_is_Some_2 (tx_bufs s) _ (tx_tail_lt_length s _ HN Hb)) as [old Hold].
  unfold tx_done_at in Hdone. rewrite Hd in Hdone.
  apply negb_true_iff in Hdone.
  unfold transmitted. rewrite Hd, Hold. simpl default.
  unfold e1000_transmit.
  rewrite bind_acquire by done. rewrite bind_read_reg.
  change (regs (set_lock true s) !!! E1000_TDT `mod` TX_RING_SIZE) with (tx_tail s).
  rewrite range_guard by done.
  unfold get_tx_desc at 1. rewrite bind_bind, bind_get.
  rewrite (bind_at_index _ _ d) by (done || lia).
  rewrite Hdone.
  unfold get_tx_buf at 1. rewrite bind_bind, bind_get.
  rewrite (bind_at_index _ _ old) by (done || lia).
  assert (Hins : forall s1 (k : M Z),
    tx_bufs s1 = tx_bufs s -> tx_ring s1 = tx_ring s -> e1000_lock s1 = true ->
    regs s1 = regs s ->
    (put_tx_buf (tx_tail s) buf ;;; k) s1 =
      k (set_tx_bufs (<[Z.to_nat (tx_tail s) := buf]> (tx_bufs s)) s1)).
  { intros s1 k E1 E2 E3 E4. unfold put_tx_buf, get_tx_buf.
    rewrite !bind_bind, bind_get, E1.
    rewrite (bind_at_index _ _ old) by (done || lia).
    by rewrite bind_modify, E1. }
  assert (Hfin : forall s1,
    tx_bufs s1 = tx_bufs s -> tx_ring s1 = tx_ring s -> e1000_lock s1 = true ->
    regs s1 = regs s -> rx_ring s1 = rx_ring s -> rx_bufs s1 = rx_bufs s ->
    device s1 = device s ->
    (put_tx_buf (tx_tail s) buf ;;;
     let* desc := get_tx_desc (tx_tail s) in
     put_tx_desc (tx_tail s)
       (mk_tx_desc (u64 buf) (u16 len) (txd_cso desc)
                   (u8 (Z.lor E1000_TXD_CMD_EOP E1000_TXD_CMD_RS)) 0
                   (txd_css desc) (txd_special desc)) ;;;
     write_reg E1000_TDT ((tx_tail s + 1) mod TX_RING_SIZE) ;;;
     release ;;; ret 0) s1 =
    ([EvRelease],
     Done 0 (mk_state
       (<[Z.to_nat (tx_tail s) :=
            mk_tx_desc (u64 buf) (u16 len) (txd_cso d)
              (u8 (Z.lor E1000_TXD_CMD_EOP E1000_TXD_CMD_RS)) 0
              (txd_css d) (txd_special d)]> (tx_ring s))
       (<[Z.to_nat (tx_tail s) := buf]> (tx_bufs s))
       (rx_ring s) (rx_bufs s)
       (<[E1000_TDT := u32 ((tx_tail s + 1) mod TX_RING_SIZE)]> (regs s))
       false (freelist s1) (device s)))).
  { intros s1 E1 E2 E3 E4 E5 E6 E7. rewrite Hins by done.
    unfold get_tx_desc at 1. rewrite bind_bind, bind_get. simpl tx_ring. rewrite E2.
    rewrite (bind_at_index _ _ d) by (done || lia).
    unfold put_tx_desc, get_tx_desc. rewrite !bind_bind, bind_get. simpl tx_ring. rewrite E2.
    rewrite (bind_at_index _ _ d) by (done || lia).
    rewrite bind_modify, bind_write_reg. rewrite bind_release by (simpl; done).
    unfold ret, after; simpl. destruct s1; simpl in *; subst; reflexivity. }
  destruct (old =? 0) eqn:Eold.
  - rewrite bind_ret. rewrite Hfin by done. reflexivity.
  - rewrite bind_kfree. rewrite Hfin by done. reflexivity.
Qed.


Lemma u32_small z : 0 <= z < 2^32 -> u32 z = z.
Proof. intros. unfold u32. apply Z.mod_small; lia. Qed.

Lemma transmitted_wf s buf len : tx_wf s -> tx_wf (transmitted buf len s).
Proof.
  intros (Hr & Hb & Hl). unfold tx_wf, transmitted; simpl.
  by rewrite !length_insert.
Qed.

Lemma transmitted_tail s buf len :
  0 < TX_RING_SIZE < 2^31 ->
  regs (transmitted buf len s) !!! E1000_TDT = (tx_tail s + 1) mod TX_RING_SIZE.
Proof.
  intros HN. unfold transmitted; simpl. rewrite lookup_total_insert_eq.
  apply u32_small.
  pose proof (Z.mod_pos_bound (tx_tail s + 1) TX_RING_SIZE). lia.
Qed.

Lemma transmitted_done_at s buf len i :
  tx_wf s -> 0 < TX_RING_SIZE -> 0 <= i ->
  tx_done_at (transmitted buf len s) i =
    if decide (i = tx_tail s) then false else tx_done_at s i.
Proof.
  intros (Hr & Hb & Hl) HN Hi. unfold tx_done_at, transmitted; simpl.
  pose proof (tx_tail_range s HN) as Ht.
  case_decide as E.
  - subst i. rewrite list_lookup_insert_eq by (by apply tx_tail_lt_length).
    simpl. reflexivity.
  - rewrite list_lookup_insert_ne by lia. reflexivity.
Qed.

Lemma mod_succ_shift t j n :
  0 < n -> ((t + 1) mod n + j) mod n = (t + (j + 1)) mod n.
Proof.
  intros. rewrite Zplus_mod_idemp_l. f_equal. lia.
Qed.

Lemma mod_shift_ne t j n :
  0 <= t < n -> 0 < j < n -> (t + j) mod n <> t.
Proof.
  intros Ht Hj E.
  destruct (Z_lt_ge_dec (t + j) n).
  - rewrite Z.mod_small in E by lia. lia.
  - assert ((t + j) mod n = t + j - n); [|lia].
    symmetry. apply (Z.mod_unique_pos _ _ 1); lia.
Qed.

Lemma mod_shift_full t n : 0 <= t < n -> (t + n) mod n = t.
Proof.
  intros. symmetry. apply (Z.mod_unique_pos _ _ 1); lia.
Qed.

(** When the next [m] descriptors from the tail on are done and the other
    ones are not, [m] transmits succeed and the one after them fails. *)
Lemma transmit_seq_window (m : nat) : forall s reqs,
  0 < TX_RING_SIZE < 2^31 -> tx_wf s ->
  Z.of_nat m <= TX_RING_SIZE ->
  length reqs = S m ->
  (forall j, 0 <= j < Z.of_nat m ->
     tx_done_at s ((tx_tail s + j) mod TX_RING_SIZE) = true) ->
  (forall j, Z.of_nat m <= j < TX_RING_SIZE ->
     tx_done_at s ((tx_tail s + j) mod TX_RING_SIZE) = false) ->
  transmit_seq reqs s = replicate m 0 ++ [-1].
Proof.
  induction m as [|m IH]; intros s reqs HN Hwf Hm Hlen Hdone Hbusy.
  - destruct reqs as [|[buf len] [|? ?]]; try discriminate. simpl.
    pose proof (tx_tail_range s (proj1 HN)) as Ht.
    rewrite transmit_fail; [done|lia|done|].
    specialize (Hbusy 0). rewrite Z.add_0_r, Z.mod_small in Hbusy by lia.
    apply Hbusy. lia.
  - destruct reqs as [|[buf len] rest]; try discriminate.
    pose proof (tx_tail_range s (proj1 HN)) as Ht.
    simpl transmit_seq. rewrite transmit_ok; [|lia|done|].
    2:{ specialize (Hdone 0). rewrite Z.add_0_r, Z.mod_small in Hdone by lia.
        apply Hdone. lia. }
    simpl replicate. simpl app. f_equal.
    assert (Htl : tx_tail (transmitted buf len s) = (tx_tail s + 1) mod TX_RING_SIZE).
    { unfold tx_tail at 1. rewrite transmitted_tail by done.
      apply Z.mod_mod. lia. }
    apply IH; [done|by apply transmitted_wf|lia|simpl in Hlen; lia| |].
    + intros j Hj. rewrite Htl, mod_succ_shift by lia.
      rewrite transmitted_done_at; [|done|lia|apply Z.mod_pos_bound; lia].
      rewrite decide_False by (apply mod_shift_ne; lia).
      apply Hdone. lia.
    + intros j Hj. rewrite Htl, mod_succ_shift by lia.
      rewrite transmitted_done_at; [|done|lia|apply Z.mod_pos_bound; lia].
      case_decide as E; [done|].
      apply Hbusy. destruct (decide (j + 1 = TX_RING_SIZE)) as [E'|]; [|lia].
      rewrite E', mod_shift_full in E by lia. done.
Qed.

(** *** [e1000_recv] *)

Lemma relock s :
  e1000_lock s = true -> set_lock true (device_step (set_lock false s)) = device_step s.
Proof.
  destruct s as [a b c d e f g h]; simpl; intros ->.
  unfold device_step; simpl. by destruct h.
Qed.

Lemma rx_complete_length c ring : length (rx_complete c ring) = length ring.
Proof. unfold rx_complete. destruct (ring !! rc_slot c); [apply length_insert|done]. Qed.

Lemma device_step_rx_ring_length s : length (rx_ring (device_step s)) = length (rx_ring s).
Proof.
  unfold device_step. destruct (device s) as [|cs rest]; [done|]. simpl.
  generalize (rx_ring s). induction cs as [|c cs IH]; intros ring; simpl; [done|].
  by rewrite IH, rx_complete_length.
Qed.

Lemma device_step_frame s :
  rx_bufs (device_step s) = rx_bufs s /\ regs (device_step s) = regs s /\
  e1000_lock (device_step s) = e1000_lock s /\ freelist (device_step s) = freelist s /\
  tx_ring (device_step s) = tx_ring s /\ tx_bufs (device_step s) = tx_bufs s /\
  device (device_step s) = tl (device s).
Proof.
  unfold device_step. destruct (device s) eqn:E; simpl; rewrite ?E; by repeat split.
Qed.

Lemma device_step_quiet s : device s = [] -> device_step s = s.
Proof. unfold device_step. by intros ->. Qed.

(** One turn of the loop. *)
Lemma recv_loop_step fuel tail s :
  e1000_lock s = true -> rx_wf s -> 0 <= tail < RX_RING_SIZE ->
  recv_loop (S fuel) tail s =
    if rx_done_at s tail then
      let buf := default 0 (rx_bufs s !! Z.to_nat tail) in
      let len := rxd_length (default rx_desc_zero (rx_ring s !! Z.to_nat tail)) in
      let s1 := device_step s in
      let pa := hd 0 (freelist s1) in
      if pa =? 0 then
        ([EvRelease; EvNetRx tail buf len; EvAcquire; EvKalloc pa], Panicked "e1000")
      else
        after [EvRelease; EvNetRx tail buf len; EvAcquire; EvKalloc pa]
              (recv_loop fuel (Z.rem (tail + 1) RX_RING_SIZE) (refilled tail pa s1))
    else ([], Done tt s).
Proof.
  intros Hl (Hr & Hb) Ht.
  assert (Hi : forall {A} (l : list A), length l = Z.to_nat RX_RING_SIZE ->
                 (Z.to_nat tail < length l)%nat) by (intros A l ->; lia).
  destruct (lookup_lt_is_Some_2 _ _ (Hi _ _ Hr)) as [d Hd].
  destruct (lookup_lt_is_Some_2 _ _ (Hi _ _ Hb)) as [buf Hbuf].
  unfold rx_done_at. rewrite Hd, Hbuf. simpl default.
  cbn [recv_loop].
  unfold get_rx_desc at 1. rewrite bind_bind, bind_get.
  rewrite (bind_at_index _ _ d) by (done || lia).
  destruct (Z.land (rxd_status d) E1000_RXD_STAT_DD =? 0) eqn:Edd; simpl negb; cbv iota.
  { reflexivity. }
  unfold get_rx_buf at 1. rewrite bind_bind, bind_get.
  rewrite (bind_at_index _ _ buf) by (done || lia).
  rewrite bind_release by done.
  unfold net_rx. rewrite bind_bind, bind_emit, bind_modify.
  rewrite bind_acquire by (rewrite (proj1 (proj2 (proj2 (device_step_frame _)))); done).
  rewrite relock by done.
  set (s1 := device_step s).
  destruct (device_step_frame s) as (F1 & F2 & F3 & F4 & F5 & F6 & F7).
  pose proof (device_step_rx_ring_length s) as Hr1. fold s1 in F1, F2, F3, F4, F5, F6, F7, Hr1.
  assert (Hr1' : length (rx_ring s1) = Z.to_nat RX_RING_SIZE) by congruence.
  destruct (lookup_lt_is_Some_2 _ _ (Hi _ _ Hr1')) as [d1 Hd1].
  rewrite bind_kalloc.
  set (pa := hd 0 (freelist s1)).
  unfold put_rx_buf at 1, get_rx_buf at 1. rewrite !bind_bind, bind_get.
  simpl rx_bufs. rewrite F1.
  rewrite (bind_at_index _ _ buf) by (done || lia).
  rewrite bind_modify.
  rewrite !after_after. simpl app.
  destruct (pa =? 0) eqn:Epa.
  { reflexivity. }
  unfold get_rx_desc at 1. rewrite bind_bind, bind_get. simpl rx_ring.
  rewrite (bind_at_index _ _ d1) by (done || lia).
  unfold put_rx_desc at 1, get_rx_desc at 1. rewrite !bind_bind, bind_get. simpl rx_ring.
  rewrite (bind_at_index _ _ d1) by (done || lia).
  rewrite bind_modify.
  unfold get_rx_desc at 1. rewrite bind_bind, bind_get. simpl rx_ring.
  rewrite (bind_at_index _ _ _) by
    (lia || (apply list_lookup_insert_eq; rewrite Hr1'; lia)).
  unfold put_rx_desc at 1, get_rx_desc at 1. rewrite !bind_bind, bind_get. simpl rx_ring.
  rewrite (bind_at_index _ _ _) by
    (lia || (apply list_lookup_insert_eq; rewrite Hr1'; lia)).
  rewrite bind_modify, bind_write_reg.
  f_equal. f_equal.
  unfold refilled. rewrite Hd1. simpl.
  rewrite list_insert_insert_eq. rewrite F1.
  destruct s1; simpl in *; subst; reflexivity.
Qed.

Lemma next_tail tail :
  0 < RX_RING_SIZE -> 0 <= tail < RX_RING_SIZE ->
  Z.rem (tail + 1) RX_RING_SIZE = (tail + 1) mod RX_RING_SIZE /\
  0 <= Z.rem (tail + 1) RX_RING_SIZE < RX_RING_SIZE.
Proof.
  intros HN Ht. rewrite Z.rem_mod_nonneg by lia.
  split; [done|]. apply Z.mod_pos_bound; lia.
Qed.

Lemma refilled_pre tail pa s :
  e1000_lock s = true -> rx_wf s ->
  e1000_lock (refilled tail pa s) = true /\ rx_wf (refilled tail pa s).
Proof.
  intros Hl (Hr & Hb). unfold rx_wf, refilled; simpl.
  by rewrite !length_insert.
Qed.

Lemma device_step_pre s :
  e1000_lock s = true -> rx_wf s ->
  e1000_lock (device_step s) = true /\ rx_wf (device_step s).
Proof.
  intros Hl (Hr & Hb). destruct (device_step_frame s) as (F1 & _ & F3 & _).
  unfold rx_wf. rewrite device_step_rx_ring_length, F1, F3. done.
Qed.

Lemma refilled_done_at tail pa s i :
  rx_wf s -> 0 <= tail < RX_RING_SIZE -> 0 <= i ->
  rx_done_at (refilled tail pa s) i =
    if decide (i = tail) then false else rx_done_at s i.
Proof.
  intros (Hr & Hb) Ht Hi. unfold rx_done_at, refilled; simpl.
  case_decide as E.
  - subst i. rewrite list_lookup_insert_eq by (rewrite Hr; lia). reflexivity.
  - rewrite list_lookup_insert_ne by lia. reflexivity.
Qed.

Lemma drain_trace_cons slot buf len pa l :
  drain_trace ((slot, buf, len, pa) :: l) =
    [EvRelease; EvNetRx slot buf len; EvAcquire; EvKalloc pa] ++ drain_trace l.
Proof. reflexivity. Qed.

Lemma deliveries_drain l : deliveries (drain_trace l) = l.*1.
Proof.
  induction l as [|[[[? ?] ?] ?] l IH]; [done|].
  rewrite drain_trace_cons. unfold deliveries in *. by rewrite omap_app, IH.
Qed.

Lemma allocations_drain l : allocations (drain_trace l) = l.*2.
Proof.
  induction l as [|[[[? ?] ?] ?] l IH]; [done|].
  rewrite drain_trace_cons. unfold allocations in *. by rewrite omap_app, IH.
Qed.


Lemma turn_pre tail s :
  0 < RX_RING_SIZE -> loop_pre tail s ->
  loop_pre ((tail + 1) mod RX_RING_SIZE) (turn_state tail s).
Proof.
  intros HN (Hl & Hwf & Ht).
  destruct (device_step_pre s Hl Hwf) as [Hl1 Hwf1].
  destruct (refilled_pre tail (turn_page s) _ Hl1 Hwf1) as [Hl2 Hwf2].
  repeat split; try apply Hwf2; try done; apply Z.mod_pos_bound; lia.
Qed.

(** Induction over the turns of the loop: a property of (start index, start
    state, packets handled, outcome) that holds when the loop stops and is
    carried backwards over one turn holds of every run. *)
Lemma recv_loop_rule (P : Z -> state -> list (Z * Z * Z * Z) -> outcome unit -> Prop) :
  0 < RX_RING_SIZE ->
  (forall tail s, loop_pre tail s -> rx_done_at s tail = false ->
     P tail s [] (Done tt s)) ->
  (forall tail s, loop_pre tail s -> P tail s [] OutOfFuel) ->
  (forall tail s, loop_pre tail s -> rx_done_at s tail = true ->
     turn_page s = 0 ->
     P tail s [(tail, turn_buf tail s, turn_len tail s, 0)] (Panicked "e1000")) ->
  (forall tail s l o, loop_pre tail s -> rx_done_at s tail = true ->
     turn_page s <> 0 ->
     P ((tail + 1) mod RX_RING_SIZE) (turn_state tail s) l o ->
     P tail s ((tail, turn_buf tail s, turn_len tail s, turn_page s) :: l) o) ->
  forall fuel tail s t o,
    loop_pre tail s -> recv_loop fuel tail s = (t, o) ->
    exists l, t = drain_trace l /\ P tail s l o.
Proof.
  intros HN Hstop Hfuel Hpanic Hturn.
  induction fuel as [|fuel IH]; intros tail s t o Hpre Hrun.
  - inversion Hrun; subst. exists []. split; [done|]. by apply Hfuel.
  - pose proof Hpre as (Hl & Hwf & Ht).
    rewrite recv_loop_step in Hrun by done.
    destruct (rx_done_at s tail) eqn:Hdone.
    2:{ inversion Hrun; subst. exists []. split; [done|]. by apply Hstop. }
    cbv zeta in Hrun.
    fold (turn_buf tail s) (turn_len tail s) (turn_page s) in Hrun.
    fold (turn_state tail s) in Hrun.
    destruct (Z.eqb_spec (turn_page s) 0) as [Epa|Epa].
    { inversion Hrun; subst t o.
      exists [(tail, turn_buf tail s, turn_len tail s, 0)]. split.
      - by rewrite Epa.
      - by apply Hpanic. }
    destruct (next_tail tail HN Ht) as [Hrem _]. rewrite Hrem in Hrun.
    destruct (recv_loop fuel _ _) as [t' o'] eqn:Hrec.
    inversion Hrun; subst t o.
    destruct (IH _ _ _ _ (turn_pre _ _ HN Hpre) Hrec) as (l & -> & HP).
    exists ((tail, turn_buf tail s, turn_len tail s, turn_page s) :: l).
    split; [done|]. by apply Hturn.
Qed.


Lemma turn_state_tx tail s :
  tx_ring (turn_state tail s) = tx_ring s /\ tx_bufs (turn_state tail s) = tx_bufs s.
Proof.
  destruct (device_step_frame s) as (_ & _ & _ & _ & F5 & F6 & _).
  unfold turn_state, refilled; simpl. done.
Qed.

Lemma recv_loop_end fuel tail s t o :
  0 < RX_RING_SIZE -> loop_pre tail s -> recv_loop fuel tail s = (t, o) ->
  exists l, t = drain_trace l /\ loop_end tail s l o.
Proof.
  intros HN. apply (recv_loop_rule loop_end HN); clear fuel tail s t o.
  - intros tail s (Hl & Hwf & Ht) Hdone. simpl.
    change (Z.of_nat 0) with 0. rewrite Z.add_0_r. rewrite Z.mod_small by lia.
    by repeat split; try apply Hwf.
  - intros tail s _. simpl. constructor.
  - intros tail s _ _ Hpa. simpl. split; [done|].
    exists [], (tail, turn_buf tail s, turn_len tail s, 0). by repeat split.
  - intros tail s l o Hpre Hdone Hpa IH.
    destruct (turn_state_tx tail s) as [T1 T2].
    destruct o as [[] s'| msg | |]; unfold loop_end in *.
    + destruct IH as (? & ? & Hstop & ? & E1 & E2).
      split; [done|]. split; [done|]. split; [|split; [by constructor|split; congruence]].
      rewrite <- Hstop. rewrite Zplus_mod_idemp_l. simpl length.
      rewrite Nat2Z.inj_succ. do 2 f_equal. lia.
    + destruct IH as (? & l0 & x & -> & ? & ?). split; [done|].
      eexists (_ :: l0), x.
      split; [reflexivity|]. split; [done|]. by constructor.
    + done.
    + by constructor.
Qed.


Lemma turn_buf_lookup tail s :
  loop_pre tail s -> rx_bufs s !! Z.to_nat tail = Some (turn_buf tail s).
Proof.
  intros (_ & (_ & Hb) & Ht). unfold turn_buf.
  destruct (lookup_lt_is_Some_2 (rx_bufs s) (Z.to_nat tail)) as [b ->]; [|done].
  rewrite Hb. lia.
Qed.

Lemma turn_state_bufs tail s :
  rx_bufs (turn_state tail s) = <[Z.to_nat tail := turn_page s]> (rx_bufs s).
Proof.
  unfold turn_state, refilled; simpl.
  by rewrite (proj1 (device_step_frame s)).
Qed.

Lemma recv_loop_order fuel tail s t o :
  0 < RX_RING_SIZE -> loop_pre tail s -> recv_loop fuel tail s = (t, o) ->
  exists l, t = drain_trace l /\ loop_order tail s l o.
Proof.
  intros HN. apply (recv_loop_rule loop_order HN); clear fuel tail s t o.
  - intros tail s _ _ k ? ? ? ? Hk. done.
  - intros tail s _ k ? ? ? ? Hk. done.
  - intros tail s Hpre _ _ k slot buf len pa Hk.
    destruct k as [|k]; [|done]. inversion Hk; subst.
    destruct Hpre as (? & ? & ?).
    rewrite Z.add_0_r, Z.mod_small by lia.
    split; [done|]. split; [intros _; by apply turn_buf_lookup|lia].
  - intros tail s l o Hpre Hdone Hpa IH k slot buf len pa Hk.
    pose proof Hpre as (Hl & (Hr & Hb) & Ht).
    destruct k as [|k].
    { inversion Hk; subst. rewrite Z.add_0_r, Z.mod_small by lia.
      split; [done|]. split; [intros _; by apply turn_buf_lookup|lia]. }
    simpl in Hk. destruct (IH _ _ _ _ _ Hk) as (Hslot & Hfirst & Hagain).
    rewrite Zplus_mod_idemp_l in Hslot.
    replace (tail + 1 + Z.of_nat k) with (tail + Z.of_nat (S k)) in Hslot by lia.
    split; [done|]. split.
    + intros Hlt. rewrite turn_state_bufs in Hfirst.
      rewrite list_lookup_insert_ne in Hfirst; [apply Hfirst; lia|].
      assert (slot <> tail) by (rewrite Hslot; apply mod_shift_ne; lia).
      assert (0 <= slot) by (rewrite Hslot; apply Z.mod_pos_bound; lia).
      lia.
    + intros Hge. destruct (decide (k < Z.to_nat RX_RING_SIZE)%nat) as [Hlt|Hnlt].
      * assert (S k = Z.to_nat RX_RING_SIZE) as Ek by lia.
        rewrite Ek, Nat.sub_diag. simpl. eexists; split; [done|]. simpl.
        specialize (Hfirst Hlt). rewrite turn_state_bufs in Hfirst.
        assert (Est : slot = tail).
        { rewrite Hslot, Ek, Z2Nat.id by lia. apply mod_shift_full; lia. }
        rewrite Est in Hfirst.
        rewrite list_lookup_insert_eq in Hfirst by (rewrite Hb; lia).
        congruence.
      * destruct Hagain as (d & Hd & Hbuf); [lia|].
        exists d. split; [|done].
        replace (S k - Z.to_nat RX_RING_SIZE)%nat
          with (S (k - Z.to_nat RX_RING_SIZE)) by lia.
        done.
Qed.


Lemma turn_state_quiet tail s :
  device s = [] ->
  turn_state tail s = refilled tail (turn_page s) s /\ device (turn_state tail s) = [].
Proof.
  intros Hq. unfold turn_state. rewrite device_step_quiet by done.
  split; [done|]. by unfold refilled.
Qed.

Lemma recv_loop_quiet fuel tail s t o :
  0 < RX_RING_SIZE -> loop_pre tail s -> recv_loop fuel tail s = (t, o) ->
  exists l, t = drain_trace l /\ loop_quiet tail s l o.
Proof.
  intros HN. apply (recv_loop_rule loop_quiet HN); clear fuel tail s t o.
  - intros tail s (Hl & Hwf & Ht) Hdone _. simpl. split; [lia|]. split; [lia|].
    intros _ _ _. change (Z.of_nat 0) with 0. rewrite Z.add_0_r.
    by rewrite Z.mod_small by lia.
  - intros tail s _ _. simpl. split; [lia|]. split; [lia|]. done.
  - intros tail s (Hl & Hwf & Ht) Hdone _ _. simpl. split; [|split; [lia|done]].
    intros k Hk. assert (k = 0%nat) as -> by lia.
    change (Z.of_nat 0) with 0. rewrite Z.add_0_r. by rewrite Z.mod_small by lia.
  - intros tail s l o Hpre Hdone Hpa IH Hq.
    pose proof Hpre as (Hl & Hwf & Ht).
    destruct (turn_state_quiet tail s Hq) as [Ets Hq'].
    destruct (IH Hq') as (Hall & Hlen & Hstop).
    assert (Hshift : forall j : nat, (S j < Z.to_nat RX_RING_SIZE)%nat ->
      rx_done_at (turn_state tail s)
        (((tail + 1) mod RX_RING_SIZE + Z.of_nat j) mod RX_RING_SIZE) =
      rx_done_at s ((tail + Z.of_nat (S j)) mod RX_RING_SIZE)).
    { intros j Hj. rewrite Zplus_mod_idemp_l.
      replace (tail + 1 + Z.of_nat j) with (tail + Z.of_nat (S j)) by lia.
      rewrite Ets, refilled_done_at; [|done|done|apply Z.mod_pos_bound; lia].
      rewrite decide_False; [done|]. apply mod_shift_ne; lia. }
    assert (Hlen' : (length l < Z.to_nat RX_RING_SIZE)%nat).
    { destruct (decide (length l < Z.to_nat RX_RING_SIZE)%nat) as [|Hge]; [done|].
      exfalso. specialize (Hall (Z.to_nat RX_RING_SIZE - 1)%nat ltac:(lia)).
      rewrite Zplus_mod_idemp_l in Hall.
      replace (tail + 1 + Z.of_nat (Z.to_nat RX_RING_SIZE - 1))
        with (tail + RX_RING_SIZE) in Hall by lia.
      rewrite mod_shift_full in Hall by lia.
      rewrite Ets, refilled_done_at in Hall by (done || lia).
      by rewrite decide_True in Hall. }
    split; [|split].
    + intros k Hk. destruct k as [|k].
      * change (Z.of_nat 0) with 0. rewrite Z.add_0_r. by rewrite Z.mod_small by lia.
      * simpl in Hk. rewrite <- Hshift by lia. apply Hall. lia.
    + simpl. lia.
    + intros s' -> Hlt. simpl length in *.
      rewrite <- Hshift by lia. by apply (Hstop s').
Qed.


Lemma rx_complete_addr c ring i :
  rxd_addr <$> rx_complete c ring !! i = rxd_addr <$> ring !! i.
Proof.
  unfold rx_complete. destruct (ring !! rc_slot c) as [d|] eqn:E; [|done].
  destruct (decide (rc_slot c = i)) as [<-|Hne].
  - rewrite list_lookup_insert_eq by (by eapply lookup_lt_Some). by rewrite E.
  - by rewrite list_lookup_insert_ne.
Qed.

Lemma device_step_addr s i :
  rxd_addr <$> rx_ring (device_step s) !! i = rxd_addr <$> rx_ring s !! i.
Proof.
  unfold device_step. destruct (device s) as [|cs rest]; [done|]. simpl.
  generalize (rx_ring s). induction cs as [|c cs IH]; intros ring; simpl; [done|].
  by rewrite IH, rx_complete_addr.
Qed.

Lemma recv_loop_slots fuel tail s t o :
  0 < RX_RING_SIZE -> loop_pre tail s -> recv_loop fuel tail s = (t, o) ->
  exists l, t = drain_trace l /\ loop_slots tail s l o.
Proof.
  intros HN. apply (recv_loop_rule loop_slots HN); clear fuel tail s t o.
  - intros tail s _ _ s' [= <-] i. split; [|done].
    intros Hi. by apply elem_of_nil in Hi.
  - intros tail s _ s' [=].
  - intros tail s _ _ _ s' [=].
  - intros tail s l o Hpre Hdone Hpa IH s' -> i.
    pose proof Hpre as (Hl & (Hr & Hb) & Ht).
    destruct (IH s' eq_refl i) as [Hin Hout].
    assert (Hring : rx_ring (turn_state tail s) =
      <[Z.to_nat tail :=
          let d := default rx_desc_zero (rx_ring (device_step s) !! Z.to_nat tail) in
          mk_rx_desc (u64 (turn_page s)) (rxd_length d) (rxd_csum d) 0
                     (rxd_errors d) (rxd_special d)]> (rx_ring (device_step s)))
      by reflexivity.
    unfold slots in *. rewrite fmap_cons. simpl fst.
    destruct (decide (i ∈ (fun x => Z.to_nat x.1.1.1) <$> l)) as [Hi|Hi].
    + split; [|intros Hni; exfalso; apply Hni; by right].
      intros _. destruct (Hin Hi) as (pa & ? & ? & ? & ?).
      exists pa. repeat split; try done. rewrite fmap_cons. by right.
    + destruct (Hout Hi) as [Hbufs Haddr].
      destruct (decide (i = Z.to_nat tail)) as [->|Hne].
      * split; [|intros Hni; exfalso; apply Hni; by left].
        intros _. exists (turn_page s).
        rewrite Hbufs, Haddr, turn_state_bufs, Hring.
        rewrite !list_lookup_insert_eq
          by (rewrite ?device_step_rx_ring_length, ?Hr, ?Hb; lia).
        repeat split; try done. rewrite fmap_cons. by left.
      * split; [intros [?|?]%elem_of_cons; done|].
        intros _. rewrite Hbufs, Haddr, turn_state_bufs, Hring.
        rewrite !list_lookup_insert_ne by done.
        split; [done|]. apply device_step_addr.
Qed.

Lemma drain_trace_inj l1 l2 : drain_trace l1 = drain_trace l2 -> l1 = l2.
Proof.
  intros E. rewrite <- (zip_fst_snd l1), <- (zip_fst_snd l2).
  by rewrite <- !deliveries_drain, <- !allocations_drain, E.
Qed.

(** Termination: with the device idle and no descriptor done beyond the
    next [m], the loop returns within [m] turns, given [m] free pages. *)
Lemma recv_loop_quiet_returns (m : nat) : forall fuel tail s,
  0 < RX_RING_SIZE -> loop_pre tail s -> device s = [] ->
  Forall (fun pa => pa <> 0) (freelist s) ->
  (m <= length (freelist s))%nat -> (m < fuel)%nat ->
  (m <= Z.to_nat RX_RING_SIZE)%nat ->
  (forall j, Z.of_nat m <= j < RX_RING_SIZE ->
     rx_done_at s ((tail + j) mod RX_RING_SIZE) = false) ->
  exists t s', recv_loop fuel tail s = (t, Done tt s').
Proof.
  induction m as [|m IH]; intros fuel tail s HN Hpre Hq Hfree Hpages Hfuel Hm Hwin;
    pose proof Hpre as (Hl & Hwf & Ht);
    (destruct fuel as [|fuel]; [lia|]);
    rewrite recv_loop_step by done.
  - specialize (Hwin 0 ltac:(lia)). rewrite Z.add_0_r, Z.mod_small in Hwin by lia.
    rewrite Hwin. by eexists _, _.
  - destruct (rx_done_at s tail) eqn:Hdone; [|by eexists _, _].
    cbv zeta. rewrite device_step_quiet by done.
    destruct (freelist s) as [|pa rest] eqn:Efree; [simpl in Hpages; lia|].
    apply Forall_cons in Hfree as [Hpa Hrest]. simpl hd.
    destruct (Z.eqb_spec pa 0) as [|_]; [done|].
    destruct (next_tail tail HN Ht) as [Hrem Hrange]. rewrite Hrem.
    destruct (refilled_pre tail pa s Hl Hwf) as [Hl2 Hwf2].
    destruct (IH fuel ((tail + 1) mod RX_RING_SIZE) (refilled tail pa s))
      as (t' & s' & Hrun).
    + done.
    + rewrite <- Hrem. done.
    + by unfold refilled.
    + unfold refilled; simpl. by rewrite Efree.
    + unfold refilled; simpl. rewrite Efree. simpl in *. lia.
    + lia.
    + lia.
    + intros j Hj. rewrite mod_succ_shift by done.
      rewrite refilled_done_at; [|done|done|apply Z.mod_pos_bound; lia].
      case_decide as E; [done|].
      apply Hwin. destruct (decide (j + 1 = RX_RING_SIZE)) as [E'|]; [|lia].
      rewrite E', mod_shift_full in E by lia. done.
    + rewrite Hrun. by eexists _, _.
Qed.

(** Termination in general: the schedule of the device is finite, so the
    loop returns once the schedule is used up and the ring went round. *)
Lemma recv_loop_returns (n : nat) : forall fuel tail s,
  0 < RX_RING_SIZE -> loop_pre tail s -> length (device s) = n ->
  Forall (fun pa => pa <> 0) (freelist s) ->
  (n + Z.to_nat RX_RING_SIZE <= length (freelist s))%nat ->
  (n + Z.to_nat RX_RING_SIZE < fuel)%nat ->
  exists t s', recv_loop fuel tail s = (t, Done tt s').
Proof.
  induction n as [|n IH]; intros fuel tail s HN Hpre Hdev Hfree Hpages Hfuel.
  - apply (recv_loop_quiet_returns (Z.to_nat RX_RING_SIZE)); try done; try lia.
    by apply length_zero_iff_nil.
  - pose proof Hpre as (Hl & Hwf & Ht).
    destruct fuel as [|fuel]; [lia|]. rewrite recv_loop_step by done.
    destruct (rx_done_at s tail) eqn:Hdone; [|by eexists _, _].
    cbv zeta.
    destruct (device_step_frame s) as (F1 & F2 & F3 & F4 & F5 & F6 & F7).
    rewrite F4.
    destruct (freelist s) as [|pa rest] eqn:Efree; [simpl in Hpages; lia|].
    apply Forall_cons in Hfree as [Hpa Hrest]. simpl hd.
    destruct (Z.eqb_spec pa 0) as [|_]; [done|].
    destruct (next_tail tail HN Ht) as [Hrem Hrange]. rewrite Hrem.
    destruct (device_step_pre s Hl Hwf) as [Hl1 Hwf1].
    destruct (refilled_pre tail pa _ Hl1 Hwf1) as [Hl2 Hwf2].
    destruct (IH fuel ((tail + 1) mod RX_RING_SIZE) (refilled tail pa (device_step s)))
      as (t' & s' & Hrun).
    + done.
    + rewrite <- Hrem. done.
    + unfold refilled; simpl. rewrite F7. destruct (device s); simpl in *; lia.
    + unfold refilled; simpl. by rewrite F4.
    + unfold refilled; simpl. rewrite F4. simpl in *. lia.
    + lia.
    + rewrite Hrun. by eexists _, _.
Qed.

(** The lock at each call of a collaborator during the turns of the loop,
    which starts with the lock held. *)
Lemma calls_with_lock_drain l rest :
  calls_with_lock true (drain_trace l ++ rest) =
    flat_map (fun '(slot, buf, len, pa) =>
                [(EvNetRx slot buf len, false); (EvKalloc pa, true)]) l
    ++ calls_with_lock true rest.
Proof.
  induction l as [|[[[slot buf] len] pa] l IH]; [done|].
  rewrite drain_trace_cons. simpl. by rewrite IH.
Qed.

(** [e1000_recv] is the loop between [acquire] and [release]. *)
Lemma e1000_recv_unfold fuel s :
  e1000_lock s = false ->
  e1000_recv fuel s =
    after [EvAcquire]
      (bind (recv_loop fuel (rx_head s)) (fun _ => release) (set_lock true s)).
Proof.
  intros Hl. unfold e1000_recv. rewrite bind_acquire by done.
  by rewrite bind_read_reg.
Qed.

Lemma rx_head_range s : 0 < RX_RING_SIZE -> 0 <= rx_head s < RX_RING_SIZE.
Proof. intros. apply Z.mod_pos_bound; lia. Qed.

Lemma recv_entry_pre s :
  0 < RX_RING_SIZE -> rx_wf s -> loop_pre (rx_head s) (set_lock true s).
Proof. intros HN Hwf. split; [done|]. split; [done|]. by apply rx_head_range. Qed.


Lemma e1000_recv_run fuel s :
  0 < RX_RING_SIZE -> rx_wf s -> e1000_lock s = false ->
  exists l o,
    recv_loop fuel (rx_head s) (set_lock true s) = (drain_trace l, o) /\
    e1000_recv fuel s = recv_result l o /\
    loop_end (rx_head s) (set_lock true s) l o /\
    loop_order (rx_head s) (set_lock true s) l o /\
    loop_quiet (rx_head s) (set_lock true s) l o /\
    loop_slots (rx_head s) (set_lock true s) l o.
Proof.
  intros HN Hwf Hl.
  pose proof (recv_entry_pre s HN Hwf) as Hpre.
  destruct (recv_loop fuel (rx_head s) (set_lock true s)) as [t o] eqn:Hrun.
  destruct (recv_loop_end _ _ _ _ _ HN Hpre Hrun) as (l & -> & Hend).
  destruct (recv_loop_order _ _ _ _ _ HN Hpre Hrun) as (l1 & E1 & Horder).
  destruct (recv_loop_quiet _ _ _ _ _ HN Hpre Hrun) as (l2 & E2 & Hquiet).
  destruct (recv_loop_slots _ _ _ _ _ HN Hpre Hrun) as (l3 & E3 & Hslots).
  apply drain_trace_inj in E1, E2, E3. subst l1 l2 l3.
  exists l, o.
  refine (conj eq_refl (conj _ (conj Hend (conj Horder (conj Hquiet Hslots))))).
  rewrite e1000_recv_unfold by done. unfold bind. rewrite Hrun.
  destruct o as [[] s1| | |]; try done.
  destruct Hend as (Hl1 & _). unfold release.
  change ((let* h := holding in
           if h then emit EvRelease ;;; modify (set_lock false) else panic "release") s1)
    with (bind holding (fun h => if h then emit EvRelease ;;; modify (set_lock false)
                                 else panic "release") s1).
  rewrite bind_holding, Hl1, bind_emit, !after_after. simpl.
  unfold recv_result, after, modify; simpl. by rewrite app_nil_r.
Qed.

Lemma recv_result_deliveries l o : deliveries (recv_result l o).1 = l.*1.
Proof.
  rewrite <- deliveries_drain. unfold deliveries.
  destruct o; simpl; try done. by rewrite omap_app, app_nil_r.
Qed.

Lemma recv_result_allocations l o : allocations (recv_result l o).1 = l.*2.
Proof.
  rewrite <- allocations_drain. unfold allocations.
  destruct o; simpl; try done. by rewrite omap_app, app_nil_r.
Qed.

Lemma recv_result_outcome l o s' :
  (recv_result l o).2 = Done tt s' ->
  exists s1, o = Done tt s1 /\ s' = set_lock false s1.
Proof. destruct o as [[] s1| | |]; simpl; intros [=]. by exists s1. Qed.

Lemma lookup_fst_inv {A B} (l : list (A * B)) k a :
  l.*1 !! k = Some a -> exists b, l !! k = Some (a, b).
Proof.
  rewrite list_lookup_fmap. destruct (l !! k) as [[a' b]|]; simpl; intros [=].
  subst. by exists b.
Qed.

(** *** The claims about [e1000_transmit] *)

(** C2: a call of [e1000_transmit] returns 0 exactly when the descriptor at
    the tail register modulo the capacity has its done bit set, and then the
    caller's buffer is in that slot and the tail register went one further
    modulo the capacity; it returns -1 otherwise. The calls keep the ring
    well formed, so this holds of each call of any sequence. When all
    descriptors are done (as [e1000_init] leaves them) and the device
    completes nothing, capacity-many transmits succeed and the next one
    fails: 16 and the 17th for the ring of 16. *)
Theorem transmit_succeeds_iff_tail_done :
  sizes_ok ->
  (forall s buf len, tx_wf s ->
     exists t r s',
       e1000_transmit buf len s = (t, Done r s') /\ tx_wf s' /\
       (r = 0 \/ r = -1) /\
       (r = 0 <-> tx_done_at s (tx_tail s) = true) /\
       (r = 0 ->
          tx_bufs s' !! Z.to_nat (tx_tail s) = Some buf /\
          regs s' !!! E1000_TDT = (regs s !!! E1000_TDT + 1) mod TX_RING_SIZE) /\
       (r = -1 -> s' = s)) /\
  (forall s reqs, tx_wf s ->
     (forall i, 0 <= i < TX_RING_SIZE -> tx_done_at s i = true) ->
     length reqs = S (Z.to_nat TX_RING_SIZE) ->
     transmit_seq reqs s = replicate (Z.to_nat TX_RING_SIZE) 0 ++ [-1]).
Proof.
  intros [HN _]. split.
  - intros s buf len Hwf.
    destruct (tx_done_at s (tx_tail s)) eqn:Hdone.
    + eexists _, 0, _. split; [by apply transmit_ok; [lia|..]|].
      split; [by apply transmitted_wf|].
      split; [by left|]. split; [done|]. split; [|done]. intros _.
      split.
      * unfold transmitted; simpl. apply list_lookup_insert_eq.
        apply tx_tail_lt_length; [lia|apply Hwf].
      * rewrite transmitted_tail by done. unfold tx_tail.
        by rewrite Zplus_mod_idemp_l.
    + eexists _, (-1), _. split; [by apply transmit_fail; [lia|..]|].
      split; [done|]. split; [by right|]. split; [done|]. done.
  - intros s reqs Hwf Hall Hlen.
    apply transmit_seq_window; try done; try lia.
    intros j Hj. apply Hall. apply Z.mod_pos_bound. lia.
Qed.

(** C10: a call of [e1000_transmit] that finds the descriptor at the tail
    not done returns -1 and leaves the whole driver state as it was: both
    rings, both buffer arrays, the registers and the allocator's free list;
    it only takes and gives back the lock, and frees nothing. *)
Theorem transmit_failure_changes_nothing s buf len :
  0 < TX_RING_SIZE -> tx_wf s ->
  tx_done_at s (tx_tail s) = false ->
  exists t s',
    e1000_transmit buf len s = (t, Done (-1) s') /\
    s' = s /\
    t = [EvAcquire; EvRelease] /\
    forall pa, EvKfree pa ∉ t.
Proof.
  intros HN Hwf Hbusy. exists [EvAcquire; EvRelease], s.
  split; [by apply transmit_fail|]. split; [done|]. split; [done|].
  intros pa Hin. repeat (apply elem_of_cons in Hin as [?|Hin]; [done|]).
  by apply elem_of_nil in Hin.
Qed.

(** *** The claims about [e1000_recv] *)

Lemma recv_returns fuel s t o :
  0 < RX_RING_SIZE -> rx_wf s -> e1000_lock s = false ->
  e1000_recv fuel s = (t, o) ->
  Forall (fun pa => pa <> 0) (freelist s) ->
  (length (device s) + Z.to_nat RX_RING_SIZE <= length (freelist s))%nat ->
  (length (device s) + Z.to_nat RX_RING_SIZE < fuel)%nat ->
  exists s', o = Done tt s'.
Proof.
  intros HN Hwf Hl Hrun Hfree Hpages Hfuel.
  destruct (e1000_recv_run fuel s HN Hwf Hl) as (l & o1 & Hloop & Hrecv & _).
  destruct (recv_loop_returns (length (device s)) fuel (rx_head s) (set_lock true s))
    as (t' & s1 & Hret); try done.
  { by apply recv_entry_pre. }
  rewrite Hret in Hloop. inversion Hloop; subst.
  rewrite Hrecv in Hrun. inversion Hrun. by eexists.
Qed.

(** C3: [e1000_recv] hands the buffers to the network stack in ring order:
    the [k]-th delivery of a run comes from slot (tail register + 1 + k)
    modulo the capacity, and the run ends at a descriptor whose done bit is
    clear. While the device is idle the deliveries are exactly the done
    descriptors from the start index up to the first one that is not done
    (descriptors 0 to 3 done out of 16: four deliveries, from slots 0, 1, 2,
    3). A delivery after a full turn of the ring (the 17th for a ring of 16)
    comes from the slot visited one turn earlier, and its buffer is the
    page allocated for the slot at that visit. With a finite schedule of the
    device and enough free pages the run returns. *)
Theorem recv_drains_in_ring_order fuel s t o :
  sizes_ok -> rx_wf s -> e1000_lock s = false ->
  e1000_recv fuel s = (t, o) ->
  (0 <= regs s !!! E1000_RDT + 1 < 2^32 ->
     rx_head s = (regs s !!! E1000_RDT + 1) mod RX_RING_SIZE) /\
  (forall (k : nat) slot buf len,
     deliveries t !! k = Some (slot, buf, len) ->
     slot = (rx_head s + Z.of_nat k) mod RX_RING_SIZE /\
     ((k < Z.to_nat RX_RING_SIZE)%nat ->
        rx_bufs s !! Z.to_nat slot = Some buf) /\
     ((Z.to_nat RX_RING_SIZE <= k)%nat ->
        allocations t !! (k - Z.to_nat RX_RING_SIZE)%nat = Some buf /\
        exists buf0 len0,
          deliveries t !! (k - Z.to_nat RX_RING_SIZE)%nat = Some (slot, buf0, len0))) /\
  (forall s', o = Done tt s' ->
     rx_done_at s'
       ((rx_head s + Z.of_nat (length (deliveries t))) mod RX_RING_SIZE) = false) /\
  (device s = [] ->
   forall (m : nat) s', o = Done tt s' ->
     (m <= Z.to_nat RX_RING_SIZE)%nat ->
     (forall k : nat, (k < m)%nat ->
        rx_done_at s ((rx_head s + Z.of_nat k) mod RX_RING_SIZE) = true) ->
     ((m < Z.to_nat RX_RING_SIZE)%nat ->
        rx_done_at s ((rx_head s + Z.of_nat m) mod RX_RING_SIZE) = false) ->
     (deliveries t).*1.*1 =
       (fun k : nat => (rx_head s + Z.of_nat k) mod RX_RING_SIZE) <$> seq 0 m) /\
  (Forall (fun pa => pa <> 0) (freelist s) ->
   (length (device s) + Z.to_nat RX_RING_SIZE <= length (freelist s))%nat ->
   (length (device s) + Z.to_nat RX_RING_SIZE < fuel)%nat ->
   exists s', o = Done tt s').
Proof.
  intros [_ HN] Hwf Hl Hrun.
  destruct (e1000_recv_run fuel s (proj1 HN) Hwf Hl)
    as (l & o1 & Hloop & Hrecv & Hend & Horder & Hquiet & Hslots).
  pose proof Hrun as Hrun0.
  rewrite Hrecv in Hrun.
  assert (Ht : t = (recv_result l o1).1) by (by rewrite Hrun).
  assert (Ho : o = (recv_result l o1).2) by (by rewrite Hrun).
  assert (Hdel : deliveries t = l.*1) by (rewrite Ht; apply recv_result_deliveries).
  assert (Hall : allocations t = l.*2) by (rewrite Ht; apply recv_result_allocations).
  assert (Hslot : forall (k : nat) slot buf len,
            deliveries t !! k = Some (slot, buf, len) ->
            slot = (rx_head s + Z.of_nat k) mod RX_RING_SIZE).
  { intros k slot buf len Hk. rewrite Hdel in Hk.
    destruct (lookup_fst_inv _ _ _ Hk) as [pa Hlk].
    by destruct (Horder _ _ _ _ _ Hlk). }
  split; [|split; [|split; [|split]]].
  - intros Hr. unfold rx_head. by rewrite u32_small.
  - intros k slot buf len Hk. split; [by eapply Hslot|].
    rewrite Hdel in Hk. destruct (lookup_fst_inv _ _ _ Hk) as [pa Hlk].
    destruct (Horder _ _ _ _ _ Hlk) as (Es & Hfirst & Hagain).
    split; [done|]. intros Hge.
    destruct (Hagain Hge) as ([[[slot0 buf0] len0] pa0] & Hd & Hb). simpl in Hb.
    subst pa0. split.
    + rewrite Hall, list_lookup_fmap, Hd. done.
    + exists buf0, len0. rewrite Hdel, list_lookup_fmap, Hd. simpl.
      do 3 f_equal. destruct (Horder _ _ _ _ _ Hd) as (-> & _). rewrite Es.
      rewrite Nat2Z.inj_sub by done. rewrite Z2Nat.id by lia.
      replace (rx_head s + Z.of_nat k)
        with (rx_head s + (Z.of_nat k - RX_RING_SIZE) + 1 * RX_RING_SIZE) by lia.
      by rewrite Z.mod_add by lia.
  - intros s' ->. symmetry in Ho.
    destruct (recv_result_outcome _ _ _ Ho) as (s1 & -> & ->).
    destruct Hend as (_ & _ & Hstop & _).
    rewrite Hdel, length_fmap. exact Hstop.
  - intros Hq m s' -> Hm Hdone Hbusy. symmetry in Ho.
    destruct (recv_result_outcome _ _ _ Ho) as (s1 & -> & _).
    destruct (Hquiet Hq) as (Hall' & Hlen & Hstop).
    assert (Hn : length l = m).
    { destruct (Nat.lt_trichotomy (length l) m) as [Hlt|[E|Hgt]]; [|done|].
      - specialize (Hstop s1 eq_refl ltac:(lia)).
        specialize (Hdone (length l) Hlt).
        change (rx_done_at (set_lock true s)) with (rx_done_at s) in Hstop. congruence.
      - specialize (Hall' m Hgt). specialize (Hbusy ltac:(lia)).
        change (rx_done_at (set_lock true s)) with (rx_done_at s) in Hall'. congruence. }
    apply list_eq. intros k. rewrite !list_lookup_fmap.
    destruct (deliveries t !! k) as [[[slot buf] len]|] eqn:Ek; simpl.
    + rewrite (Hslot _ _ _ _ Ek).
      assert (k < m)%nat.
      { apply lookup_lt_Some in Ek. rewrite Hdel, length_fmap in Ek. lia. }
      rewrite lookup_seq_lt by lia. reflexivity.
    + apply lookup_ge_None in Ek. rewrite Hdel, length_fmap in Ek.
      rewrite lookup_seq_ge by lia. done.
  - intros Hf Hp Hfu.
    exact (recv_returns fuel s t o (proj1 HN) Hwf Hl Hrun0 Hf Hp Hfu).
Qed.

(** C7: when [e1000_recv] returns, every slot it delivered a buffer from
    holds a page that the allocator handed out during the call, which is not
    null and is the address written into the slot's descriptor. A call in
    which the allocator has no page ends in [panic("e1000")] right after
    that allocation, and this is the only way an allocation can fail the
    call: there is no return with a slot left empty. With a finite schedule
    of the device and enough free pages the call returns. *)
Theorem recv_refills_every_drained_slot fuel s t o :
  0 < RX_RING_SIZE -> rx_wf s -> e1000_lock s = false ->
  e1000_recv fuel s = (t, o) ->
  (forall s', o = Done tt s' ->
     forall slot buf len, (slot, buf, len) ∈ deliveries t ->
       exists pa,
         rx_bufs s' !! Z.to_nat slot = Some pa /\ pa <> 0 /\
         pa ∈ allocations t /\
         rxd_addr <$> rx_ring s' !! Z.to_nat slot = Some (u64 pa)) /\
  (0 ∈ allocations t <-> o = Panicked "e1000") /\
  (o = Panicked "e1000" -> exists t0, t = t0 ++ [EvKalloc 0]) /\
  (Forall (fun pa => pa <> 0) (freelist s) ->
   (length (device s) + Z.to_nat RX_RING_SIZE <= length (freelist s))%nat ->
   (length (device s) + Z.to_nat RX_RING_SIZE < fuel)%nat ->
   exists s', o = Done tt s').
Proof.
  intros HN Hwf Hl Hrun.
  destruct (e1000_recv_run fuel s HN Hwf Hl)
    as (l & o1 & Hloop & Hrecv & Hend & Horder & Hquiet & Hslots).
  pose proof Hrun as Hrun0.
  rewrite Hrecv in Hrun.
  assert (Ht : t = (recv_result l o1).1) by (by rewrite Hrun).
  assert (Ho : o = (recv_result l o1).2) by (by rewrite Hrun).
  assert (Hdel : deliveries t = l.*1) by (rewrite Ht; apply recv_result_deliveries).
  assert (Hall : allocations t = l.*2) by (rewrite Ht; apply recv_result_allocations).
  assert (Hnz : Forall (fun x : Z * Z * Z * Z => x.2 <> 0) l -> 0 ∉ l.*2).
  { intros Hf Hin. apply list_elem_of_fmap in Hin as (x & E & Hx).
    rewrite Forall_forall in Hf. by apply (Hf x Hx). }
  split; [|split; [|split]].
  - intros s' -> slot buf len Hin. symmetry in Ho.
    destruct (recv_result_outcome _ _ _ Ho) as (s1 & -> & ->).
    destruct (Hslots s1 eq_refl (Z.to_nat slot)) as [Hdrained _].
    rewrite Hall. apply Hdrained.
    rewrite Hdel in Hin. apply list_elem_of_fmap in Hin as (x & E & Hx).
    unfold slots. apply list_elem_of_fmap. exists x. split; [|done].
    by rewrite <- E.
  - rewrite Hall, Ho. destruct o1 as [[] s1|msg| |]; simpl in *.
    + destruct Hend as (_ & _ & _ & Hf & _). split; [intros Hin|done].
      by apply Hnz in Hin.
    + destruct Hend as (-> & l0 & x & -> & Hx & _). split; [done|]. intros _.
      rewrite fmap_app. apply elem_of_app. right. simpl. rewrite Hx. by left.
    + done.
    + split; [intros Hin|done]. by apply Hnz in Hin.
  - intros ->. destruct o1 as [[] s1|msg| |]; simpl in *; try done.
    destruct Hend as (_ & l0 & [[[slot buf] len] pa] & -> & Hx & _).
    simpl in Hx. subst pa.
    exists (EvAcquire :: drain_trace l0 ++ [EvRelease; EvNetRx slot buf len; EvAcquire]).
    rewrite Ht. unfold drain_trace. rewrite flat_map_app. simpl.
    rewrite <- !app_assoc. reflexivity.
  - intros Hf Hp Hfu.
    exact (recv_returns fuel s t o HN Hwf Hl Hrun0 Hf Hp Hfu).
Qed.

(** C8, as the code has it: in every run of [e1000_recv] the calls are
    [acquire], then for each packet [release], [net_rx], [acquire],
    [kalloc], and a last [release] when the call returns. So the lock is
    not held at any call of [net_rx], each of which has a [release] right
    before it and an [acquire] right after it, and the lock is held at
    every call of [kalloc]. *)
Theorem recv_delivers_with_lock_released fuel s t o :
  0 < RX_RING_SIZE -> rx_wf s -> e1000_lock s = false ->
  e1000_recv fuel s = (t, o) ->
  exists l,
    t = EvAcquire :: drain_trace l ++
          (match o with Done _ _ => [EvRelease] | _ => [] end) /\
    calls_with_lock false t =
      flat_map (fun '(slot, buf, len, pa) =>
                  [(EvNetRx slot buf len, false); (EvKalloc pa, true)]) l /\
    Forall (fun c => match c.1 with
                     | EvNetRx _ _ _ => c.2 = false
                     | EvKalloc _ => c.2 = true
                     | _ => True
                     end) (calls_with_lock false t).
Proof.
  intros HN Hwf Hl Hrun.
  destruct (e1000_recv_run fuel s HN Hwf Hl) as (l & o1 & _ & Hrecv & _).
  rewrite Hrecv in Hrun. exists l.
  assert (Ht : t = EvAcquire :: drain_trace l ++
                     (match o with Done _ _ => [EvRelease] | _ => [] end)).
  { destruct o1 as [[] s1| | |]; inversion Hrun; subst; simpl;
      by rewrite ?app_nil_r. }
  assert (Hc : calls_with_lock false t =
      flat_map (fun '(slot, buf, len, pa) =>
                  [(EvNetRx slot buf len, false); (EvKalloc pa, true)]) l).
  { rewrite Ht. simpl. rewrite calls_with_lock_drain.
    destruct o; simpl; by rewrite app_nil_r. }
  split; [done|]. split; [done|].
  rewrite Hc. clear. induction l as [|[[[slot buf] len] pa] l IH]; simpl.
  - constructor.
  - by repeat constructor.
Qed.

(** *** Further properties of [e1000_transmit] *)

Lemma frees_transmit_ok (old : Z) :
  frees (EvAcquire :: (if old =? 0 then [] else [EvKfree old]) ++ [EvRelease]) =
    if old =? 0 then [] else [old].
Proof. by destruct (old =? 0). Qed.

(** X1: a transmit that finds the tail descriptor done programs exactly that
    descriptor (address and length of the caller's buffer, the end-of-packet
    and report-status command bits, status cleared), puts the caller's buffer
    into the slot, and gives the buffer the slot held before back to the
    allocator: once when there was one, never when the slot was empty. All
    other descriptors and slots are left as they were. *)
Theorem transmit_installs_and_releases s buf len :
  0 < TX_RING_SIZE -> tx_wf s -> tx_done_at s (tx_tail s) = true ->
  exists t s' old d,
    e1000_transmit buf len s = (t, Done 0 s') /\
    tx_bufs s !! Z.to_nat (tx_tail s) = Some old /\
    frees t = (if old =? 0 then [] else [old]) /\
    freelist s' = (if old =? 0 then freelist s else old :: freelist s) /\
    tx_bufs s' !! Z.to_nat (tx_tail s) = Some buf /\
    tx_ring s' !! Z.to_nat (tx_tail s) = Some d /\
    txd_addr d = u64 buf /\ txd_length d = u16 len /\
    txd_cmd d = u8 (Z.lor E1000_TXD_CMD_EOP E1000_TXD_CMD_RS) /\
    txd_status d = 0 /\
    (forall i : nat, i <> Z.to_nat (tx_tail s) ->
       tx_ring s' !! i = tx_ring s !! i /\ tx_bufs s' !! i = tx_bufs s !! i).
Proof.
  intros HN Hwf Hdone. pose proof Hwf as (Hr & Hb & Hl).
  destruct (lookup_lt_is_Some_2 (tx_bufs s) _ (tx_tail_lt_length s _ HN Hb)) as [old Hold].
  eexists _, _, old, _. split; [by apply transmit_ok|].
  split; [done|]. rewrite Hold. simpl default.
  split; [apply frees_transmit_ok|].
  unfold transmitted; simpl. rewrite Hold. simpl default.
  split; [done|].
  split; [apply list_lookup_insert_eq; by apply tx_tail_lt_length|].
  split; [apply list_lookup_insert_eq; by apply tx_tail_lt_length|].
  repeat (split; [reflexivity|]).
  intros i Hi. by rewrite !list_lookup_insert_ne.
Qed.

(** X2: whatever a call of [e1000_transmit] returns, it leaves the receive
    ring, the receive buffers and every register but the transmit tail as
    they were, delivers nothing to the network stack, allocates no page,
    and has given the lock back. *)
Theorem transmit_leaves_receive_side s buf len :
  0 < TX_RING_SIZE -> tx_wf s ->
  exists t r s',
    e1000_transmit buf len s = (t, Done r s') /\
    rx_ring s' = rx_ring s /\ rx_bufs s' = rx_bufs s /\ device s' = device s /\
    (forall reg, reg <> E1000_TDT -> regs s' !!! reg = regs s !!! reg) /\
    deliveries t = [] /\ allocations t = [] /\
    e1000_lock s' = false.
Proof.
  intros HN Hwf. destruct (tx_done_at s (tx_tail s)) eqn:Hdone.
  - eexists _, _, _. split; [by apply transmit_ok|].
    unfold transmitted; simpl.
    do 3 (split; [reflexivity|]).
    split; [intros reg Hreg; by rewrite lookup_total_insert_ne|].
    by destruct (default 0 (tx_bufs s !! Z.to_nat (tx_tail s)) =? 0).
  - eexists _, _, _. split; [by apply transmit_fail|].
    do 3 (split; [reflexivity|]). split; [done|]. split; [done|]. split; [done|].
    apply Hwf.
Qed.

(** *** Further properties of [e1000_recv] *)

Lemma e1000_recv_via_loop fuel s :
  0 < RX_RING_SIZE -> rx_wf s -> e1000_lock s = false ->
  exists l o,
    recv_loop fuel (rx_head s) (set_lock true s) = (drain_trace l, o) /\
    e1000_recv fuel s = recv_result l o.
Proof.
  intros HN Hwf Hl.
  destruct (e1000_recv_run fuel s HN Hwf Hl) as (l & o & Hloop & Hrecv & _).
  by exists l, o.
Qed.

Lemma recv_idle fuel s :
  0 < RX_RING_SIZE -> rx_wf s -> e1000_lock s = false ->
  rx_done_at s (rx_head s) = false ->
  e1000_recv (S fuel) s = ([EvAcquire; EvRelease], Done tt s).
Proof.
  intros HN Hwf Hl Hidle.
  rewrite e1000_recv_unfold by done. unfold bind.
  rewrite recv_loop_step; [|done|done|by apply rx_head_range].
  change (rx_done_at (set_lock true s) (rx_head s)) with (rx_done_at s (rx_head s)).
  rewrite Hidle. unfold release.
  change ((let* h := holding in
           if h then emit EvRelease ;;; modify (set_lock false) else panic "release")
            (set_lock true s))
    with (bind holding (fun h => if h then emit EvRelease ;;; modify (set_lock false)
                                 else panic "release") (set_lock true s)).
  rewrite bind_holding.
  change (e1000_lock (set_lock true s)) with true. cbv iota.
  rewrite bind_emit, !after_after. unfold modify, after; simpl.
  by rewrite set_lock_id.
Qed.

(** X3: when the descriptor after the receive tail is not done,
    [e1000_recv] takes the lock, gives it back and returns: nothing is
    delivered, no page is allocated, and the driver state is unchanged. *)
Theorem recv_nothing_pending fuel s :
  0 < RX_RING_SIZE -> rx_wf s -> e1000_lock s = false ->
  rx_done_at s (rx_head s) = false ->
  exists t,
    e1000_recv (S fuel) s = (t, Done tt s) /\
    deliveries t = [] /\ allocations t = [].
Proof.
  intros HN Hwf Hl Hidle. exists [EvAcquire; EvRelease].
  split; [by apply recv_idle|done].
Qed.

Lemma turn_state_regs tail s :
  regs (turn_state tail s) = <[E1000_RDT := u32 tail]> (regs s).
Proof.
  unfold turn_state, refilled; simpl.
  by rewrite (proj1 (proj2 (device_step_frame s))).
Qed.

Lemma recv_loop_regs fuel tail s t o :
  0 < RX_RING_SIZE < 2^31 -> loop_pre tail s -> recv_loop fuel tail s = (t, o) ->
  exists l, t = drain_trace l /\ loop_regs tail s l o.
Proof.
  intros HN. apply (recv_loop_rule loop_regs (proj1 HN)); clear fuel tail s t o.
  - intros tail s _ _ s' [= <-]. by repeat split.
  - intros tail s _ s' [=].
  - intros tail s _ _ _ s' [=].
  - intros tail s l o (Hl & Hwf & Ht) Hdone Hpa IH s' ->.
    destruct (IH s' eq_refl) as (Hframe & Hnil & Hlast).
    split; [|split; [done|]].
    + intros r Hr. rewrite Hframe by done.
      by rewrite turn_state_regs, lookup_total_insert_ne.
    + intros _. destruct l as [|x l].
      * rewrite (Hnil eq_refl), turn_state_regs, lookup_total_insert_eq.
        rewrite u32_small by lia. simpl length.
        replace (tail + Z.of_nat 1 - 1) with tail by lia.
        by rewrite Z.mod_small.
      * rewrite Hlast by done.
        replace ((tail + 1) mod RX_RING_SIZE + Z.of_nat (length (x :: l)) - 1)
          with ((tail + 1) mod RX_RING_SIZE + (Z.of_nat (length (x :: l)) - 1)) by lia.
        rewrite Zplus_mod_idemp_l. f_equal. simpl length. lia.
Qed.

Lemma drop_tail_S {A} (n : nat) (l : list A) : drop (S n) l = drop n (tl l).
Proof. destruct l; simpl; [by destruct n|done]. Qed.

Lemma turn_page_head s :
  turn_page s <> 0 -> freelist s = turn_page s :: tl (freelist s).
Proof.
  unfold turn_page. rewrite (proj1 (proj2 (proj2 (proj2 (device_step_frame s))))).
  by destruct (freelist s).
Qed.

Lemma recv_loop_pages fuel tail s t o :
  0 < RX_RING_SIZE -> loop_pre tail s -> recv_loop fuel tail s = (t, o) ->
  exists l, t = drain_trace l /\ loop_pages tail s l o.
Proof.
  intros HN. apply (recv_loop_rule loop_pages HN); clear fuel tail s t o.
  - intros tail s _ _ s' [= <-]. by repeat split.
  - intros tail s _ s' [=].
  - intros tail s _ _ _ s' [=].
  - intros tail s l o _ Hdone Hpa IH s' ->.
    destruct (IH s' eq_refl) as (Hall & Hfree & Hdev).
    destruct (device_step_frame s) as (_ & _ & _ & F4 & _ & _ & F7).
    assert (Ef : freelist (turn_state tail s) = tl (freelist s))
      by (unfold turn_state, refilled; simpl; by rewrite F4).
    assert (Ed : device (turn_state tail s) = tl (device s))
      by (unfold turn_state, refilled; simpl; by rewrite F7).
    rewrite Ef in Hall, Hfree. rewrite Ed in Hdev.
    simpl length. rewrite !drop_tail_S. split; [|done].
    rewrite fmap_cons, Hall. simpl snd.
    rewrite (turn_page_head s Hpa) at 2. reflexivity.
Qed.

(** X4: when [e1000_recv] returns after [n] deliveries it has taken the
    first [n] pages of the free list, in order, as the new buffers and the
    first [n] entries of the device's schedule; the transmit ring and its
    buffers are untouched, the arrays keep their sizes and the lock is
    free again. *)
Theorem recv_uses_one_page_per_packet fuel s t s' :
  0 < RX_RING_SIZE -> rx_wf s -> e1000_lock s = false ->
  e1000_recv fuel s = (t, Done tt s') ->
  allocations t = take (length (deliveries t)) (freelist s) /\
  freelist s' = drop (length (deliveries t)) (freelist s) /\
  device s' = drop (length (deliveries t)) (device s) /\
  frees t = [] /\
  tx_ring s' = tx_ring s /\ tx_bufs s' = tx_bufs s /\
  rx_wf s' /\ e1000_lock s' = false.
Proof.
  intros HN Hwf Hl Hrun.
  destruct (e1000_recv_via_loop fuel s HN Hwf Hl) as (l & o & Hloop & Hrecv).
  pose proof (recv_entry_pre s HN Hwf) as Hpre.
  destruct (recv_loop_pages _ _ _ _ _ HN Hpre Hloop) as (l1 & E1 & Hpages).
  destruct (recv_loop_end _ _ _ _ _ HN Hpre Hloop) as (l2 & E2 & Hend).
  apply drain_trace_inj in E1, E2. subst l1 l2.
  rewrite Hrecv in Hrun.
  assert (Ht : t = (recv_result l o).1) by (by rewrite Hrun).
  assert (Ho : (recv_result l o).2 = Done tt s') by (by rewrite Hrun).
  destruct (recv_result_outcome _ _ _ Ho) as (s1 & -> & ->).
  destruct (Hpages s1 eq_refl) as (Hall & Hfree & Hdev).
  destruct Hend as (_ & Hwf1 & _ & _ & Htx & Htxb).
  rewrite Ht, recv_result_deliveries, recv_result_allocations, length_fmap.
  split; [done|]. split; [done|]. split; [done|].
  split; [|split; [exact Htx|split; [exact Htxb|split; [exact Hwf1|reflexivity]]]].
  simpl. unfold frees. rewrite omap_app. simpl. rewrite app_nil_r.
  clear. induction l as [|[[[? ?] ?] ?] l IH]; [done|].
  rewrite drain_trace_cons, omap_app, IH. reflexivity.
Qed.

Lemma recv_regs fuel s t s' :
  0 < RX_RING_SIZE < 2^31 -> rx_wf s -> e1000_lock s = false ->
  e1000_recv fuel s = (t, Done tt s') ->
  exists l : list (Z * Z * Z * Z),
    deliveries t = l.*1 /\
    (forall reg, reg <> E1000_RDT -> regs s' !!! reg = regs s !!! reg) /\
    (l = [] -> regs s' = regs s) /\
    (l <> [] ->
       regs s' !!! E1000_RDT =
         (rx_head s + Z.of_nat (length l) - 1) mod RX_RING_SIZE).
Proof.
  intros HN Hwf Hl Hrun.
  destruct (e1000_recv_via_loop fuel s (proj1 HN) Hwf Hl) as (l & o & Hloop & Hrecv).
  pose proof (recv_entry_pre s (proj1 HN) Hwf) as Hpre.
  destruct (recv_loop_regs _ _ _ _ _ HN Hpre Hloop) as (l1 & E1 & Hregs).
  apply drain_trace_inj in E1. subst l1.
  rewrite Hrecv in Hrun.
  assert (Ht : t = (recv_result l o).1) by (by rewrite Hrun).
  assert (Ho : (recv_result l o).2 = Done tt s') by (by rewrite Hrun).
  destruct (recv_result_outcome _ _ _ Ho) as (s1 & -> & ->).
  destruct (Hregs s1 eq_refl) as (Hframe & Hnil & Hlast).
  exists l. rewrite Ht, recv_result_deliveries.
  split; [done|]. split; [exact Hframe|]. split; [|exact Hlast].
  intros E. by rewrite (Hnil E).
Qed.

(** X5: when [e1000_recv] returns it has written no register but the
    receive tail, which holds the index of the last slot it handled, so the
    next call starts at the slot where this one stopped: the start index
    has moved on by the number of deliveries, modulo the capacity. *)
Theorem recv_moves_the_tail fuel s t s' :
  0 < RX_RING_SIZE < 2^31 -> rx_wf s -> e1000_lock s = false ->
  e1000_recv fuel s = (t, Done tt s') ->
  (forall reg, reg <> E1000_RDT -> regs s' !!! reg = regs s !!! reg) /\
  (deliveries t <> [] ->
     regs s' !!! E1000_RDT =
       (rx_head s + Z.of_nat (length (deliveries t)) - 1) mod RX_RING_SIZE) /\
  rx_head s' = (rx_head s + Z.of_nat (length (deliveries t))) mod RX_RING_SIZE.
Proof.
  intros HN Hwf Hl Hrun.
  destruct (recv_regs fuel s t s' HN Hwf Hl Hrun) as (l & -> & Hframe & Hnil & Hlast).
  rewrite length_fmap.
  pose proof (rx_head_range s (proj1 HN)) as Hh.
  split; [exact Hframe|]. split.
  - intros Hne. apply Hlast. intros ->. by apply Hne.
  - unfold rx_head at 1. destruct l as [|x l].
    + rewrite (Hnil eq_refl). fold (rx_head s). simpl length.
      change (Z.of_nat 0) with 0. rewrite Z.add_0_r. by rewrite Z.mod_small.
    + rewrite Hlast by done.
      pose proof (Z.mod_pos_bound
        (rx_head s + Z.of_nat (length (x :: l)) - 1) RX_RING_SIZE (proj1 HN)).
      rewrite u32_small by lia. rewrite Zplus_mod_idemp_l. f_equal. lia.
Qed.

(** *** [e1000_intr] *)



(** *** [e1000_init] *)

Lemma bind_done {A B} (m : M A) (k : A -> M B) s t a s1 :
  m s = (t, Done a s1) -> bind m k s = after t (k a s1).
Proof. intros E. unfold bind. by rewrite E. Qed.

(** A loop whose body returns and keeps an invariant of (index, calls so
    far, state) returns with the invariant at the end index. *)
Lemma for_range_inv (I : Z -> list event -> state -> Prop) body (n : nat) :
  forall lo t0 s,
  (forall i t s1, lo <= i < lo + Z.of_nat n -> I i t s1 ->
     exists t1 s2, body i s1 = (t1, Done tt s2) /\ I (i + 1) (t ++ t1) s2) ->
  I lo t0 s ->
  exists t s', for_range n lo body s = (t, Done tt s') /\
               I (lo + Z.of_nat n) (t0 ++ t) s'.
Proof.
  induction n as [|n IH]; intros lo t0 s Hbody Hinv.
  - exists [], s. split; [done|]. by rewrite app_nil_r, Z.add_0_r.
  - destruct (Hbody lo t0 s ltac:(lia) Hinv) as (t1 & s2 & Hrun & Hinv2).
    destruct (IH (lo + 1) (t0 ++ t1) s2) as (t & s' & Hrest & Hinv').
    { intros i t s1 Hi. apply Hbody. lia. }
    { done. }
    exists (t1 ++ t), s'. split.
    + cbn [for_range]. rewrite (bind_done _ _ _ _ _ _ Hrun), Hrest. reflexivity.
    + rewrite app_assoc. replace (lo + Z.of_nat (S n)) with (lo + 1 + Z.of_nat n) by lia.
      done.
Qed.

Lemma tx_init_loop s :
  0 <= TX_RING_SIZE ->
  length (tx_ring s) = Z.to_nat TX_RING_SIZE ->
  length (tx_bufs s) = Z.to_nat TX_RING_SIZE ->
  (forall i, 0 <= i < TX_RING_SIZE -> tx_ring s !! Z.to_nat i = Some tx_desc_zero) ->
  exists s',
    for_range (Z.to_nat TX_RING_SIZE) 0 (fun i =>
      let* d := get_tx_desc i in
      put_tx_desc i (mk_tx_desc (txd_addr d) (txd_length d) (txd_cso d) (txd_cmd d)
                                (u8 E1000_TXD_STAT_DD) (txd_css d) (txd_special d)) ;;;
      put_tx_buf i 0) s = ([], Done tt s') /\
    tx_fresh s' /\ rx_side s' = rx_side s /\ rest_of s' = rest_of s.
Proof.
  intros HN Hr Hb Hzero.
  set (I := fun (i : Z) (t : list event) (s1 : state) =>
    t = [] /\ 0 <= i /\
    length (tx_ring s1) = Z.to_nat TX_RING_SIZE /\
    length (tx_bufs s1) = Z.to_nat TX_RING_SIZE /\
    (forall j, 0 <= j < i ->
       tx_ring s1 !! Z.to_nat j = Some (mk_tx_desc 0 0 0 0 (u8 E1000_TXD_STAT_DD) 0 0) /\
       tx_bufs s1 !! Z.to_nat j = Some 0) /\
    (forall j, i <= j < TX_RING_SIZE -> tx_ring s1 !! Z.to_nat j = Some tx_desc_zero) /\
    rx_side s1 = rx_side s /\ rest_of s1 = rest_of s).
  match goal with |- context [for_range _ _ ?body _] =>
    destruct (for_range_inv I body (Z.to_nat TX_RING_SIZE) 0 [] s)
      as (t & s' & Hrun & Hinv) end.
  - intros i t s1 Hi (-> & Hi0 & Hr1 & Hb1 & Hdone & Htodo & Hrx & Hrest).
    rewrite Z.add_0_l, Z2Nat.id in Hi by done.
    assert (Hlt : (Z.to_nat i < Z.to_nat TX_RING_SIZE)%nat) by lia.
    destruct (lookup_lt_is_Some_2 (tx_bufs s1) (Z.to_nat i)) as [b Hbi]; [lia|].
    eexists [], _. split.
    + unfold get_tx_desc at 1. rewrite bind_bind, bind_get.
      rewrite (bind_at_index _ _ tx_desc_zero) by (lia || (apply Htodo; lia)).
      unfold put_tx_desc, get_tx_desc. rewrite !bind_bind, bind_get.
      rewrite (bind_at_index _ _ tx_desc_zero) by (lia || (apply Htodo; lia)).
      rewrite bind_modify. unfold put_tx_buf, get_tx_buf.
      rewrite bind_bind, bind_get. simpl tx_bufs.
      rewrite (bind_at_index _ _ b) by (lia || done).
      unfold modify. reflexivity.
    + split; [done|]. split; [lia|]. simpl.
      rewrite !length_insert. split; [done|]. split; [done|].
      split; [|split; [|by split]].
      * intros j Hj. destruct (decide (j = i)) as [->|Hne].
        -- rewrite !list_lookup_insert_eq by lia. done.
        -- rewrite !list_lookup_insert_ne by lia. apply Hdone. lia.
      * intros j Hj. rewrite list_lookup_insert_ne by lia. apply Htodo. lia.
  - unfold I. repeat split; try done; try lia.
  - destruct Hinv as (Ht & _ & Hr' & Hb' & Hdone & _ & Hrx & Hrest).
    simpl in Ht. subst t. rewrite Z.add_0_l, Z2Nat.id in Hdone by done.
    exists s'. split; [exact Hrun|].
    split; [split; [done|split; [done|exact Hdone]]|by split].
Qed.

Lemma rx_init_loop s :
  0 <= RX_RING_SIZE -> rx_wf s ->
  (forall i, 0 <= i < RX_RING_SIZE -> rx_ring s !! Z.to_nat i = Some rx_desc_zero) ->
  (Z.to_nat RX_RING_SIZE <= length (freelist s))%nat ->
  Forall (fun pa => pa <> 0) (take (Z.to_nat RX_RING_SIZE) (freelist s)) ->
  exists t s',
    for_range (Z.to_nat RX_RING_SIZE) 0 (fun i =>
      let* pa := kalloc in
      put_rx_buf i pa ;;;
      if pa =? 0 then panic "e1000" else
      let* d := get_rx_desc i in
      put_rx_desc i (mk_rx_desc (u64 pa) (rxd_length d) (rxd_csum d) (rxd_status d)
                                (rxd_errors d) (rxd_special d))) s = (t, Done tt s') /\
    t = EvKalloc <$> take (Z.to_nat RX_RING_SIZE) (freelist s) /\
    rx_fresh (freelist s) s' /\
    freelist s' = drop (Z.to_nat RX_RING_SIZE) (freelist s) /\
    tx_side s' = tx_side s /\ rest_of s' = rest_of s.
Proof.
  intros HN (Hr & Hb) Hzero Hpages Hnz.
  set (I := fun (i : Z) (t : list event) (s1 : state) =>
    t = EvKalloc <$> take (Z.to_nat i) (freelist s) /\ 0 <= i /\
    freelist s1 = drop (Z.to_nat i) (freelist s) /\
    rx_wf s1 /\
    (forall j, 0 <= j < i ->
       exists pa, freelist s !! Z.to_nat j = Some pa /\ pa <> 0 /\
                  rx_bufs s1 !! Z.to_nat j = Some pa /\
                  rx_ring s1 !! Z.to_nat j = Some (mk_rx_desc (u64 pa) 0 0 0 0 0)) /\
    (forall j, i <= j < RX_RING_SIZE -> rx_ring s1 !! Z.to_nat j = Some rx_desc_zero) /\
    tx_side s1 = tx_side s /\ rest_of s1 = rest_of s).
  match goal with |- context [for_range _ _ ?body _] =>
    destruct (for_range_inv I body (Z.to_nat RX_RING_SIZE) 0 [] s)
      as (t & s' & Hrun & Hinv) end.
  - intros i t s1 Hi (-> & Hi0 & Hfree & (Hr1 & Hb1) & Hdone & Htodo & Htx & Hrest).
    rewrite Z.add_0_l, Z2Nat.id in Hi by done.
    destruct (lookup_lt_is_Some_2 (freelist s) (Z.to_nat i)) as [pa Hpa]; [lia|].
    assert (Hpa0 : pa <> 0).
    { rewrite Forall_forall in Hnz. apply Hnz. apply list_elem_of_lookup.
      exists (Z.to_nat i). rewrite lookup_take_lt by lia. done. }
    assert (Hfl : freelist s1 = pa :: drop (S (Z.to_nat i)) (freelist s)).
    { rewrite Hfree. by apply drop_S. }
    destruct (lookup_lt_is_Some_2 (rx_bufs s1) (Z.to_nat i)) as [b Hbi]; [lia|].
    eexists [EvKalloc pa], _. split.
    + rewrite bind_kalloc, Hfl. simpl hd. simpl tl.
      unfold put_rx_buf, get_rx_buf. rewrite !bind_bind, bind_get. simpl rx_bufs.
      rewrite (bind_at_index _ _ b) by (lia || done).
      rewrite bind_modify. apply Z.eqb_neq in Hpa0. rewrite Hpa0.
      unfold get_rx_desc at 1. rewrite bind_bind, bind_get. simpl rx_ring.
      rewrite (bind_at_index _ _ rx_desc_zero) by (lia || (apply Htodo; lia)).
      unfold put_rx_desc, get_rx_desc. rewrite !bind_bind, bind_get. simpl rx_ring.
      rewrite (bind_at_index _ _ rx_desc_zero) by (lia || (apply Htodo; lia)).
      unfold modify, after. simpl. reflexivity.
    + unfold I. simpl.
      replace (Z.to_nat (i + 1)) with (S (Z.to_nat i)) by lia.
      split; [by rewrite (take_S_r _ _ pa), fmap_app|].
      split; [lia|]. split; [done|].
      split; [by unfold rx_wf; simpl; rewrite !length_insert|].
      split; [|split; [|by split]].
      * intros j Hj. destruct (decide (j = i)) as [->|Hne].
        -- exists pa. rewrite !list_lookup_insert_eq by lia. done.
        -- rewrite !list_lookup_insert_ne by lia. apply Hdone. lia.
      * intros j Hj. rewrite list_lookup_insert_ne by lia. apply Htodo. lia.
  - unfold I. repeat split; try done; try lia.
  - destruct Hinv as (Ht & _ & Hfree & Hwf' & Hdone & _ & Htx & Hrest).
    rewrite Z.add_0_l, Z2Nat.id in Ht, Hfree, Hdone by done. simpl in Ht.
    exists t, s'. split; [exact Hrun|]. split; [done|].
    split; [split; [done|exact Hdone]|]. split; [done|]. by split.
Qed.

Lemma mta_init_loop s :
  exists s',
    for_range (Z.to_nat (4096 / 32)) 0 (fun i => write_reg (E1000_MTA + i) 0) s =
      ([], Done tt s') /\
    (forall r, ~ (E1000_MTA <= r < E1000_MTA + 128) -> regs s' !!! r = regs s !!! r) /\
    tx_side s' = tx_side s /\ rx_side s' = rx_side s /\
    e1000_lock s' = e1000_lock s /\ device s' = device s.
Proof.
  set (I := fun (i : Z) (t : list event) (s1 : state) =>
    t = [] /\
    (forall r, ~ (E1000_MTA <= r < E1000_MTA + i) -> regs s1 !!! r = regs s !!! r) /\
    tx_side s1 = tx_side s /\ rx_side s1 = rx_side s /\
    e1000_lock s1 = e1000_lock s /\ device s1 = device s).
  match goal with |- context [for_range _ _ ?body _] =>
    destruct (for_range_inv I body (Z.to_nat (4096 / 32)) 0 [] s)
      as (t & s' & Hrun & Hinv) end.
  - intros i t s1 Hi (-> & Hregs & Htx & Hrx & Hl & Hd).
    eexists [], _. split; [reflexivity|].
    split; [done|]. simpl. split; [|done].
    intros r Hr. rewrite lookup_total_insert_ne by lia. apply Hregs. lia.
  - by repeat split.
  - destruct Hinv as (Ht & Hregs & Hframe). simpl in Ht. subst t.
    exists s'. split; [exact Hrun|]. split; [|exact Hframe].
    intros r Hr. apply Hregs. change (Z.of_nat (Z.to_nat (4096 / 32))) with 128. lia.
Qed.

Ltac fields :=
  cbn [regs set_regs set_lock set_tx_ring set_tx_bufs set_rx_ring set_rx_bufs
       set_freelist set_device tx_ring tx_bufs rx_ring rx_bufs e1000_lock
       freelist device tx_side rx_side rest_of] in *.

Ltac in_list := repeat first [apply list_elem_of_here | apply list_elem_of_further].

Lemma bind_panicked {A B} (m : M A) (k : A -> M B) s t msg :
  m s = (t, Panicked msg) -> bind m k s = (t, Panicked msg).
Proof. intros E. unfold bind. by rewrite E. Qed.

Lemma allocations_kallocs l : allocations (EvKalloc <$> l) = l.
Proof. induction l as [|pa l IH]; [done|]. unfold allocations in *. cbn. by f_equal. Qed.

Lemma deliveries_kallocs l : deliveries (EvKalloc <$> l) = [].
Proof. induction l as [|pa l IH]; [done|]. unfold deliveries in *. cbn. done. Qed.

Lemma frees_kallocs l : frees (EvKalloc <$> l) = [].
Proof. induction l as [|pa l IH]; [done|]. unfold frees in *. cbn. done. Qed.

(** A loop whose body keeps an invariant for [k] turns and then panics,
    panics. *)
Lemma for_range_panic (I : Z -> list event -> state -> Prop)
    (Q : list event -> Prop) body msg (k : nat) :
  forall (n : nat) lo t0 s,
  (k < n)%nat ->
  (forall i t s1, lo <= i < lo + Z.of_nat k -> I i t s1 ->
     exists t1 s2, body i s1 = (t1, Done tt s2) /\ I (i + 1) (t ++ t1) s2) ->
  (forall t s1, I (lo + Z.of_nat k) t s1 ->
     exists t1, body (lo + Z.of_nat k) s1 = (t1, Panicked msg) /\ Q (t ++ t1)) ->
  I lo t0 s ->
  exists t, for_range n lo body s = (t, Panicked msg) /\ Q (t0 ++ t).
Proof.
  induction k as [|k IH]; intros n lo t0 s Hk Hbody Hlast Hinv;
    (destruct n as [|n]; [lia|]); cbn [for_range].
  - rewrite Z.add_0_r in Hlast.
    destruct (Hlast t0 s Hinv) as (t1 & Hrun & HQ).
    exists t1. by rewrite (bind_panicked _ _ _ _ _ Hrun).
  - destruct (Hbody lo t0 s ltac:(lia) Hinv) as (t1 & s2 & Hrun & Hinv2).
    destruct (IH n (lo + 1) (t0 ++ t1) s2) as (t & Hrest & HQ).
    + lia.
    + intros i t s1 Hi. apply Hbody. lia.
    + replace (lo + 1 + Z.of_nat k) with (lo + Z.of_nat (S k)) by lia. exact Hlast.
    + done.
    + exists (t1 ++ t). rewrite (bind_done _ _ _ _ _ _ Hrun), Hrest.
      split; [reflexivity|]. by rewrite app_assoc.
Qed.

(** The receive loop of [e1000_init] when the allocator has fewer pages
    than the ring has slots. *)
Lemma rx_init_loop_panics s :
  rx_wf s ->
  (length (freelist s) < Z.to_nat RX_RING_SIZE)%nat ->
  Forall (fun pa => pa <> 0) (freelist s) ->
  for_range (Z.to_nat RX_RING_SIZE) 0 (fun i =>
    let* pa := kalloc in
    put_rx_buf i pa ;;;
    if pa =? 0 then panic "e1000" else
    let* d := get_rx_desc i in
    put_rx_desc i (mk_rx_desc (u64 pa) (rxd_length d) (rxd_csum d) (rxd_status d)
                              (rxd_errors d) (rxd_special d))) s =
    (EvKalloc <$> (freelist s ++ [0]), Panicked "e1000").
Proof.
  intros (Hr & Hb) Hfew Hnz.
  set (I := fun (i : Z) (t : list event) (s1 : state) =>
    t = EvKalloc <$> take (Z.to_nat i) (freelist s) /\ 0 <= i /\
    freelist s1 = drop (Z.to_nat i) (freelist s) /\ rx_wf s1).
  set (Q := fun t : list event => t = EvKalloc <$> (freelist s ++ [0])).
  match goal with |- context [for_range _ _ ?body _] =>
    destruct (for_range_panic I Q body "e1000" (length (freelist s))
                (Z.to_nat RX_RING_SIZE) 0 [] s) as (t & Hrun & HQ) end.
  - done.
  - intros i t s1 Hi (-> & Hi0 & Hfree & (Hr1 & Hb1)).
    destruct (lookup_lt_is_Some_2 (freelist s) (Z.to_nat i)) as [pa Hpa]; [lia|].
    assert (Hpa0 : pa <> 0).
    { rewrite Forall_forall in Hnz. apply Hnz. by eapply list_elem_of_lookup_2. }
    assert (Hfl : freelist s1 = pa :: drop (S (Z.to_nat i)) (freelist s)).
    { rewrite Hfree. by apply drop_S. }
    destruct (lookup_lt_is_Some_2 (rx_bufs s1) (Z.to_nat i)) as [b Hbi]; [lia|].
    destruct (lookup_lt_is_Some_2 (rx_ring s1) (Z.to_nat i)) as [d Hdi]; [lia|].
    eexists [EvKalloc pa], _. split.
    + rewrite bind_kalloc, Hfl. simpl hd. simpl tl.
      unfold put_rx_buf, get_rx_buf. rewrite !bind_bind, bind_get. simpl rx_bufs.
      rewrite (bind_at_index _ _ b) by (lia || done).
      rewrite bind_modify. apply Z.eqb_neq in Hpa0. rewrite Hpa0.
      unfold get_rx_desc at 1. rewrite bind_bind, bind_get. simpl rx_ring.
      rewrite (bind_at_index _ _ d) by (lia || done).
      unfold put_rx_desc, get_rx_desc. rewrite !bind_bind, bind_get. simpl rx_ring.
      rewrite (bind_at_index _ _ d) by (lia || done).
      unfold modify, after. simpl. reflexivity.
    + unfold I. simpl.
      replace (Z.to_nat (i + 1)) with (S (Z.to_nat i)) by lia.
      split; [by rewrite (take_S_r _ _ pa), fmap_app|].
      split; [lia|]. split; [done|].
      by unfold rx_wf; simpl; rewrite !length_insert.
  - intros t s1 (-> & _ & Hfree & (Hr1 & Hb1)).
    rewrite Z.add_0_l, Nat2Z.id in *.
    rewrite drop_all in Hfree. rewrite firstn_all.
    destruct (lookup_lt_is_Some_2 (rx_bufs s1) (length (freelist s))) as [b Hbi]; [lia|].
    eexists. split.
    + rewrite bind_kalloc, Hfree. simpl hd. simpl tl.
      unfold put_rx_buf, get_rx_buf. rewrite !bind_bind, bind_get. simpl rx_bufs.
      rewrite (bind_at_index _ _ b) by (lia || by rewrite Nat2Z.id).
      rewrite bind_modify. reflexivity.
    + unfold Q. by rewrite fmap_app.
  - unfold I. repeat split; try done; lia.
  - unfold Q in HQ. simpl in HQ. by rewrite Hrun, HQ.
Qed.

(** [e1000_init] up to the size check of the transmit ring. *)
Ltac init_tx_phase s :=
  let s2 := fresh "s2" in
  let Hrun2 := fresh "Hrun2" in let Htx2 := fresh "Htx2" in
  let Hrx2 := fresh "Hrx2" in let Hrest2 := fresh "Hrest2" in
  let Hrr2 := fresh "Hrr2" in let Hrb2 := fresh "Hrb2" in
  let Hfl2 := fresh "Hfl2" in let Hregs2 := fresh "Hregs2" in
  let Hl2 := fresh "Hl2" in let Hd2 := fresh "Hd2" in
  unfold e1000_init;
  rewrite bind_modify, bind_write_reg, bind_read_reg, !bind_write_reg, bind_modify;
  fields;
  match goal with |- context [bind (for_range _ _ _) _ ?s1] =>
    destruct (tx_init_loop s1) as (s2 & Hrun2 & Htx2 & Hrx2 & Hrest2);
    [ lia
    | by fields; rewrite length_fmap
    | done
    | let i := fresh "i" in let Hi := fresh "Hi" in let d := fresh "d" in
      intros i Hi; fields; rewrite list_lookup_fmap;
      destruct (lookup_lt_is_Some_2 (tx_ring s) (Z.to_nat i)) as [d ->]; [lia|done]
    | ]
  end;
  rewrite (bind_done _ _ _ _ _ _ Hrun2), after_nil; clear Hrun2;
  fields; injection Hrx2 as Hrr2 Hrb2 Hfl2; injection Hrest2 as Hregs2 Hl2 Hd2;
  rewrite bind_write_reg.

Lemma e1000_init_run s :
  sizes_ok -> tails_apart -> init_pre s ->
  exists s',
    e1000_init s =
      (EvKalloc <$> take (Z.to_nat RX_RING_SIZE) (freelist s), Done tt s') /\
    tx_fresh s' /\ rx_fresh (freelist s) s' /\
    freelist s' = drop (Z.to_nat RX_RING_SIZE) (freelist s) /\
    e1000_lock s' = false /\ device s' = device s /\
    regs s' !!! E1000_TDT = 0 /\ regs s' !!! E1000_RDT = RX_RING_SIZE - 1.
Proof.
  intros ((HT0 & HT1) & (HR0 & HR1)) (Hne & Hlater & HmT & HmR)
         (Hr & Hb & Hrx & HTm & HRm & Hpages & Hnz).
  init_tx_phase s.
  rewrite HTm. change (negb (0 =? 0)) with false. cbv iota.
  rewrite !bind_write_reg, bind_modify. fields.
  match goal with |- context [bind (for_range _ _ _) _ ?s1] =>
    destruct (rx_init_loop s1) as (t4 & s4 & Hrun4 & Ht4 & Hrx4 & Hfl4 & Htx4 & Hrest4) end.
  { lia. }
  { destruct Hrx. split; fields; [rewrite length_fmap|]; congruence. }
  { intros i Hi. fields. rewrite list_lookup_fmap.
    destruct (lookup_lt_is_Some_2 (rx_ring s2) (Z.to_nat i)) as [d ->]; [|done].
    destruct Hrx. rewrite Hrr2. lia. }
  { fields. by rewrite Hfl2. }
  { fields. by rewrite Hfl2. }
  rewrite (bind_done _ _ _ _ _ _ Hrun4). clear Hrun4.
  fields. injection Htx4 as Htr4 Htb4. injection Hrest4 as Hregs4 Hl4 Hd4.
  rewrite bind_write_reg, HRm. change (negb (0 =? 0)) with false. cbv iota.
  rewrite !bind_write_reg. fields.
  match goal with |- context [bind (for_range _ _ _) _ ?s1] =>
    destruct (mta_init_loop s1) as (s6 & Hrun6 & Hregs6 & Htx6 & Hrx6 & Hl6 & Hd6) end.
  rewrite (bind_done _ _ _ _ _ _ Hrun6), after_nil. clear Hrun6.
  fields. injection Htx6 as Htr6 Htb6. injection Hrx6 as Hrr6 Hrb6 Hfl6.
  rewrite !bind_write_reg. unfold write_reg, modify. fields.
  assert (HinT : forall r, r ∈ later_regs -> r <> E1000_TDT).
  { intros r Hr0. by apply (proj1 (Forall_forall _ _) Hlater r). }
  assert (HinR : forall r, r ∈ later_regs -> r <> E1000_RDT).
  { intros r Hr0. by apply (proj1 (Forall_forall _ _) Hlater r). }
  unfold later_regs in HinT, HinR.
  eexists. split; [rewrite after_pair, app_nil_r, Ht4, Hfl2; reflexivity|].
  fields.
  split.
  { destruct Htx2 as (Ha & Hb2 & Hc). unfold tx_fresh. fields.
    rewrite Htr6, Htr4, Htb6, Htb4. done. }
  split.
  { rewrite <- Hfl2. destruct Hrx4 as ((Ha & Hb4) & Hc).
    split; [split|]; fields; rewrite ?Hrr6, ?Hrb6; done. }
  split; [congruence|]. split; [congruence|]. split; [congruence|].
  split.
  - rewrite !lookup_total_insert_ne by (apply HinT; in_list).
    rewrite Hregs6 by done.
    rewrite !lookup_total_insert_ne by
      first [by apply not_eq_sym | apply HinT; in_list].
    rewrite Hregs4.
    rewrite lookup_total_insert_ne by (apply HinT; in_list).
    by rewrite lookup_total_insert_eq.
  - rewrite !lookup_total_insert_ne by (apply HinR; in_list).
    rewrite Hregs6 by done.
    rewrite !lookup_total_insert_ne by (apply HinR; in_list).
    rewrite lookup_total_insert_eq. apply u32_small. lia.
Qed.

(** The driver straight after [e1000_init]: the transmit tail is slot 0 and
    its descriptor is done, the receive head is slot 0 and its descriptor
    is not done. *)
Lemma fresh_tx s :
  0 < TX_RING_SIZE -> Z.land (u8 E1000_TXD_STAT_DD) E1000_TXD_STAT_DD <> 0 ->
  tx_fresh s -> e1000_lock s = false -> regs s !!! E1000_TDT = 0 ->
  tx_wf s /\ tx_tail s = 0 /\
  forall j, 0 <= j < TX_RING_SIZE -> tx_done_at s j = true.
Proof.
  intros HN Hdd (Hr & Hb & Hslots) Hl Htdt.
  split; [done|]. split; [unfold tx_tail; by rewrite Htdt, Z.mod_0_l by lia|].
  intros j Hj. unfold tx_done_at. destruct (Hslots j Hj) as [-> _]. simpl.
  apply negb_true_iff. by apply Z.eqb_neq.
Qed.

Lemma fresh_rx pages s :
  0 < RX_RING_SIZE < 2^31 ->
  rx_fresh pages s -> regs s !!! E1000_RDT = RX_RING_SIZE - 1 ->
  rx_wf s /\ rx_head s = 0 /\ rx_done_at s (rx_head s) = false.
Proof.
  intros HN (Hwf & Hslots) Hrdt.
  assert (Hh : rx_head s = 0).
  { unfold rx_head. rewrite Hrdt, u32_small by lia.
    replace (RX_RING_SIZE - 1 + 1) with (1 * RX_RING_SIZE) by lia.
    apply Z.mod_mul. lia. }
  split; [done|]. split; [done|]. rewrite Hh. unfold rx_done_at.
  destruct (Hslots 0 ltac:(lia)) as (pa & _ & _ & _ & ->). reflexivity.
Qed.

(** X7: [e1000_init] on arrays of the declared sizes, with rings that are a
    multiple of 128 bytes long and a free list that starts with one non-null
    page per receive slot, returns. It calls [kalloc] once per receive slot
    and nothing else, taking the pages from the front of the free list in
    order; it leaves every transmit descriptor zero but for the done bit and
    every transmit buffer slot empty; receive slot [i] holds the [i]-th page,
    whose address is in its descriptor, with a zero status; the lock is
    free, the transmit tail register is 0 and the receive tail register is
    the last index of the ring. *)
Theorem init_sets_up_rings s :
  sizes_ok -> tails_apart -> init_pre s ->
  exists t s',
    e1000_init s = (t, Done tt s') /\
    allocations t = take (Z.to_nat RX_RING_SIZE) (freelist s) /\
    deliveries t = [] /\ frees t = [] /\
    freelist s' = drop (Z.to_nat RX_RING_SIZE) (freelist s) /\
    tx_fresh s' /\ rx_fresh (freelist s) s' /\
    e1000_lock s' = false /\ device s' = device s /\
    regs s' !!! E1000_TDT = 0 /\ regs s' !!! E1000_RDT = RX_RING_SIZE - 1.
Proof.
  intros Hsz Hta Hpre.
  destruct (e1000_init_run s Hsz Hta Hpre)
    as (s' & Hrun & Htx & Hrx & Hfl & Hl & Hd & Htdt & Hrdt).
  eexists _, s'. split; [exact Hrun|].
  rewrite allocations_kallocs, deliveries_kallocs, frees_kallocs.
  by repeat (split; [done|]).
Qed.

(** X8: when the free list holds fewer pages than the receive ring has
    slots, [e1000_init] panics with "e1000": it has taken every page of the
    free list, in order, the call of [kalloc] after them returned null, and
    it has given no page back. *)
Theorem init_panics_when_pages_run_out s :
  sizes_ok ->
  length (tx_ring s) = Z.to_nat TX_RING_SIZE ->
  length (tx_bufs s) = Z.to_nat TX_RING_SIZE ->
  rx_wf s ->
  (TX_RING_SIZE * sizeof_tx_desc) mod 128 = 0 ->
  (length (freelist s) < Z.to_nat RX_RING_SIZE)%nat ->
  Forall (fun pa => pa <> 0) (freelist s) ->
  exists t,
    e1000_init s = (t, Panicked "e1000") /\
    allocations t = freelist s ++ [0] /\ frees t = [].
Proof.
  intros ((HT0 & HT1) & (HR0 & HR1)) Hr Hb Hrx HTm Hfew Hnz.
  init_tx_phase s.
  rewrite HTm. change (negb (0 =? 0)) with false. cbv iota.
  rewrite !bind_write_reg, bind_modify. fields.
  eexists. split.
  - erewrite bind_panicked; [reflexivity|].
    rewrite rx_init_loop_panics; fields; rewrite ?Hfl2; try done.
    destruct Hrx. split; fields; [rewrite length_fmap|]; congruence.
  - by rewrite allocations_kallocs, frees_kallocs.
Qed.

(** X9: when the transmit ring is not a multiple of 128 bytes long,
    [e1000_init] panics with "e1000" before it calls the allocator. *)
Theorem init_checks_transmit_ring_bytes s :
  0 <= TX_RING_SIZE ->
  length (tx_ring s) = Z.to_nat TX_RING_SIZE ->
  length (tx_bufs s) = Z.to_nat TX_RING_SIZE ->
  (TX_RING_SIZE * sizeof_tx_desc) mod 128 <> 0 ->
  e1000_init s = ([], Panicked "e1000").
Proof.
  intros HT0 Hr Hb HTm.
  init_tx_phase s.
  apply Z.eqb_neq in HTm. rewrite HTm. reflexivity.
Qed.

(** X10: [e1000_recv] straight after [e1000_init] starts at slot 0, finds
    its descriptor not done, and returns having only taken and released the
    lock: nothing is delivered, nothing allocated, the state is unchanged. *)
Theorem recv_after_init_finds_nothing fuel s :
  sizes_ok -> tails_apart -> init_pre s ->
  exists t s',
    e1000_init s = (t, Done tt s') /\
    e1000_recv (S fuel) s' = ([EvAcquire; EvRelease], Done tt s').
Proof.
  intros Hsz Hta Hpre.
  destruct (e1000_init_run s Hsz Hta Hpre)
    as (s' & Hrun & Htx & Hrx & Hfl & Hl & Hd & Htdt & Hrdt).
  destruct (fresh_rx _ s' (proj2 Hsz) Hrx Hrdt) as (Hwf & _ & Hidle).
  eexists _, s'. split; [exact Hrun|].
  apply recv_idle; [apply Hsz|done..].
Qed.

(** X11: when the done bit fits the 8-bit status field, the transmit ring
    that [e1000_init] leaves takes exactly [TX_RING_SIZE] frames: of
    [TX_RING_SIZE + 1] back-to-back calls of [e1000_transmit], the first
    [TX_RING_SIZE] return 0 and the last returns -1. *)
Theorem transmit_ring_takes_its_size_after_init s reqs :
  sizes_ok -> tails_apart -> init_pre s ->
  Z.land (u8 E1000_TXD_STAT_DD) E1000_TXD_STAT_DD <> 0 ->
  length reqs = S (Z.to_nat TX_RING_SIZE) ->
  exists t s',
    e1000_init s = (t, Done tt s') /\
    transmit_seq reqs s' = replicate (Z.to_nat TX_RING_SIZE) 0 ++ [-1].
Proof.
  intros Hsz Hta Hpre Hdd Hlen.
  destruct (e1000_init_run s Hsz Hta Hpre)
    as (s' & Hrun & Htx & Hrx & Hfl & Hl & Hd & Htdt & Hrdt).
  destruct Hsz as (HT & HR).
  destruct (fresh_tx s' (proj1 HT) Hdd Htx Hl Htdt) as (Hwf & Htail & Hdone).
  eexists _, s'. split; [exact Hrun|].
  apply transmit_seq_window; [done|done|lia|done| |].
  - intros j Hj. apply Hdone. apply Z.mod_pos_bound. lia.
  - intros j Hj. lia.
Qed.

End Facts.

(** *** The claims on the ring of 16 of [e1000.c] *)
Section Runs.
#[local] Existing Instance qemu_e1000.
#[local] Existing Instance e1000_c_rings.
#[local] Existing Instance qemu_ring_addrs.

Lemma sizes_16 : sizes_ok.
Proof. unfold sizes_ok; simpl; lia. Defined.

Ltac below_16 i :=
  let n := fresh "n" in
  let Hn := fresh "Hn" in
  assert (Hn : (Z.to_nat i < 16)%nat) by (simpl in *; lia);
  replace i with (Z.of_nat (Z.to_nat i)) by (simpl in *; lia);
  generalize dependent (Z.to_nat i); intros n; intros;
  do 16 (destruct n as [|n]; [vm_compute; reflexivity|]); lia.

Lemma transmit_succeeds_iff_tail_done_witness :
  sizes_ok /\
  transmit_seq seventeen_frames (booted []) = replicate 16 0 ++ [-1].
Proof.
  split; [exact sizes_16|].
  apply (proj2 (transmit_succeeds_iff_tail_done sizes_16)).
  - vm_compute. by repeat split.
  - intros i Hi. below_16 i.
  - reflexivity.
Defined.


Lemma transmit_failure_changes_nothing_witness :
  0 < TX_RING_SIZE /\ tx_wf full_tx_ring /\
  tx_done_at full_tx_ring (tx_tail full_tx_ring) = false /\
  exists t s',
    e1000_transmit 0x88010000 60 full_tx_ring = (t, Done (-1) s') /\
    s' = full_tx_ring /\ t = [EvAcquire; EvRelease] /\
    forall pa, EvKfree pa ∉ t.
Proof.
  assert (H1 : 0 < TX_RING_SIZE) by (simpl; lia).
  assert (H2 : tx_wf full_tx_ring) by (vm_compute; by repeat split).
  assert (H3 : tx_done_at full_tx_ring (tx_tail full_tx_ring) = false)
    by (vm_compute; reflexivity).
  split; [exact H1|]. split; [exact H2|]. split; [exact H3|].
  exact (transmit_failure_changes_nothing full_tx_ring 0x88010000 60 H1 H2 H3).
Defined.

Lemma run_pair {A B} (r : A * B) : r = (r.1, r.2).
Proof. by destruct r. Defined.

Lemma rx_wf_four_packets : rx_wf four_packets.
Proof. vm_compute. by split. Defined.

Lemma rx_wf_full_ring_and_one : rx_wf full_ring_and_one.
Proof. vm_compute. by split. Defined.

Lemma recv_drains_in_ring_order_witness :
  sizes_ok /\ rx_wf four_packets /\ e1000_lock four_packets = false /\
  (deliveries (e1000_recv 40 four_packets).1).*1.*1 = [0; 1; 2; 3] /\
  (exists s', (e1000_recv 40 four_packets).2 = Done tt s') /\
  (deliveries (e1000_recv 40 full_ring_and_one).1).*1.*1 =
    [0; 1; 2; 3; 4; 5; 6; 7; 8; 9; 10; 11; 12; 13; 14; 15; 0] /\
  (forall slot buf len,
     deliveries (e1000_recv 40 full_ring_and_one).1 !! 16%nat = Some (slot, buf, len) ->
     slot = 0 /\
     allocations (e1000_recv 40 full_ring_and_one).1 !! 0%nat = Some buf /\
     exists buf0 len0,
       deliveries (e1000_recv 40 full_ring_and_one).1 !! 0%nat = Some (slot, buf0, len0)).
Proof.
  pose proof (recv_drains_in_ring_order 40 four_packets _ _ sizes_16
                rx_wf_four_packets eq_refl (run_pair _))
    as (_ & _ & _ & Hquiet & Hret).
  pose proof (recv_drains_in_ring_order 40 full_ring_and_one _ _ sizes_16
                rx_wf_full_ring_and_one eq_refl (run_pair _))
    as (_ & Horder & _).
  split; [exact sizes_16|]. split; [exact rx_wf_four_packets|]. split; [reflexivity|].
  destruct Hret as [s' Hs'].
  { vm_compute. repeat constructor; discriminate. }
  { vm_compute. lia. }
  { vm_compute. lia. }
  split; [|split; [by exists s'|split]].
  - rewrite (Hquiet eq_refl 4%nat s' Hs'); [reflexivity|simpl; lia| |].
    + intros k Hk. do 4 (destruct k as [|k]; [vm_compute; reflexivity|]). lia.
    + intros _. vm_compute. reflexivity.
  - vm_compute. reflexivity.
  - intros slot buf len Hk.
    destruct (Horder 16%nat slot buf len Hk) as (Hslot & _ & Hagain).
    split; [exact Hslot|]. apply Hagain. simpl. lia.
Defined.

Lemma recv_refills_every_drained_slot_witness :
  0 < RX_RING_SIZE /\ rx_wf four_packets /\ e1000_lock four_packets = false /\
  (exists s',
     (e1000_recv 40 four_packets).2 = Done tt s' /\
     forall slot buf len,
       (slot, buf, len) ∈ deliveries (e1000_recv 40 four_packets).1 ->
       exists pa,
         rx_bufs s' !! Z.to_nat slot = Some pa /\ pa <> 0 /\
         pa ∈ allocations (e1000_recv 40 four_packets).1 /\
         rxd_addr <$> rx_ring s' !! Z.to_nat slot = Some (u64 pa)) /\
  (e1000_recv 40 four_packets_no_pages).2 = Panicked "e1000".
Proof.
  assert (HN : 0 < RX_RING_SIZE) by (simpl; lia).
  pose proof (recv_refills_every_drained_slot 40 four_packets _ _ HN
                rx_wf_four_packets eq_refl (run_pair _))
    as (Hslots & _ & _ & Hret).
  assert (Hwf : rx_wf four_packets_no_pages) by (vm_compute; by split).
  pose proof (recv_refills_every_drained_slot 40 four_packets_no_pages _ _ HN
                Hwf eq_refl (run_pair _))
    as (_ & Hpanic & _).
  split; [exact HN|]. split; [exact rx_wf_four_packets|]. split; [reflexivity|].
  split.
  - destruct Hret as [s' Hs'].
    { vm_compute. repeat constructor; discriminate. }
    { vm_compute. lia. }
    { vm_compute. lia. }
    exists s'. split; [exact Hs'|]. exact (Hslots s' Hs').
  - apply Hpanic. vm_compute. apply list_elem_of_here.
Defined.

Lemma recv_delivers_with_lock_released_witness :
  0 < RX_RING_SIZE /\ rx_wf four_packets /\ e1000_lock four_packets = false /\
  exists l,
    (e1000_recv 40 four_packets).1 = EvAcquire :: drain_trace l ++ [EvRelease] /\
    length l = 4%nat /\
    Forall (fun c => match c.1 with
                     | EvNetRx _ _ _ => c.2 = false
                     | EvKalloc _ => c.2 = true
                     | _ => True
                     end) (calls_with_lock false (e1000_recv 40 four_packets).1).
Proof.
  assert (HN : 0 < RX_RING_SIZE) by (simpl; lia).
  destruct (recv_delivers_with_lock_released 40 four_packets _ _ HN
              rx_wf_four_packets eq_refl (run_pair _))
    as (l & Ht & Hcalls & Hlock).
  split; [exact HN|]. split; [exact rx_wf_four_packets|]. split; [reflexivity|].
  exists l. split; [exact Ht|]. split; [|exact Hlock].
  assert (El : deliveries (e1000_recv 40 four_packets).1 = l.*1).
  { rewrite Ht. apply (recv_result_deliveries l (Done tt four_packets)). }
  apply (f_equal length) in El. rewrite length_fmap in El. rewrite <- El.
  vm_compute. reflexivity.
Defined.

(** C8 as the specification states it fails on the code: in the run on
    [four_packets] the lock is held when [kalloc] is called. *)
Lemma recv_lock_held_across_kalloc :
  ~ leaf_lock (e1000_recv 40 four_packets).1.
Proof.
  unfold leaf_lock. intros Hleaf.
  apply (Forall_lookup_1 _ _ 1%nat (EvKalloc 0x87010000, true)) in Hleaf.
  - discriminate Hleaf.
  - vm_compute. reflexivity.
Qed.

(** *** Further runs on the ring of 16 *)

Lemma tx_wf_first_frame_sent : tx_wf first_frame_sent.
Proof. vm_compute. by repeat split. Defined.

Lemma run_done s :
  (e1000_recv 40 s).2 = Done tt (drained s) ->
  e1000_recv 40 s = ((e1000_recv 40 s).1, Done tt (drained s)).
Proof. intros E. rewrite <- E. apply run_pair. Defined.

Lemma tails_apart_qemu : tails_apart.
Proof.
  split; [vm_compute; discriminate|].
  split; [|split; vm_compute; intros [H1 H2]; by apply H1].
  unfold later_regs. repeat constructor; vm_compute; discriminate.
Defined.

Lemma init_pre_boot dev : init_pre (boot_state free_pages dev).
Proof.
  unfold init_pre. split; [reflexivity|]. split; [reflexivity|].
  split; [by split|]. split; [reflexivity|]. split; [reflexivity|].
  split; [vm_compute; lia|].
  vm_compute. repeat constructor; discriminate.
Defined.

Lemma transmit_installs_and_releases_witness :
  0 < TX_RING_SIZE /\ tx_wf first_frame_sent /\
  tx_done_at first_frame_sent (tx_tail first_frame_sent) = true /\
  exists t s',
    e1000_transmit 0x88010000 60 first_frame_sent = (t, Done 0 s') /\
    frees t = [0x88000000] /\
    tx_bufs s' !! 0%nat = Some 0x88010000.
Proof.
  assert (H1 : 0 < TX_RING_SIZE) by (simpl; lia).
  assert (H3 : tx_done_at first_frame_sent (tx_tail first_frame_sent) = true)
    by (vm_compute; reflexivity).
  split; [exact H1|]. split; [exact tx_wf_first_frame_sent|]. split; [exact H3|].
  destruct (transmit_installs_and_releases first_frame_sent 0x88010000 60 H1
              tx_wf_first_frame_sent H3)
    as (t & s' & old & d & Hrun & Hold & Hfrees & _ & Hbuf & _).
  exists t, s'. split; [exact Hrun|].
  assert (Eold : old = 0x88000000) by (vm_compute in Hold; congruence).
  rewrite Eold in Hfrees. split; [exact Hfrees|exact Hbuf].
Defined.

Lemma transmit_leaves_receive_side_witness :
  0 < TX_RING_SIZE /\ tx_wf four_packets /\
  exists t r s',
    e1000_transmit 0x88000000 60 four_packets = (t, Done r s') /\
    rx_ring s' = rx_ring four_packets /\ rx_bufs s' = rx_bufs four_packets /\
    deliveries t = [] /\ allocations t = [].
Proof.
  assert (H1 : 0 < TX_RING_SIZE) by (simpl; lia).
  assert (H2 : tx_wf four_packets) by (vm_compute; by repeat split).
  split; [exact H1|]. split; [exact H2|].
  destruct (transmit_leaves_receive_side four_packets 0x88000000 60 H1 H2)
    as (t & r & s' & Hrun & Hring & Hbufs & _ & _ & Hd & Ha & _).
  exists t, r, s'. split; [exact Hrun|]. split; [exact Hring|].
  split; [exact Hbufs|]. split; [exact Hd|exact Ha].
Defined.

Lemma recv_nothing_pending_witness :
  0 < RX_RING_SIZE /\ rx_wf (booted []) /\ e1000_lock (booted []) = false /\
  rx_done_at (booted []) (rx_head (booted [])) = false /\
  exists t,
    e1000_recv 40 (booted []) = (t, Done tt (booted [])) /\
    deliveries t = [] /\ allocations t = [].
Proof.
  assert (H1 : 0 < RX_RING_SIZE) by (simpl; lia).
  assert (H2 : rx_wf (booted [])) by (vm_compute; by split).
  split; [exact H1|]. split; [exact H2|]. split; [reflexivity|].
  split; [vm_compute; reflexivity|].
  exact (recv_nothing_pending 39 (booted []) H1 H2 eq_refl eq_refl).
Defined.

Lemma recv_uses_one_page_per_packet_witness :
  0 < RX_RING_SIZE /\ rx_wf four_packets /\ e1000_lock four_packets = false /\
  e1000_recv 40 four_packets = ((e1000_recv 40 four_packets).1, Done tt (drained four_packets)) /\
  allocations (e1000_recv 40 four_packets).1 = take 4 (freelist four_packets) /\
  freelist (drained four_packets) = drop 4 (freelist four_packets).
Proof.
  assert (H1 : 0 < RX_RING_SIZE) by (simpl; lia).
  assert (H4 : e1000_recv 40 four_packets =
               ((e1000_recv 40 four_packets).1, Done tt (drained four_packets)))
    by (apply run_done; vm_compute; reflexivity).
  split; [exact H1|]. split; [exact rx_wf_four_packets|]. split; [reflexivity|].
  split; [exact H4|].
  destruct (recv_uses_one_page_per_packet 40 four_packets _ _ H1
              rx_wf_four_packets eq_refl H4) as (Ha & Hf & _).
  assert (Hn : length (deliveries (e1000_recv 40 four_packets).1) = 4%nat)
    by (vm_compute; reflexivity).
  rewrite Hn in Ha, Hf. by split.
Defined.

Lemma recv_moves_the_tail_witness :
  0 < RX_RING_SIZE < 2^31 /\ rx_wf four_packets /\ e1000_lock four_packets = false /\
  e1000_recv 40 four_packets = ((e1000_recv 40 four_packets).1, Done tt (drained four_packets)) /\
  regs (drained four_packets) !!! E1000_RDT = 3 /\
  rx_head (drained four_packets) = 4.
Proof.
  assert (H1 : 0 < RX_RING_SIZE < 2^31) by (simpl; lia).
  assert (H4 : e1000_recv 40 four_packets =
               ((e1000_recv 40 four_packets).1, Done tt (drained four_packets)))
    by (apply run_done; vm_compute; reflexivity).
  split; [exact H1|]. split; [exact rx_wf_four_packets|]. split; [reflexivity|].
  split; [exact H4|].
  destruct (recv_moves_the_tail 40 four_packets _ _ H1
              rx_wf_four_packets eq_refl H4) as (_ & Htail & Hhead).
  split.
  - rewrite Htail; [vm_compute; reflexivity|]. vm_compute. discriminate.
  - rewrite Hhead. vm_compute. reflexivity.
Defined.


Lemma init_sets_up_rings_witness :
  sizes_ok /\ tails_apart /\ init_pre (boot_state free_pages []) /\
  exists t s',
    e1000_init (boot_state free_pages []) = (t, Done tt s') /\
    allocations t = take 16 free_pages /\
    freelist s' = drop 16 free_pages /\
    tx_fresh s' /\ rx_fresh free_pages s' /\
    regs s' !!! E1000_TDT = 0 /\ regs s' !!! E1000_RDT = 15.
Proof.
  split; [exact sizes_16|]. split; [exact tails_apart_qemu|].
  split; [exact (init_pre_boot [])|].
  destruct (init_sets_up_rings (boot_state free_pages []) sizes_16
              tails_apart_qemu (init_pre_boot []))
    as (t & s' & Hrun & Ha & _ & _ & Hf & Htx & Hrx & _ & _ & Htdt & Hrdt).
  exists t, s'. by repeat (split; [done|]).
Defined.

Lemma init_panics_when_pages_run_out_witness :
  sizes_ok /\
  length (tx_ring boot_five_pages) = Z.to_nat TX_RING_SIZE /\
  length (tx_bufs boot_five_pages) = Z.to_nat TX_RING_SIZE /\
  rx_wf boot_five_pages /\
  (TX_RING_SIZE * sizeof_tx_desc) mod 128 = 0 /\
  (length (freelist boot_five_pages) < Z.to_nat RX_RING_SIZE)%nat /\
  Forall (fun pa => pa <> 0) (freelist boot_five_pages) /\
  exists t,
    e1000_init boot_five_pages = (t, Panicked "e1000") /\
    allocations t = take 5 free_pages ++ [0].
Proof.
  assert (H2 : rx_wf boot_five_pages) by (by split).
  assert (H4 : (length (freelist boot_five_pages) < Z.to_nat RX_RING_SIZE)%nat)
    by (vm_compute; lia).
  assert (H5 : Forall (fun pa => pa <> 0) (freelist boot_five_pages))
    by (vm_compute; repeat constructor; discriminate).
  split; [exact sizes_16|]. do 2 (split; [reflexivity|]). split; [exact H2|].
  split; [reflexivity|]. split; [exact H4|]. split; [exact H5|].
  destruct (init_panics_when_pages_run_out boot_five_pages sizes_16
              eq_refl eq_refl H2 eq_refl H4 H5) as (t & Hrun & Ha & _).
  exists t. split; [exact Hrun|exact Ha].
Defined.

Lemma init_checks_transmit_ring_bytes_witness :
  0 <= @TX_RING_SIZE twelve_tx_rings /\
  (@TX_RING_SIZE twelve_tx_rings * sizeof_tx_desc) mod 128 <> 0 /\
  @e1000_init qemu_e1000 twelve_tx_rings qemu_ring_addrs
    (@boot_state twelve_tx_rings free_pages []) = ([], Panicked "e1000").
Proof.
  assert (H1 : 0 <= @TX_RING_SIZE twelve_tx_rings) by (simpl; lia).
  assert (H2 : (@TX_RING_SIZE twelve_tx_rings * sizeof_tx_desc) mod 128 <> 0)
    by (vm_compute; discriminate).
  split; [exact H1|]. split; [exact H2|].
  exact (@init_checks_transmit_ring_bytes qemu_e1000 twelve_tx_rings qemu_ring_addrs
           (@boot_state twelve_tx_rings free_pages []) H1 eq_refl eq_refl H2).
Defined.

Lemma recv_after_init_finds_nothing_witness :
  sizes_ok /\ tails_apart /\ init_pre (boot_state free_pages []) /\
  exists t s',
    e1000_init (boot_state free_pages []) = (t, Done tt s') /\
    e1000_recv 40 s' = ([EvAcquire; EvRelease], Done tt s').
Proof.
  split; [exact sizes_16|]. split; [exact tails_apart_qemu|].
  split; [exact (init_pre_boot [])|].
  exact (recv_after_init_finds_nothing 39 (boot_state free_pages []) sizes_16
           tails_apart_qemu (init_pre_boot [])).
Defined.

Lemma transmit_ring_takes_its_size_after_init_witness :
  sizes_ok /\ tails_apart /\ init_pre (boot_state free_pages []) /\
  Z.land (u8 E1000_TXD_STAT_DD) E1000_TXD_STAT_DD <> 0 /\
  length seventeen_frames = S (Z.to_nat TX_RING_SIZE) /\
  exists t s',
    e1000_init (boot_state free_pages []) = (t, Done tt s') /\
    transmit_seq seventeen_frames s' = replicate 16 0 ++ [-1].
Proof.
  assert (H4 : Z.land (u8 E1000_TXD_STAT_DD) E1000_TXD_STAT_DD <> 0)
    by (vm_compute; discriminate).
  split; [exact sizes_16|]. split; [exact tails_apart_qemu|].
  split; [exact (init_pre_boot [])|]. split; [exact H4|]. split; [reflexivity|].
  exact (transmit_ring_takes_its_size_after_init (boot_state free_pages [])
           seventeen_frames sizes_16 tails_apart_qemu (init_pre_boot []) H4 eq_refl).
Defined.

End Runs.
End E1000Facts.

(** * Facts about the trap handlers *)
Module TrapFacts.
Import Trap.
Section Facts.
Context {hdr : kernel_h}.

Lemma trap_after_nil {A} (r : list event * outcome A) : after [] r = r.
Proof. by destruct r. Qed.

Lemma trap_after_after {A} t1 t2 (r : list event * outcome A) :
  after t1 (after t2 r) = after (t1 ++ t2) r.
Proof. unfold after; simpl. by rewrite app_assoc. Qed.

Lemma trap_bind_ret {A B} (a : A) (k : A -> M B) s : bind (ret a) k s = k a s.
Proof. unfold bind, ret. apply trap_after_nil. Qed.

Lemma bind_reader {A B} (f : kstate -> A) (k : A -> M B) s :
  bind (reader f) k s = k (f s) s.
Proof. unfold bind, reader. apply trap_after_nil. Qed.

Lemma trap_bind_get {B} (k : kstate -> M B) s : bind get k s = k s s.
Proof. unfold bind, get. apply trap_after_nil. Qed.

Lemma trap_bind_modify {B} f (k : unit -> M B) s : bind (modify f) k s = k tt (f s).
Proof. unfold bind, modify. apply trap_after_nil. Qed.

Lemma trap_bind_emit {B} e (k : unit -> M B) s : bind (emit e) k s = after [e] (k tt s).
Proof. reflexivity. Qed.

Lemma trap_bind_panic {A B} msg (k : A -> M B) s : bind (panic msg) k s = ([], Panicked msg s).
Proof. reflexivity. Qed.

Lemma bind_exit {A B} st (k : A -> M B) s : bind (exit st) k s = ([], Exited st s).
Proof. reflexivity. Qed.

Lemma trap_bind_bind {A B C} (m : M A) (k1 : A -> M B) (k2 : B -> M C) s :
  bind (bind m k1) k2 s = bind m (fun a => bind (k1 a) k2) s.
Proof.
  unfold bind. destruct (m s) as [t1 [a s1| | |]]; try reflexivity.
  unfold after at 1 3; simpl.
  destruct (k1 a s1) as [t2 [b s2| | |]]; simpl; try reflexivity.
  unfold after; simpl. by rewrite app_assoc.
Qed.

Lemma bind_ext {A B} (m : M A) (k1 k2 : A -> M B) s :
  (forall a s1, k1 a s1 = k2 a s1) -> bind m k1 s = bind m k2 s.
Proof.
  intros E. unfold bind. destruct (m s) as [t [a s1| | |]]; try done. by rewrite E.
Qed.

Lemma bind_run {A B} (m : M A) (k : A -> M B) s t a s1 :
  m s = (t, Done a s1) -> bind m k s = after t (k a s1).
Proof. intros E. unfold bind. by rewrite E. Qed.

(** Runs the next steps of a program that need no side condition. *)
Ltac mrun :=
  repeat first
    [ rewrite trap_bind_bind | rewrite trap_bind_ret | rewrite trap_bind_modify
    | rewrite trap_bind_emit | rewrite bind_reader | rewrite trap_bind_get
    | rewrite trap_after_after ].

Lemma bind_myproc {B} (k : proc -> M B) s p :
  cur s = Some p -> bind myproc k s = k p s.
Proof. intros E. unfold bind, myproc. rewrite E. apply trap_after_nil. Qed.

Lemma bind_update_proc {B} f (k : unit -> M B) s p :
  cur s = Some p -> bind (update_proc f) k s = k tt (with_cur (fmap f) s).
Proof.
  intros E. unfold update_proc. rewrite trap_bind_bind, (bind_myproc _ _ p) by done.
  by rewrite trap_bind_modify.
Qed.

Lemma bind_killed {B} (k : bool -> M B) s p :
  cur s = Some p -> bind killed k s = k (negb (p_killed p =? 0)) s.
Proof.
  intros E. unfold killed. rewrite trap_bind_bind, (bind_myproc _ _ p) by done.
  by rewrite trap_bind_ret.
Qed.

Lemma bind_printf {B} fmt (k : unit -> M B) s :
  bind (printf fmt) k s = after [EvPrintf fmt] (k tt s).
Proof. reflexivity. Qed.

(** *** System calls *)


Lemma usertrap_entry s p :
  cur s = Some p -> Z.land (sstatus (csrs s)) SSTATUS_SPP = 0 ->
  usertrap s =
    (let* which_dev :=
       (if scause (csrs s) =? 8 then
          let* k := killed in
          when_ k (exit (-1)) ;;;
          let* p1 := myproc in
          update_proc (set_epc (u64 (tf_epc p1 + 4))) ;;;
          intr_on ;;;
          syscall ;;;
          ret 0
        else
          let* dev := devintr in
          if negb (dev =? 0) then ret dev
          else
            let* c := r_scause in
            (if (c =? 0xd) || (c =? 0xf) || (c =? 0xc) then page_fault
             else
               printf "usertrap(): unexpected scause 0x%lx pid=%d\n" ;;;
               printf "            sepc=0x%lx stval=0x%lx\n" ;;;
               setkilled) ;;;
            ret dev) in
     let* k := killed in
     when_ k (exit (-1)) ;;;
     when_ (which_dev =? 2) yield ;;;
     usertrapret) (entered s).
Proof.
  intros Hp Hspp. unfold usertrap.
  unfold r_sstatus at 1. rewrite bind_reader, Hspp, Z.eqb_refl.
  change (negb true) with false. cbv iota.
  unfold w_stvec. rewrite trap_bind_modify.
  rewrite (bind_myproc _ _ p) by done.
  unfold r_sepc at 1. rewrite bind_reader.
  rewrite (bind_update_proc _ _ _ p) by done.
  unfold r_scause at 1. rewrite bind_reader. reflexivity.
Qed.

Lemma entered_cur s p :
  cur s = Some p -> cur (entered s) = Some (set_epc (sepc (csrs s)) p).
Proof. intros E. unfold entered; simpl. by rewrite E. Qed.

(** C9: on a system-call trap from user mode, a process that is marked
    killed exits at once with status -1: [usertrap] calls no collaborator,
    so the system-call handler is not invoked and the exit is all that is
    seen from outside. Otherwise the first call [usertrap] makes is the
    system-call handler, which finds the saved program counter advanced by
    4 (as a 64-bit value) and interrupts enabled. *)
Theorem usertrap_syscall_killed_exits s p :
  cur s = Some p ->
  Z.land (sstatus (csrs s)) SSTATUS_SPP = 0 ->
  scause (csrs s) = 8 ->
  (p_killed p <> 0 ->
     exists s', usertrap s = ([], Exited (-1) s') /\
                forall epc st, EvSyscall epc st ∉ (usertrap s).1) /\
  (p_killed p = 0 ->
     exists t o,
       usertrap s =
         (EvSyscall (u64 (sepc (csrs s) + 4))
                    (Z.lor (sstatus (csrs s)) SSTATUS_SIE) :: t, o) /\
       (sepc (csrs s) + 4 < 2^64 -> 0 <= sepc (csrs s) ->
        u64 (sepc (csrs s) + 4) = sepc (csrs s) + 4)).
Proof.
  intros Hp Hspp Hcause.
  rewrite (usertrap_entry s p Hp Hspp), Hcause.
  change (8 =? 8) with true. cbv iota.
  pose proof (entered_cur s p Hp) as Hcur.
  rewrite !trap_bind_bind.
  rewrite (bind_killed _ _ _ Hcur).
  change (p_killed (set_epc (sepc (csrs s)) p)) with (p_killed p).
  split.
  - intros Hk. apply Z.eqb_neq in Hk. rewrite Hk. simpl negb. unfold when_.
    rewrite !trap_bind_bind, bind_exit. eexists. split; [reflexivity|].
    intros epc st Hin. by apply elem_of_nil in Hin.
  - intros Hk. rewrite Hk. change (negb (0 =? 0)) with false. unfold when_ at 1.
    eexists _, _. split; [|intros; unfold u64; apply Z.mod_small; lia].
    rewrite ?trap_bind_bind, trap_bind_ret, !trap_bind_bind.
    rewrite (bind_myproc _ _ _ Hcur).
    rewrite !trap_bind_bind, (bind_update_proc _ _ _ _ Hcur).
    unfold intr_on. rewrite !trap_bind_bind. unfold r_sstatus at 1. rewrite bind_reader.
    unfold w_sstatus at 1. rewrite trap_bind_modify.
    unfold syscall. rewrite !trap_bind_bind.
    erewrite bind_myproc by (simpl; rewrite Hp; reflexivity).
    rewrite !trap_bind_bind. unfold r_sstatus at 1. rewrite bind_reader.
    rewrite !trap_bind_bind, trap_bind_emit.
    reflexivity.
Qed.

(** *** Device interrupts *)


(** An external interrupt: claim, service, and one completion for a claim
    that is not zero. *)
Lemma devintr_external s :
  scause (csrs s) = 0x8000000000000009 ->
  devintr s =
    (EvPlicClaim (plic_irq s) :: service (plic_irq s) ++
       (if plic_irq s =? 0 then [] else [EvPlicComplete (plic_irq s)]),
     Done 1 s).
Proof.
  intros Hc. unfold devintr. unfold r_scause. rewrite bind_reader, Hc.
  change (0x8000000000000009 =? 0x8000000000000009) with true. cbv iota.
  unfold plic_claim. rewrite !trap_bind_bind, trap_bind_get, !trap_bind_bind, trap_bind_emit, trap_bind_ret.
  unfold service, uartintr, virtio_disk_intr, printf, plic_complete, when_.
  destruct (plic_irq s =? UART0_IRQ); [|destruct (plic_irq s =? VIRTIO0_IRQ)];
    destruct (plic_irq s =? 0); simpl negb; cbv iota;
    rewrite ?trap_bind_bind, ?trap_bind_emit, ?trap_bind_ret, ?trap_bind_emit, ?trap_bind_ret, ?trap_after_after;
    reflexivity.
Qed.


Lemma devintr_timer s :
  scause (csrs s) = 0x8000000000000005 ->
  devintr s =
    ((if tp (csrs s) =? 0
      then [EvAcquireTickslock; EvWakeupTicks; EvReleaseTickslock] else []),
     Done 2 (ticked s)).
Proof.
  intros Hc. unfold devintr. unfold r_scause. rewrite bind_reader, Hc.
  change (0x8000000000000005 =? 0x8000000000000009) with false.
  change (0x8000000000000005 =? 0x8000000000000005) with true. cbv iota.
  unfold clockintr, ticked, when_. rewrite !trap_bind_bind. unfold r_tp. rewrite bind_reader.
  unfold r_time, w_stimecmp.
  destruct (tp (csrs s) =? 0); cbv iota; mrun; reflexivity.
Qed.

Lemma ticked_cur s : cur (ticked s) = cur s.
Proof. unfold ticked. by destruct (tp (csrs s) =? 0). Qed.

Lemma devintr_other s :
  scause (csrs s) <> 0x8000000000000009 ->
  scause (csrs s) <> 0x8000000000000005 ->
  devintr s = ([], Done 0 s).
Proof.
  intros H1 H2. unfold devintr. unfold r_scause. rewrite bind_reader.
  apply Z.eqb_neq in H1, H2. rewrite H1, H2. reflexivity.
Qed.

(** *** [kerneltrap] *)

(** What holds when a continuation returns holds when the whole returns. *)
Lemma bind_returns {A B} (m : M A) (k : A -> M B) (Q : Prop) s t b s' :
  (forall a s1 t1, k a s1 = (t1, Done b s') -> Q) ->
  bind m k s = (t, Done b s') -> Q.
Proof.
  intros Hk. unfold bind. destruct (m s) as [t1 [a s1| | |]]; try discriminate.
  destruct (k a s1) as [t2 o] eqn:E. unfold after; simpl. intros [= _ ->].
  by eapply Hk.
Qed.

Lemma kerneltrap_restores s t s' :
  kerneltrap s = (t, Done tt s') ->
  sepc (csrs s') = sepc (csrs s) /\ sstatus (csrs s') = sstatus (csrs s).
Proof.
  unfold kerneltrap.
  unfold r_sepc at 1, r_sstatus at 1, r_scause at 1. rewrite !bind_reader.
  destruct (Z.land (sstatus (csrs s)) SSTATUS_SPP =? 0); [discriminate|].
  apply bind_returns. intros ie s1 t1.
  destruct ie; [discriminate|].
  apply bind_returns. intros which_dev s2 t2.
  apply bind_returns. intros [] s3 t3.
  apply bind_returns. intros running s4 t4.
  apply bind_returns. intros [] s5 t5.
  unfold w_sepc, w_sstatus. rewrite trap_bind_modify. unfold modify.
  intros [= _ <-]. done.
Qed.

Lemma kerneltrap_returns s :
  Z.land (sstatus (csrs s)) SSTATUS_SPP <> 0 ->
  Z.land (sstatus (csrs s)) SSTATUS_SIE = 0 ->
  scause (csrs s) = 0x8000000000000009 \/ scause (csrs s) = 0x8000000000000005 ->
  exists t s', kerneltrap s = (t, Done tt s').
Proof.
  intros Hspp Hsie Hcause. unfold kerneltrap.
  unfold r_sepc, r_sstatus, r_scause, intr_get, have_proc, w_sepc, w_sstatus.
  mrun. apply Z.eqb_neq in Hspp. rewrite Hspp. cbv iota.
  unfold r_sstatus. mrun. rewrite Hsie.
  change (negb (0 =? 0)) with false. cbv iota.
  unfold bind at 1. destruct Hcause as [Hc|Hc].
  - rewrite (devintr_external s Hc).
    change (1 =? 0) with false. change (1 =? 2) with false. cbv iota.
    unfold when_. simpl andb. cbv iota. mrun.
    unfold modify, after; simpl. eexists _, _; reflexivity.
  - rewrite (devintr_timer s Hc).
    change (2 =? 0) with false. change (2 =? 2) with true. cbv iota.
    unfold when_. mrun. rewrite ticked_cur. simpl andb.
    destruct (cur s); unfold yield; mrun;
      unfold modify, after; simpl; eexists _, _; reflexivity.
Qed.

(** C4, as the code has it: [kerneltrap] writes the program counter and the
    status it saved at entry back to [sepc] and [sstatus] before it
    returns, whatever a [yield] in between did to them; it writes nothing
    to [scause]. It returns on every external or timer interrupt taken in
    supervisor mode with interrupts off. *)
Theorem kerneltrap_restores_sepc_and_sstatus s :
  (forall t s', kerneltrap s = (t, Done tt s') ->
     sepc (csrs s') = sepc (csrs s) /\ sstatus (csrs s') = sstatus (csrs s)) /\
  (Z.land (sstatus (csrs s)) SSTATUS_SPP <> 0 ->
   Z.land (sstatus (csrs s)) SSTATUS_SIE = 0 ->
   scause (csrs s) = 0x8000000000000009 \/ scause (csrs s) = 0x8000000000000005 ->
   exists t s', kerneltrap s = (t, Done tt s')).
Proof.
  split.
  - intros t s'. apply kerneltrap_restores.
  - apply kerneltrap_returns.
Qed.

(** *** Page faults *)

Lemma entered_frame s :
  csrs (entered s) = set_stvec kernelvec (csrs s) /\
  freelist (entered s) = freelist s /\ mem (entered s) = mem s /\
  mappings (entered s) = mappings s /\ file_inode (entered s) = file_inode s /\
  mappages_ret (entered s) = mappages_ret s.
Proof. by repeat split. Qed.

(** A page fault from user mode goes to the fault handler, then to the
    check of the killed flag and back to user space. *)
Lemma usertrap_page_fault_entry s p :
  cur s = Some p -> Z.land (sstatus (csrs s)) SSTATUS_SPP = 0 ->
  page_fault_cause (scause (csrs s)) ->
  usertrap s =
    (page_fault ;;;
     let* k := killed in
     when_ k (exit (-1)) ;;;
     usertrapret) (entered s).
Proof.
  intros Hp Hspp Hcause. rewrite (usertrap_entry s p Hp Hspp).
  assert (Hdev : devintr (entered s) = ([], Done 0 (entered s))).
  { apply devintr_other; simpl; destruct Hcause as [E|[E|E]]; rewrite E; done. }
  assert (H8 : (scause (csrs s) =? 8) = false).
  { apply Z.eqb_neq. destruct Hcause as [E|[E|E]]; rewrite E; done. }
  assert (Hpf : (scause (csrs s) =? 0xd) || (scause (csrs s) =? 0xf) ||
                (scause (csrs s) =? 0xc) = true).
  { destruct Hcause as [E|[E|E]]; rewrite E; reflexivity. }
  rewrite H8. cbv iota. rewrite trap_bind_bind. unfold bind at 1. rewrite Hdev.
  change (negb (0 =? 0)) with false. cbv iota. rewrite trap_after_nil.
  unfold r_scause at 1. rewrite !trap_bind_bind, bind_reader.
  change (scause (csrs (entered s))) with (scause (csrs s)). rewrite Hpf.
  rewrite trap_bind_bind. apply bind_ext. intros [] s1. rewrite trap_bind_ret.
  apply bind_ext. intros k s2. apply bind_ext. intros [] s3.
  change (0 =? 2) with false. unfold when_. by rewrite trap_bind_ret.
Qed.

Lemma vma_scan_find vmas va s :
  vma_scan vmas va s =
    match vma_find vmas va with
    | Some v => fault_in_vma v va s
    | None => ([], Done 0 s)
    end.
Proof.
  unfold vma_find. induction vmas as [|v rest IH]; [done|].
  simpl. unfold vma_hit at 1.
  destruct (vma_valid v =? 0); simpl; [done|].
  by destruct (vma_contains v va).
Qed.

(** In a list of disjoint VMAs the loop stops at the one that holds [va]. *)
Lemma vma_find_disjoint vmas va v :
  vmas_disjoint vmas -> v ∈ vmas -> vma_valid v <> 0 -> vma_contains v va = true ->
  vma_find vmas va = Some v.
Proof.
  intros Hdis Hin Hvalid Hcont. unfold vma_find.
  destruct (List.find (vma_hit va) vmas) as [w|] eqn:E.
  - apply find_some in E as [Hw Hhit].
    apply andb_prop in Hhit as [Hwv Hwc].
    apply negb_true_iff, Z.eqb_neq in Hwv.
    apply list_elem_of_In, list_elem_of_lookup in Hw as [j Hj].
    apply list_elem_of_lookup in Hin as [i Hi].
    assert (i = j) by (by eapply (Hdis i j v w va)). subst j. congruence.
  - exfalso. apply list_elem_of_In in Hin.
    pose proof (find_none _ _ E v Hin) as Hno. unfold vma_hit in Hno.
    apply Z.eqb_neq in Hvalid. by rewrite Hvalid, Hcont in Hno.
Qed.

Lemma vma_find_none vmas va :
  (forall v, v ∈ vmas -> vma_valid v <> 0 -> vma_contains v va = false) ->
  vma_find vmas va = None.
Proof.
  intros Hout. unfold vma_find.
  destruct (List.find (vma_hit va) vmas) as [w|] eqn:E; [|done].
  apply find_some in E as [Hw Hhit].
  apply andb_prop in Hhit as [Hwv Hwc].
  apply negb_true_iff, Z.eqb_neq in Hwv.
  apply list_elem_of_In in Hw. by rewrite (Hout w Hw Hwv) in Hwc.
Qed.


Lemma bind_setkilled {B} (k : unit -> M B) s p :
  cur s = Some p -> bind setkilled k s = k tt (marked_killed s).
Proof. intros E. unfold setkilled. by rewrite (bind_update_proc _ _ _ p). Qed.


Lemma fault_denied v va s p :
  cur s = Some p -> vma_denies (scause (csrs s)) v = true ->
  fault_in_vma v va s = (violation_report, Done 0 (marked_killed s)).
Proof.
  intros Hp Hden. unfold fault_in_vma.
  rewrite (bind_myproc _ _ p) by done. unfold r_scause. rewrite bind_reader, Hden.
  rewrite !bind_printf, (bind_setkilled _ _ p) by done.
  rewrite trap_after_after. reflexivity.
Qed.

(** A fault that the VMAs do not allow: the process exits, and no page was
    allocated or mapped on the way. *)
Lemma usertrap_fault_rejected s p :
  cur s = Some p -> Z.land (sstatus (csrs s)) SSTATUS_SPP = 0 ->
  page_fault_cause (scause (csrs s)) ->
  match vma_find (take (Z.to_nat MAX_VMA) (p_vma p)) (stval (csrs s)) with
  | Some v => vma_denies (scause (csrs s)) v = true
  | None => True
  end ->
  exists t s',
    usertrap s = (t, Exited (-1) s') /\
    Forall (fun e => exists fmt, e = EvPrintf fmt) t /\
    freelist s' = freelist s /\ mappings s' = mappings s /\ mem s' = mem s.
Proof.
  intros Hp Hspp Hcause Hfind.
  rewrite (usertrap_page_fault_entry s p Hp Hspp Hcause).
  pose proof (entered_cur s p Hp) as Hcur.
  assert (Hscan : exists t0 s0 p0,
    vma_scan (take (Z.to_nat MAX_VMA) (p_vma p)) (stval (csrs s)) (entered s) =
      (t0, Done 0 s0) /\
    Forall (fun e => exists fmt, e = EvPrintf fmt) t0 /\ cur s0 = Some p0 /\
    freelist s0 = freelist s /\ mappings s0 = mappings s /\ mem s0 = mem s).
  { rewrite vma_scan_find. destruct (vma_find _ _) as [v|].
    - rewrite (fault_denied v _ _ _ Hcur) by done.
      eexists _, _, _. split; [reflexivity|].
      split; [repeat constructor; by eexists|].
      split; [|done]. unfold marked_killed; simpl. by rewrite Hp.
    - eexists _, _, _. split; [reflexivity|]. split; [constructor|].
      split; [exact Hcur|done]. }
  destruct Hscan as (t0 & s0 & p0 & Hscan & Ht0 & Hcur0 & F1 & F2 & F3).
  unfold page_fault, r_stval. mrun. rewrite (bind_myproc _ _ _ Hcur). mrun.
  change (stval (csrs (entered s))) with (stval (csrs s)).
  change (p_vma (set_epc (sepc (csrs s)) p)) with (p_vma p).
  rewrite (bind_run _ _ _ _ _ _ Hscan).
  change (0 =? 0) with true. unfold when_ at 1, printf. mrun.
  rewrite (bind_setkilled _ _ _ Hcur0).
  assert (Hcur1 : cur (marked_killed s0) = Some (set_killed 1 p0)).
  { unfold marked_killed; simpl. by rewrite Hcur0. }
  rewrite (bind_killed _ _ _ Hcur1). simpl negb. unfold when_.
  rewrite bind_exit. unfold after; simpl.
  eexists _, _. split; [reflexivity|]. split; [|by rewrite <- F1, <- F2, <- F3].
  rewrite app_nil_r, <- app_assoc. apply Forall_app. split; [done|].
  repeat constructor; by eexists.
Qed.

(** *** File-backed pages *)


Lemma usertrapret_run s p :
  cur s = Some p ->
  exists s',
    usertrapret s = ([EvUserret (MAKE_SATP (p_pagetable p))], Done tt s') /\
    mem s' = mem s /\ mappings s' = mappings s /\ freelist s' = freelist s /\
    sepc (csrs s') = tf_epc p.
Proof.
  intros Hp. unfold usertrapret.
  rewrite (bind_myproc _ _ p) by done.
  unfold intr_off, r_sstatus, w_sstatus, w_stvec, r_satp, r_tp, w_sepc. mrun.
  erewrite bind_update_proc by (simpl; exact Hp). mrun.
  erewrite bind_myproc by (simpl; rewrite Hp; reflexivity). mrun.
  unfold emit, after; simpl. eexists. split; [reflexivity|]. done.
Qed.



(** C5: a page fault from user mode at an address inside a valid VMA whose
    protection does not allow the access (the VMAs being disjoint, as the
    data model has them), or at an address outside every valid VMA, ends in
    [exit(-1)]: the process is terminated, and on the way [usertrap] only
    prints: it allocates no page and maps none, so the free list, the
    mappings and the memory are as before. *)
Theorem usertrap_rejected_fault_exits s p :
  cur s = Some p ->
  Z.land (sstatus (csrs s)) SSTATUS_SPP = 0 ->
  page_fault_cause (scause (csrs s)) ->
  ((exists v,
      v ∈ take (Z.to_nat MAX_VMA) (p_vma p) /\ vma_valid v <> 0 /\
      vma_contains v (stval (csrs s)) = true /\
      vma_denies (scause (csrs s)) v = true) /\
   vmas_disjoint (take (Z.to_nat MAX_VMA) (p_vma p))) \/
  (forall v, v ∈ take (Z.to_nat MAX_VMA) (p_vma p) -> vma_valid v <> 0 ->
             vma_contains v (stval (csrs s)) = false) ->
  exists t s',
    usertrap s = (t, Exited (-1) s') /\
    (forall pa, EvKalloc pa ∉ t) /\
    (forall pt va sz pa perm, EvMappages pt va sz pa perm ∉ t) /\
    freelist s' = freelist s /\ mappings s' = mappings s /\ mem s' = mem s.
Proof.
  intros Hp Hspp Hcause Hvma.
  destruct (usertrap_fault_rejected s p Hp Hspp Hcause) as (t & s' & Hrun & Hprints & Hframe).
  { destruct Hvma as [[(v & Hin & Hvalid & Hcont & Hden) Hdis]|Hout].
    - by rewrite (vma_find_disjoint _ _ v Hdis Hin Hvalid Hcont).
    - by rewrite (vma_find_none _ _ Hout). }
  exists t, s'. split; [done|]. rewrite Forall_forall in Hprints.
  split; [|split; [|done]].
  - intros pa Hin. by destruct (Hprints _ Hin).
  - intros pt va sz pa perm Hin. by destruct (Hprints _ Hin).
Qed.


(** *** Further facts about the interrupt path *)

Lemma clockintr_run s :
  clockintr s =
    ((if tp (csrs s) =? 0
      then [EvAcquireTickslock; EvWakeupTicks; EvReleaseTickslock] else []),
     Done tt (ticked s)).
Proof.
  unfold clockintr, ticked, when_, r_tp. rewrite bind_reader.
  unfold r_time, w_stimecmp.
  destruct (tp (csrs s) =? 0); cbv iota; mrun; reflexivity.
Qed.

(** X12: [clockintr] always returns. On hart 0 it advances [ticks] by one,
    modulo 2^32, and wakes the sleepers on it; on any other hart the
    counter is left alone and nobody is woken. On every hart the
    timer-compare register becomes the time plus 1000000 (modulo 2^64);
    no other register, the process, the free list, the memory and the
    mappings stay as they were. *)
Theorem clockintr_ticks_on_hart_zero s :
  exists t s',
    clockintr s = (t, Done tt s') /\
    ticks s' = (if tp (csrs s) =? 0 then (ticks s + 1) mod 2^32 else ticks s) /\
    (EvWakeupTicks ∈ t <-> tp (csrs s) = 0) /\
    stimecmp (csrs s') = (time (csrs s) + 1000000) mod 2^64 /\
    set_stimecmp (stimecmp (csrs s)) (csrs s') = csrs s /\
    cur s' = cur s /\ freelist s' = freelist s /\ mem s' = mem s /\
    mappings s' = mappings s.
Proof.
  eexists _, _. split; [apply clockintr_run|].
  unfold ticked. destruct (Z.eqb_spec (tp (csrs s)) 0) as [E|E]; simpl.
  - split; [reflexivity|]. split; [split; [done|intros _; by repeat constructor]|].
    split; [reflexivity|]. split; [by destruct (csrs s)|done].
  - split; [reflexivity|]. split; [split; [by intros ?%elem_of_nil|done]|].
    split; [reflexivity|]. split; [by destruct (csrs s)|done].
Qed.

(** X13: [devintr] always returns. The value is 1 exactly on a supervisor
    external interrupt, 2 exactly on a supervisor timer interrupt and 0 on
    every other cause; when it is 0 nothing was called, and unless it is 2
    the state is unchanged. *)
Theorem devintr_classifies s :
  exists t r s',
    devintr s = (t, Done r s') /\
    (r = 1 <-> scause (csrs s) = 0x8000000000000009) /\
    (r = 2 <-> scause (csrs s) = 0x8000000000000005) /\
    (r = 0 \/ r = 1 \/ r = 2) /\
    (r = 0 -> t = []) /\
    (r <> 2 -> s' = s).
Proof.
  destruct (Z.eq_dec (scause (csrs s)) 0x8000000000000009) as [E1|E1];
    [|destruct (Z.eq_dec (scause (csrs s)) 0x8000000000000005) as [E2|E2]].
  - eexists _, 1, s. split; [by apply devintr_external|].
    rewrite E1. repeat split; try done; lia.
  - eexists _, 2, _. split; [by apply devintr_timer|].
    rewrite E2. repeat split; try done; lia.
  - exists [], 0, s. split; [by apply devintr_other|].
    repeat split; try done; lia.
Qed.

(** X14: on an external interrupt [devintr] first claims the interrupt
    and returns 1 with the state unchanged. A claim that is not zero is
    serviced by exactly one call (the UART handler for [UART0_IRQ], else
    the disk handler for [VIRTIO0_IRQ], else the print of an unexpected
    interrupt) and then completed once, with the identifier that was
    claimed. A zero claim is neither serviced nor completed. *)
Theorem devintr_completes_what_it_claims s :
  scause (csrs s) = 0x8000000000000009 ->
  exists mid,
    devintr s = (EvPlicClaim (plic_irq s) :: mid, Done 1 s) /\
    (plic_irq s <> 0 ->
       exists svc, mid = svc :: [EvPlicComplete (plic_irq s)] /\
         (svc = EvUartintr <-> plic_irq s = UART0_IRQ) /\
         (svc = EvVirtioDiskIntr <->
            plic_irq s <> UART0_IRQ /\ plic_irq s = VIRTIO0_IRQ) /\
         (svc = EvPrintf "unexpected interrupt irq=%d\n" <->
            plic_irq s <> UART0_IRQ /\ plic_irq s <> VIRTIO0_IRQ)) /\
    (plic_irq s = 0 -> UART0_IRQ <> 0 -> VIRTIO0_IRQ <> 0 -> mid = []).
Proof.
  intros Hc. eexists. split; [by apply devintr_external|].
  unfold service. split.
  - intros Hirq. apply Z.eqb_neq in Hirq. rewrite Hirq. simpl negb.
    destruct (Z.eqb_spec (plic_irq s) UART0_IRQ) as [Eu|Eu];
      [|destruct (Z.eqb_spec (plic_irq s) VIRTIO0_IRQ) as [Ev|Ev]];
      eexists; (split; [reflexivity|]); repeat split; try done;
      try (by intros []); try (by intros [? ?]).
  - intros Hz Hu Hv. rewrite Hz.
    destruct (Z.eqb_spec 0 UART0_IRQ); [done|].
    destruct (Z.eqb_spec 0 VIRTIO0_IRQ); [done|]. reflexivity.
Qed.

(** *** Further facts about [kerneltrap] *)

Lemma kerneltrap_not_supervisor s :
  Z.land (sstatus (csrs s)) SSTATUS_SPP = 0 ->
  kerneltrap s = ([], Panicked "kerneltrap: not from supervisor mode" s).
Proof.
  intros Hspp. unfold kerneltrap, r_sepc, r_sstatus, r_scause. mrun.
  rewrite Hspp. reflexivity.
Qed.

Lemma kerneltrap_interrupts_on s :
  Z.land (sstatus (csrs s)) SSTATUS_SPP <> 0 ->
  Z.land (sstatus (csrs s)) SSTATUS_SIE <> 0 ->
  kerneltrap s = ([], Panicked "kerneltrap: interrupts enabled" s).
Proof.
  intros Hspp Hsie. unfold kerneltrap, r_sepc, r_sstatus, r_scause, intr_get. mrun.
  apply Z.eqb_neq in Hspp, Hsie. rewrite Hspp. cbv iota.
  unfold r_sstatus. mrun. rewrite Hsie. reflexivity.
Qed.

Lemma kerneltrap_past_checks s :
  Z.land (sstatus (csrs s)) SSTATUS_SPP <> 0 ->
  Z.land (sstatus (csrs s)) SSTATUS_SIE = 0 ->
  kerneltrap s =
    (let* which_dev := devintr in
     (if which_dev =? 0 then
        printf "scause=0x%lx sepc=0x%lx stval=0x%lx\n" ;;;
        panic "kerneltrap"
      else ret tt) ;;;
     let* running := have_proc in
     when_ ((which_dev =? 2) && running) yield ;;;
     w_sepc (sepc (csrs s)) ;;;
     w_sstatus (sstatus (csrs s))) s.
Proof.
  intros Hspp Hsie. unfold kerneltrap, r_sepc, r_sstatus, r_scause, intr_get. mrun.
  apply Z.eqb_neq in Hspp. rewrite Hspp. cbv iota.
  unfold r_sstatus. mrun. rewrite Hsie. reflexivity.
Qed.

Lemma kerneltrap_unknown s :
  Z.land (sstatus (csrs s)) SSTATUS_SPP <> 0 ->
  Z.land (sstatus (csrs s)) SSTATUS_SIE = 0 ->
  scause (csrs s) <> 0x8000000000000009 ->
  scause (csrs s) <> 0x8000000000000005 ->
  kerneltrap s =
    ([EvPrintf "scause=0x%lx sepc=0x%lx stval=0x%lx\n"], Panicked "kerneltrap" s).
Proof.
  intros Hspp Hsie H1 H2. rewrite kerneltrap_past_checks by done.
  rewrite (bind_run _ _ _ _ _ _ (devintr_other s H1 H2)).
  change (0 =? 0) with true. cbv iota. unfold printf. mrun. reflexivity.
Qed.

Lemma restored_same s :
  with_csrs (set_sstatus (sstatus (csrs s)))
    (with_csrs (set_sepc (sepc (csrs s))) s) = s.
Proof. destruct s as [[] ? ? ? ? ? ? ? ? ? ?]. reflexivity. Qed.

Lemma kerneltrap_external s :
  Z.land (sstatus (csrs s)) SSTATUS_SPP <> 0 ->
  Z.land (sstatus (csrs s)) SSTATUS_SIE = 0 ->
  scause (csrs s) = 0x8000000000000009 ->
  kerneltrap s =
    (EvPlicClaim (plic_irq s) :: service (plic_irq s) ++
       (if plic_irq s =? 0 then [] else [EvPlicComplete (plic_irq s)]),
     Done tt s).
Proof.
  intros Hspp Hsie Hc. rewrite kerneltrap_past_checks by done.
  rewrite (bind_run _ _ _ _ _ _ (devintr_external s Hc)).
  change (1 =? 0) with false. change (1 =? 2) with false. cbv iota.
  unfold have_proc, when_, w_sepc, w_sstatus. mrun. simpl andb. cbv iota. mrun.
  unfold modify, after. simpl. rewrite app_nil_r. by rewrite restored_same.
Qed.

(** The state [yield] comes back with. *)
Lemma yield_run s :
  exists s',
    yield s = ([EvYield], Done tt s') /\
    cur s' = cur s /\ ticks s' = ticks s /\ freelist s' = freelist s /\
    mem s' = mem s /\ mappings s' = mappings s.
Proof.
  unfold yield. rewrite trap_bind_emit. unfold modify, after. simpl.
  eexists. split; [reflexivity|]. by destruct (yield_script s) as [|[[? ?] ?] ?].
Qed.

Lemma kerneltrap_timer s :
  Z.land (sstatus (csrs s)) SSTATUS_SPP <> 0 ->
  Z.land (sstatus (csrs s)) SSTATUS_SIE = 0 ->
  scause (csrs s) = 0x8000000000000005 ->
  exists s',
    kerneltrap s =
      ((if tp (csrs s) =? 0
        then [EvAcquireTickslock; EvWakeupTicks; EvReleaseTickslock] else []) ++
       (match cur s with Some _ => [EvYield] | None => [] end), Done tt s') /\
    ticks s' = ticks (ticked s) /\ cur s' = cur s.
Proof.
  intros Hspp Hsie Hc. rewrite kerneltrap_past_checks by done.
  rewrite (bind_run _ _ _ _ _ _ (devintr_timer s Hc)).
  change (2 =? 0) with false. change (2 =? 2) with true. cbv iota.
  unfold have_proc, when_. mrun. rewrite ticked_cur. simpl andb.
  destruct (cur s) as [p|] eqn:Ecur.
  - destruct (yield_run (ticked s)) as (s1 & Hy & Hcur & Hticks & _).
    rewrite (bind_run _ _ _ _ _ _ Hy).
    unfold w_sepc, w_sstatus. mrun. unfold modify, after. simpl.
    rewrite app_nil_r.
    eexists. split; [reflexivity|]. simpl. split; [done|].
    by rewrite Hcur, ticked_cur.
  - unfold w_sepc, w_sstatus. mrun. unfold modify, after. simpl.
    rewrite app_nil_r.
    eexists. split; [reflexivity|]. simpl. split; [done|].
    by destruct (tp (csrs s) =? 0).
Qed.

(** X15: the three ways [kerneltrap] panics; in each the state is as at
    entry. Taken with the previous mode not supervisor: "kerneltrap: not
    from supervisor mode", before anything is called. From supervisor mode
    with interrupts enabled: "kerneltrap: interrupts enabled", before
    anything is called. From supervisor mode with interrupts off and a
    cause that is neither the external nor the timer interrupt:
    "kerneltrap", after one diagnostic print. *)
Theorem kerneltrap_panics s :
  (Z.land (sstatus (csrs s)) SSTATUS_SPP = 0 ->
     kerneltrap s = ([], Panicked "kerneltrap: not from supervisor mode" s)) /\
  (Z.land (sstatus (csrs s)) SSTATUS_SPP <> 0 ->
   Z.land (sstatus (csrs s)) SSTATUS_SIE <> 0 ->
     kerneltrap s = ([], Panicked "kerneltrap: interrupts enabled" s)) /\
  (Z.land (sstatus (csrs s)) SSTATUS_SPP <> 0 ->
   Z.land (sstatus (csrs s)) SSTATUS_SIE = 0 ->
   scause (csrs s) <> 0x8000000000000009 ->
   scause (csrs s) <> 0x8000000000000005 ->
     kerneltrap s =
       ([EvPrintf "scause=0x%lx sepc=0x%lx stval=0x%lx\n"], Panicked "kerneltrap" s)).
Proof.
  split; [apply kerneltrap_not_supervisor|].
  split; [apply kerneltrap_interrupts_on|apply kerneltrap_unknown].
Qed.

Lemma kerneltrap_done_inv s t s' :
  kerneltrap s = (t, Done tt s') ->
  Z.land (sstatus (csrs s)) SSTATUS_SPP <> 0 /\
  Z.land (sstatus (csrs s)) SSTATUS_SIE = 0 /\
  (scause (csrs s) = 0x8000000000000009 \/ scause (csrs s) = 0x8000000000000005).
Proof.
  intros Hrun.
  destruct (Z.eq_dec (Z.land (sstatus (csrs s)) SSTATUS_SPP) 0) as [Hspp|Hspp].
  { by rewrite kerneltrap_not_supervisor in Hrun. }
  destruct (Z.eq_dec (Z.land (sstatus (csrs s)) SSTATUS_SIE) 0) as [Hsie|Hsie].
  2:{ by rewrite kerneltrap_interrupts_on in Hrun. }
  destruct (Z.eq_dec (scause (csrs s)) 0x8000000000000009) as [H1|H1]; [by auto|].
  destruct (Z.eq_dec (scause (csrs s)) 0x8000000000000005) as [H2|H2]; [by auto|].
  by rewrite kerneltrap_unknown in Hrun.
Qed.

(** X16: [kerneltrap] returns if and only if the trap was taken in
    supervisor mode, with interrupts off, and its cause is the supervisor
    external interrupt or the supervisor timer interrupt. *)
Theorem kerneltrap_returns_iff s :
  (exists t s', kerneltrap s = (t, Done tt s')) <->
  Z.land (sstatus (csrs s)) SSTATUS_SPP <> 0 /\
  Z.land (sstatus (csrs s)) SSTATUS_SIE = 0 /\
  (scause (csrs s) = 0x8000000000000009 \/ scause (csrs s) = 0x8000000000000005).
Proof.
  split.
  - intros (t & s' & Hrun). by eapply kerneltrap_done_inv.
  - intros (Hspp & Hsie & Hc). by apply kerneltrap_returns.
Qed.

Lemma service_no_yield irq : EvYield ∉ service irq.
Proof.
  unfold service.
  destruct (irq =? UART0_IRQ); [|destruct (irq =? VIRTIO0_IRQ); [|destruct (negb (irq =? 0))]];
    intros Hin; repeat (apply elem_of_cons in Hin as [?|Hin]; [done|]);
    by apply elem_of_nil in Hin.
Qed.

(** X17: when [kerneltrap] returns, it has called [yield] if and only if
    the cause was the timer interrupt and a process was running on the
    hart. After an external interrupt the whole state is as at entry;
    after a timer interrupt the tick counter has advanced on hart 0 only
    and the current process is the same. *)
Theorem kerneltrap_yields_on_timer_only s t s' :
  kerneltrap s = (t, Done tt s') ->
  (EvYield ∈ t <-> scause (csrs s) = 0x8000000000000005 /\ cur s <> None) /\
  (scause (csrs s) = 0x8000000000000009 -> s' = s) /\
  (scause (csrs s) = 0x8000000000000005 ->
     ticks s' = (if tp (csrs s) =? 0 then (ticks s + 1) mod 2^32 else ticks s) /\
     cur s' = cur s).
Proof.
  intros Hrun. destruct (kerneltrap_done_inv s t s' Hrun) as (Hspp & Hsie & [Hc|Hc]).
  - rewrite (kerneltrap_external s Hspp Hsie Hc) in Hrun. injection Hrun as <- <-.
    split; [|split; [done|intros Hc'; by rewrite Hc in Hc']].
    split; [|intros [Hc' _]; by rewrite Hc in Hc'].
    intros Hin. exfalso.
    apply elem_of_cons in Hin as [?|Hin]; [done|].
    apply elem_of_app in Hin as [Hin|Hin]; [by apply service_no_yield in Hin|].
    destruct (plic_irq s =? 0); [by apply elem_of_nil in Hin|].
    apply elem_of_cons in Hin as [?|Hin]; [done|]. by apply elem_of_nil in Hin.
  - destruct (kerneltrap_timer s Hspp Hsie Hc) as (s1 & Hrun1 & Hticks & Hcur).
    rewrite Hrun1 in Hrun. injection Hrun as <- <-.
    split; [|split; [intros Hc'; by rewrite Hc in Hc'|]].
    + split.
      * intros Hin. split; [done|]. intros Hnone. rewrite Hnone in Hin.
        rewrite app_nil_r in Hin.
        destruct (tp (csrs s) =? 0); [|by apply elem_of_nil in Hin].
        repeat (apply elem_of_cons in Hin as [?|Hin]; [done|]).
        by apply elem_of_nil in Hin.
      * intros [_ Hsome]. apply elem_of_app. right.
        destruct (cur s); [apply list_elem_of_here|done].
    + intros _. split; [|done]. rewrite Hticks. unfold ticked.
      by destruct (tp (csrs s) =? 0).
Qed.

(** *** Further facts about [usertrap] *)

(** X18: [usertrap] entered with the previous mode not user panics with
    "usertrap: not from user mode" before it writes any register or calls
    anything: the state is as at entry. *)
Theorem usertrap_from_supervisor_panics s :
  Z.land (sstatus (csrs s)) SSTATUS_SPP <> 0 ->
  usertrap s = ([], Panicked "usertrap: not from user mode" s).
Proof.
  intros Hspp. unfold usertrap, r_sstatus. rewrite bind_reader.
  apply Z.eqb_neq in Hspp. rewrite Hspp. reflexivity.
Qed.

Lemma marked_killed_cur s p :
  cur s = Some p -> cur (marked_killed s) = Some (set_killed 1 p).
Proof. intros E. unfold marked_killed; simpl. by rewrite E. Qed.

(** The end of [usertrap] for a process that is marked killed. *)
Lemma usertrap_tail_killed (which_dev : Z) s p :
  cur s = Some p -> p_killed p <> 0 ->
  (let* k := killed in
   when_ k (exit (-1)) ;;;
   when_ (which_dev =? 2) yield ;;;
   usertrapret) s = ([], Exited (-1) s).
Proof.
  intros Hp Hk. rewrite (bind_killed _ _ _ Hp).
  apply Z.eqb_neq in Hk. rewrite Hk. simpl negb. unfold when_ at 1.
  by rewrite bind_exit.
Qed.

(** X19: a trap from user mode whose cause is not a system call, not an
    external or timer interrupt and not a page fault kills the process:
    [usertrap] prints the two lines of its report, marks the process killed
    and ends in [exit(-1)], whether or not the process was killed before;
    it does not return to user space. *)
Theorem usertrap_unknown_cause_exits s p :
  cur s = Some p ->
  Z.land (sstatus (csrs s)) SSTATUS_SPP = 0 ->
  scause (csrs s) <> 8 ->
  scause (csrs s) <> 0x8000000000000009 ->
  scause (csrs s) <> 0x8000000000000005 ->
  ~ page_fault_cause (scause (csrs s)) ->
  usertrap s = (violation_report, Exited (-1) (marked_killed (entered s))).
Proof.
  intros Hp Hspp H8 H9 H5 Hpf.
  rewrite (usertrap_entry s p Hp Hspp).
  pose proof (entered_cur s p Hp) as Hcur.
  apply Z.eqb_neq in H8. rewrite H8. cbv iota.
  assert (Hdev : devintr (entered s) = ([], Done 0 (entered s)))
    by (by apply devintr_other).
  rewrite !trap_bind_bind, (bind_run _ _ _ _ _ _ Hdev), trap_after_nil.
  change (negb (0 =? 0)) with false. cbv iota.
  unfold r_scause at 1. rewrite !trap_bind_bind, bind_reader.
  change (scause (csrs (entered s))) with (scause (csrs s)).
  assert (Hno : (scause (csrs s) =? 0xd) || (scause (csrs s) =? 0xf) ||
                (scause (csrs s) =? 0xc) = false).
  { unfold page_fault_cause in Hpf.
    destruct (Z.eqb_spec (scause (csrs s)) 0xd); [tauto|].
    destruct (Z.eqb_spec (scause (csrs s)) 0xf); [tauto|].
    destruct (Z.eqb_spec (scause (csrs s)) 0xc); [tauto|]. reflexivity. }
  rewrite Hno. unfold printf. mrun.
  rewrite (bind_setkilled _ _ _ Hcur). mrun.
  rewrite (usertrap_tail_killed 0 _ _ (marked_killed_cur _ _ Hcur)) by done.
  reflexivity.
Qed.

(** X20: an external or timer interrupt taken in user mode, with the
    process not killed, ends in the return to user space, with the
    process's page table as argument. [yield] is called on the way exactly
    for the timer interrupt. Whatever the interrupt and the [yield] did to
    [sepc], the process resumes at the program counter it trapped at; the
    mappings, the free list and the memory are unchanged. *)
Theorem usertrap_device_interrupt_resumes s p :
  cur s = Some p ->
  Z.land (sstatus (csrs s)) SSTATUS_SPP = 0 ->
  p_killed p = 0 ->
  scause (csrs s) = 0x8000000000000009 \/ scause (csrs s) = 0x8000000000000005 ->
  exists t s',
    usertrap s = (t ++ [EvUserret (MAKE_SATP (p_pagetable p))], Done tt s') /\
    (EvYield ∈ t <-> scause (csrs s) = 0x8000000000000005) /\
    sepc (csrs s') = sepc (csrs s) /\
    mappings s' = mappings s /\ freelist s' = freelist s /\ mem s' = mem s.
Proof.
  intros Hp Hspp Hlive Hc.
  rewrite (usertrap_entry s p Hp Hspp).
  pose proof (entered_cur s p Hp) as Hcur.
  assert (H8 : (scause (csrs s) =? 8) = false).
  { apply Z.eqb_neq. destruct Hc as [E|E]; rewrite E; done. }
  rewrite H8. cbv iota. rewrite !trap_bind_bind.
  destruct Hc as [Hc|Hc].
  - rewrite (bind_run _ _ _ _ _ _ (devintr_external (entered s) Hc)).
    change (negb (1 =? 0)) with true. cbv iota. mrun.
    rewrite (bind_killed _ _ _ Hcur).
    change (p_killed (set_epc (sepc (csrs s)) p)) with (p_killed p). rewrite Hlive.
    change (negb (0 =? 0)) with false. change (1 =? 2) with false.
    unfold when_. mrun.
    destruct (usertrapret_run _ _ Hcur) as (s2 & Hret & Hmem & Hmap & Hfree & Hepc).
    rewrite Hret. unfold after. simpl fst. simpl snd.
    eexists _, s2. split; [reflexivity|].
    split; [|by rewrite Hepc, Hmap, Hfree, Hmem].
    rewrite Hc. split; [|done]. intros Hin. exfalso.
    change (plic_irq (entered s)) with (plic_irq s) in Hin.
    apply elem_of_cons in Hin as [?|Hin]; [done|].
    apply elem_of_app in Hin as [Hin|Hin]; [by apply service_no_yield in Hin|].
    destruct (plic_irq s =? 0); [by apply elem_of_nil in Hin|].
    apply elem_of_cons in Hin as [?|Hin]; [done|]. by apply elem_of_nil in Hin.
  - rewrite (bind_run _ _ _ _ _ _ (devintr_timer (entered s) Hc)).
    change (negb (2 =? 0)) with true. cbv iota. mrun.
    assert (Hcur1 : cur (ticked (entered s)) = Some (set_epc (sepc (csrs s)) p))
      by (by rewrite ticked_cur).
    rewrite (bind_killed _ _ _ Hcur1).
    change (p_killed (set_epc (sepc (csrs s)) p)) with (p_killed p). rewrite Hlive.
    change (negb (0 =? 0)) with false. change (2 =? 2) with true.
    unfold when_. mrun.
    destruct (yield_run (ticked (entered s))) as (s1 & Hy & Hcur2 & _ & Hfree1 & Hmem1 & Hmap1).
    rewrite (bind_run _ _ _ _ _ _ Hy). rewrite Hcur1 in Hcur2.
    destruct (usertrapret_run _ _ Hcur2) as (s2 & Hret & Hmem & Hmap & Hfree & Hepc).
    rewrite Hret. unfold after. simpl fst. simpl snd.
    exists ((if tp (csrs (entered s)) =? 0
             then [EvAcquireTickslock; EvWakeupTicks; EvReleaseTickslock]
             else []) ++ [EvYield]), s2.
    split; [by rewrite <- app_assoc|].
    split.
    + split; [done|]. intros _. apply elem_of_app. right. apply list_elem_of_here.
    + rewrite Hepc, Hmap, Hfree, Hmem, Hmap1, Hfree1, Hmem1.
      unfold ticked. by destruct (tp (csrs (entered s)) =? 0).
Qed.

(** X21: a system call of a process that is not killed calls the
    system-call handler once, with the saved program counter advanced by 4
    (modulo 2^64) and interrupts enabled. When the handler leaves the
    process alive [usertrap] returns to user space, which resumes after the
    [ecall]; when the handler marks the process killed [usertrap] ends in
    [exit(-1)] and does not return to user space. *)
Theorem usertrap_syscall_outcome s p :
  cur s = Some p ->
  Z.land (sstatus (csrs s)) SSTATUS_SPP = 0 ->
  scause (csrs s) = 8 ->
  p_killed p = 0 ->
  exists s',
    usertrap s =
      (EvSyscall (u64 (sepc (csrs s) + 4)) (Z.lor (sstatus (csrs s)) SSTATUS_SIE) ::
         (if syscall_kills s then [] else [EvUserret (MAKE_SATP (p_pagetable p))]),
       if syscall_kills s then Exited (-1) s' else Done tt s') /\
    (syscall_kills s = false -> sepc (csrs s') = u64 (sepc (csrs s) + 4)) /\
    mappings s' = mappings s /\ freelist s' = freelist s /\ mem s' = mem s.
Proof.
  intros Hp Hspp Hcause Hlive.
  rewrite (usertrap_entry s p Hp Hspp), Hcause.
  change (8 =? 8) with true. cbv iota.
  pose proof (entered_cur s p Hp) as Hcur.
  rewrite !trap_bind_bind, (bind_killed _ _ _ Hcur).
  change (p_killed (set_epc (sepc (csrs s)) p)) with (p_killed p). rewrite Hlive.
  change (negb (0 =? 0)) with false. unfold when_ at 1.
  rewrite ?trap_bind_bind, trap_bind_ret, !trap_bind_bind.
  rewrite (bind_myproc _ _ _ Hcur).
  rewrite !trap_bind_bind, (bind_update_proc _ _ _ _ Hcur).
  unfold intr_on. rewrite !trap_bind_bind. unfold r_sstatus at 1. rewrite bind_reader.
  unfold w_sstatus at 1. rewrite trap_bind_modify.
  unfold syscall. rewrite !trap_bind_bind.
  erewrite bind_myproc by (simpl; rewrite Hp; reflexivity).
  rewrite !trap_bind_bind. unfold r_sstatus at 1. rewrite bind_reader.
  rewrite !trap_bind_bind, trap_bind_emit, !trap_bind_bind, trap_bind_get.
  match goal with |- context [when_ (syscall_kills ?s1)] =>
    change (syscall_kills s1) with (syscall_kills s); set (st := s1) end.
  assert (Hst : cur st = Some (set_epc (u64 (sepc (csrs s) + 4)) (set_epc (sepc (csrs s)) p))).
  { unfold st; simpl. by rewrite Hp. }
  destruct (syscall_kills s); unfold when_ at 1.
  - rewrite ?trap_bind_bind, (bind_setkilled _ _ _ Hst). mrun.
    rewrite (usertrap_tail_killed 0 _ _ (marked_killed_cur _ _ Hst)) by done.
    eexists. split; [reflexivity|]. split; [done|]. done.
  - mrun. rewrite (bind_killed _ _ _ Hst).
    change (p_killed _) with (p_killed p). rewrite Hlive.
    change (negb (0 =? 0)) with false. change (0 =? 2) with false. unfold when_. mrun.
    destruct (usertrapret_run _ _ Hst) as (s2 & Hret & Hmem & Hmap & Hfree & Hepc).
    rewrite Hret. exists s2. split; [reflexivity|].
    split; [done|]. by rewrite Hmem, Hmap, Hfree.
Qed.

(** *** Further facts about the page-fault path *)

Lemma bind_same_run {A B} (m1 m2 : M A) (k : A -> M B) s :
  m1 s = m2 s -> bind m1 k s = bind m2 k s.
Proof. intros E. unfold bind. by rewrite E. Qed.

(** A page fault at an address that the loop finds in [v]. *)
Lemma usertrap_fault_in s p v :
  cur s = Some p -> Z.land (sstatus (csrs s)) SSTATUS_SPP = 0 ->
  page_fault_cause (scause (csrs s)) ->
  vma_find (take (Z.to_nat MAX_VMA) (p_vma p)) (stval (csrs s)) = Some v ->
  usertrap s =
    (let* find := fault_in_vma v (stval (csrs s)) in
     when_ (find =? 0)
       (printf "usertrap(): unexpected scause 0x%lx pid=%d\n" ;;;
        printf "            sepc=0x%lx stval=0x%lx\n" ;;;
        setkilled) ;;;
     let* k := killed in
     when_ k (exit (-1)) ;;;
     usertrapret) (entered s).
Proof.
  intros Hp Hspp Hcause Hfind.
  rewrite (usertrap_page_fault_entry s p Hp Hspp Hcause).
  unfold page_fault, r_stval. mrun. rewrite (bind_myproc _ _ _ (entered_cur s p Hp)). mrun.
  change (stval (csrs (entered s))) with (stval (csrs s)).
  change (p_vma (set_epc (sepc (csrs s)) p)) with (p_vma p).
  apply bind_same_run. by rewrite vma_scan_find, Hfind.
Qed.

Lemma fault_tail_killed s p :
  cur s = Some p -> p_killed p <> 0 ->
  (let* k := killed in
   when_ k (exit (-1)) ;;;
   usertrapret) s = ([], Exited (-1) s).
Proof.
  intros Hp Hk. rewrite (bind_killed _ _ _ Hp).
  apply Z.eqb_neq in Hk. rewrite Hk. simpl negb. unfold when_ at 1.
  by rewrite bind_exit.
Qed.

Lemma fault_then_exits s p v t s1 p1 :
  cur s = Some p -> Z.land (sstatus (csrs s)) SSTATUS_SPP = 0 ->
  page_fault_cause (scause (csrs s)) ->
  vma_find (take (Z.to_nat MAX_VMA) (p_vma p)) (stval (csrs s)) = Some v ->
  fault_in_vma v (stval (csrs s)) (entered s) = (t, Done 1 s1) ->
  cur s1 = Some p1 -> p_killed p1 <> 0 ->
  usertrap s = (t, Exited (-1) s1).
Proof.
  intros Hp Hspp Hcause Hfind Hfault Hcur1 Hk.
  rewrite (usertrap_fault_in s p v Hp Hspp Hcause Hfind).
  rewrite (bind_run _ _ _ _ _ _ Hfault).
  change (1 =? 0) with false. unfold when_ at 1. mrun.
  rewrite (fault_tail_killed _ _ Hcur1 Hk).
  unfold after. simpl. by rewrite app_nil_r.
Qed.


Lemma fault_page_taken v va s p pa rest :
  cur s = Some p -> vma_denies (scause (csrs s)) v = false ->
  freelist s = pa :: rest -> pa <> 0 ->
  fault_in_vma v va s =
    after [EvKalloc pa; EvMemset pa 0 PGSIZE]
      ((let* read_failed := fault_read v va pa in
        if read_failed then ret 1 else fault_map v va pa p)
       (page_zeroed pa rest s)).
Proof.
  intros Hp Hden Hfree Hpa. apply Z.eqb_neq in Hpa.
  unfold fault_in_vma.
  rewrite (bind_myproc _ _ p) by done. unfold r_scause. rewrite bind_reader, Hden.
  unfold kalloc. mrun. rewrite Hfree. mrun. rewrite Hpa.
  unfold memset. mrun. reflexivity.
Qed.

Lemma fault_no_page v va s p :
  cur s = Some p -> vma_denies (scause (csrs s)) v = false ->
  freelist s = [] ->
  fault_in_vma v va s =
    ([EvKalloc 0; EvPrintf "usertrap(): kalloc failed\n"], Done 0 (marked_killed s)).
Proof.
  intros Hp Hden Hfree. unfold fault_in_vma.
  rewrite (bind_myproc _ _ p) by done. unfold r_scause. rewrite bind_reader, Hden.
  unfold kalloc. mrun. rewrite Hfree. mrun.
  change (0 =? 0) with true. cbv iota. unfold printf. mrun.
  rewrite (bind_setkilled _ _ _ Hp). reflexivity.
Qed.

Lemma page_zeroed_frame pa rest s :
  cur (page_zeroed pa rest s) = cur s /\
  freelist (page_zeroed pa rest s) = rest /\
  mappings (page_zeroed pa rest s) = mappings s /\
  mappages_ret (page_zeroed pa rest s) = mappages_ret s /\
  file_inode (page_zeroed pa rest s) = file_inode s /\
  csrs (page_zeroed pa rest s) = csrs s.
Proof. by repeat split. Qed.

Lemma fault_read_anonymous v va pa s :
  vma_file v = 0 -> fault_read v va pa s = ([], Done false s).
Proof. intros E. unfold fault_read. rewrite E. reflexivity. Qed.

Lemma fault_read_fails v va pa s p :
  cur s = Some p -> vma_file v <> 0 ->
  i_error (file_inode s !!! vma_file v) = true ->
  fault_read v va pa s =
    (file_read_trace v va pa ++
       [EvKfree pa; EvPrintf "usertrap(): fileread failed\n"],
     Done true (marked_killed (with_freelist (cons pa) s))).
Proof.
  intros Hp Hfile Herr. apply Z.eqb_neq in Hfile.
  unfold fault_read. rewrite !Hfile. change (negb false) with true. cbv iota.
  unfold readi. mrun. cbv zeta. rewrite Herr. mrun.
  change (-1 <? 0) with true. cbv iota.
  unfold kfree, printf. mrun.
  erewrite bind_setkilled by (simpl; exact Hp). reflexivity.
Qed.

Lemma fault_read_ok v va pa s :
  vma_file v <> 0 ->
  i_error (file_inode s !!! vma_file v) = false ->
  0 <= PGSIZE ->
  exists s',
    fault_read v va pa s = (file_read_trace v va pa, Done false s') /\
    cur s' = cur s /\ freelist s' = freelist s /\ mappings s' = mappings s /\
    mappages_ret s' = mappages_ret s.
Proof.
  intros Hfile Herr Hpg. apply Z.eqb_neq in Hfile.
  unfold fault_read. rewrite !Hfile. change (negb false) with true. cbv iota.
  unfold readi. mrun. cbv zeta. rewrite Herr. mrun.
  match goal with |- context [?k <? 0] =>
    destruct (Z.ltb_spec k 0) as [Hneg|_]; [lia|] end.
  eexists. split; [reflexivity|]. done.
Qed.

Lemma fault_map_fails v va pa p s p1 :
  cur s = Some p1 -> mappages_ret s <> 0 ->
  fault_map v va pa p s =
    ([EvMappages (p_pagetable p) (PGROUNDDOWN va) PGSIZE pa (vma_flags v);
      EvKfree pa; EvPrintf "usertrap(): mappages failed\n"],
     Done 1 (marked_killed (with_freelist (cons pa) s))).
Proof.
  intros Hp Hret. apply Z.eqb_neq in Hret.
  unfold fault_map, mappages. mrun. rewrite Hret. mrun. rewrite Hret.
  change (negb false) with true. cbv iota. unfold kfree, printf. mrun.
  erewrite bind_setkilled by (simpl; exact Hp). reflexivity.
Qed.


(** X22: a permitted page fault inside a VMA when the allocator has no
    page: [kalloc] returns null, [usertrap] prints "kalloc failed" and then,
    because the loop was left before [find] was set, also the two lines of
    the report for an unexpected cause; the process exits with -1 and
    nothing was mapped or written. *)
Theorem usertrap_fault_without_page s p v :
  cur s = Some p ->
  Z.land (sstatus (csrs s)) SSTATUS_SPP = 0 ->
  page_fault_cause (scause (csrs s)) ->
  vma_find (take (Z.to_nat MAX_VMA) (p_vma p)) (stval (csrs s)) = Some v ->
  vma_denies (scause (csrs s)) v = false ->
  freelist s = [] ->
  exists s',
    usertrap s =
      (EvKalloc 0 :: EvPrintf "usertrap(): kalloc failed\n" :: violation_report,
       Exited (-1) s') /\
    freelist s' = [] /\ mappings s' = mappings s /\ mem s' = mem s.
Proof.
  intros Hp Hspp Hcause Hfind Hden Hfree.
  pose proof (entered_cur s p Hp) as Hcur.
  rewrite (usertrap_fault_in s p v Hp Hspp Hcause Hfind).
  rewrite (bind_run _ _ _ _ _ _ (fault_no_page v _ _ _ Hcur Hden Hfree)).
  change (0 =? 0) with true. unfold when_ at 1, printf. mrun.
  pose proof (marked_killed_cur _ _ Hcur) as Hcur1.
  rewrite (bind_setkilled _ _ _ Hcur1).
  rewrite (fault_tail_killed _ _ (marked_killed_cur _ _ Hcur1)) by done.
  eexists. split; [reflexivity|]. by rewrite <- Hfree.
Qed.

(** X23: a permitted page fault inside a file-backed VMA when the read
    of the file fails: the page that was allocated and zeroed is given back
    to the allocator, "fileread failed" is printed and the process exits
    with -1. [mappages] is not called; the free list and the mappings are
    as before the trap. *)
Theorem usertrap_fault_read_fails s p v pa rest :
  cur s = Some p ->
  Z.land (sstatus (csrs s)) SSTATUS_SPP = 0 ->
  page_fault_cause (scause (csrs s)) ->
  vma_find (take (Z.to_nat MAX_VMA) (p_vma p)) (stval (csrs s)) = Some v ->
  vma_denies (scause (csrs s)) v = false ->
  freelist s = pa :: rest -> pa <> 0 ->
  vma_file v <> 0 ->
  i_error (file_inode s !!! vma_file v) = true ->
  exists s',
    usertrap s =
      (EvKalloc pa :: EvMemset pa 0 PGSIZE ::
         file_read_trace v (stval (csrs s)) pa ++
         [EvKfree pa; EvPrintf "usertrap(): fileread failed\n"],
       Exited (-1) s') /\
    freelist s' = freelist s /\ mappings s' = mappings s.
Proof.
  intros Hp Hspp Hcause Hfind Hden Hfree Hpa Hfile Herr.
  pose proof (entered_cur s p Hp) as Hcur.
  exists (marked_killed (with_freelist (cons pa) (page_zeroed pa rest (entered s)))).
  split.
  - apply (fault_then_exits s p v _ _ (set_killed 1 (set_epc (sepc (csrs s)) p))
             Hp Hspp Hcause Hfind).
    + rewrite (fault_page_taken v _ _ _ pa rest Hcur Hden Hfree Hpa).
      erewrite bind_run by (by eapply fault_read_fails; [exact Hcur|..]).
      reflexivity.
    + simpl. rewrite Hp. reflexivity.
    + done.
  - simpl. by rewrite Hfree.
Qed.

(** X24: a permitted page fault whose page cannot be mapped ([mappages]
    does not return 0), in an anonymous VMA or in a file-backed one whose
    read succeeds: the page is given back to the allocator after the failed
    call, "mappages failed" is printed and the process exits with -1; the
    free list and the mappings are as before the trap. *)
Theorem usertrap_fault_mapping_fails s p v pa rest :
  cur s = Some p ->
  Z.land (sstatus (csrs s)) SSTATUS_SPP = 0 ->
  page_fault_cause (scause (csrs s)) ->
  vma_find (take (Z.to_nat MAX_VMA) (p_vma p)) (stval (csrs s)) = Some v ->
  vma_denies (scause (csrs s)) v = false ->
  freelist s = pa :: rest -> pa <> 0 ->
  vma_file v = 0 \/ i_error (file_inode s !!! vma_file v) = false ->
  0 <= PGSIZE ->
  mappages_ret s <> 0 ->
  exists s',
    usertrap s =
      (EvKalloc pa :: EvMemset pa 0 PGSIZE ::
         (if vma_file v =? 0 then [] else file_read_trace v (stval (csrs s)) pa) ++
         [EvMappages (p_pagetable p) (PGROUNDDOWN (stval (csrs s))) PGSIZE pa (vma_flags v);
          EvKfree pa; EvPrintf "usertrap(): mappages failed\n"],
       Exited (-1) s') /\
    freelist s' = freelist s /\ mappings s' = mappings s.
Proof.
  intros Hp Hspp Hcause Hfind Hden Hfree Hpa Hread Hpg Hret.
  pose proof (entered_cur s p Hp) as Hcur.
  set (s0 := page_zeroed pa rest (entered s)).
  assert (Hcur0 : cur s0 = Some (set_epc (sepc (csrs s)) p)) by exact Hcur.
  assert (Hstep : exists s1,
    fault_read v (stval (csrs s)) pa s0 =
      ((if vma_file v =? 0 then [] else file_read_trace v (stval (csrs s)) pa),
       Done false s1) /\
    cur s1 = cur s0 /\ freelist s1 = rest /\ mappings s1 = mappings s /\
    mappages_ret s1 = mappages_ret s).
  { destruct (Z.eqb_spec (vma_file v) 0) as [E|E].
    - exists s0. by rewrite fault_read_anonymous.
    - destruct Hread as [?|Herr]; [done|].
      destruct (fault_read_ok v (stval (csrs s)) pa s0 E Herr Hpg)
        as (s1 & Hrun & F1 & F2 & F3 & F4).
      exists s1. by rewrite Hrun, F1, F2, F3, F4. }
  destruct Hstep as (s1 & Hrun1 & Hcur1 & Hfree1 & Hmap1 & Hret1).
  rewrite Hcur0 in Hcur1.
  exists (marked_killed (with_freelist (cons pa) s1)). split.
  - apply (fault_then_exits s p v _ _ (set_killed 1 (set_epc (sepc (csrs s)) p))
             Hp Hspp Hcause Hfind).
    + rewrite (fault_page_taken v _ _ _ pa rest Hcur Hden Hfree Hpa).
      fold s0. rewrite (bind_run _ _ _ _ _ _ Hrun1). cbv iota.
      rewrite (fault_map_fails v _ pa _ s1 _ Hcur1) by (by rewrite Hret1).
      unfold after. simpl fst. simpl snd.
      change (p_pagetable (set_epc (sepc (csrs s)) p)) with (p_pagetable p).
      reflexivity.
    + simpl. rewrite Hcur1. reflexivity.
    + done.
  - simpl. by rewrite Hfree1, Hmap1, Hfree.
Qed.


(** *** Further facts about [usertrapret] and the VMA test *)

Lemma land_cleared x m : Z.land (Z.land x (u64 (Z.lnot m))) m = 0.
Proof.
  apply Z.bits_inj'. intros i Hi.
  unfold u64. change (2 ^ 64) with (2 ^ 64). rewrite <- Z.land_ones by lia.
  rewrite !Z.land_spec, Z.lnot_spec, Z.bits_0 by lia.
  destruct (Z.testbit m i); simpl; by rewrite ?andb_false_r.
Qed.

Lemma land_set x m : Z.land (Z.lor x m) m = m.
Proof.
  apply Z.bits_inj'. intros i Hi. rewrite Z.land_spec, Z.lor_spec.
  destruct (Z.testbit m i); simpl; by rewrite ?orb_true_r, ?andb_false_r.
Qed.

Lemma usertrapret_state s p :
  cur s = Some p ->
  exists s',
    usertrapret s = ([EvUserret (MAKE_SATP (p_pagetable p))], Done tt s') /\
    csrs s' =
      set_sepc (tf_epc p)
        (set_sstatus
           (Z.lor (Z.land (Z.land (sstatus (csrs s)) (u64 (Z.lnot SSTATUS_SIE)))
                          (u64 (Z.lnot SSTATUS_SPP))) SSTATUS_SPIE)
           (set_stvec (u64 (TRAMPOLINE + (uservec - trampoline))) (csrs s))) /\
    cur s' =
      Some (set_kernel_frame (satp (csrs s)) (u64 (p_kstack p + PGSIZE))
                             usertrap_addr (tp (csrs s)) p).
Proof.
  intros Hp. unfold usertrapret.
  rewrite (bind_myproc _ _ p) by done.
  unfold intr_off, r_sstatus, w_sstatus, w_stvec, r_satp, r_tp, w_sepc. mrun.
  erewrite bind_update_proc by (simpl; exact Hp). mrun.
  erewrite bind_myproc by (simpl; rewrite Hp; reflexivity). mrun.
  unfold emit, after; simpl. eexists. split; [reflexivity|].
  simpl. rewrite Hp. done.
Qed.

(** X26: [usertrapret] points [stvec] at the trampoline's [uservec],
    fills the kernel fields of the trap frame (kernel page table, top of
    the process's kernel stack, address of [usertrap], hart id), sets
    [sepc] to the saved user program counter, and leaves [sstatus] with the
    previous-mode bit clear (user), the interrupt-enable bit clear and the
    previous-interrupt-enable bit set, given that the three bits are
    distinct; its one call is the jump to [userret] with the process's
    page table. *)
Theorem usertrapret_prepares_return s p :
  cur s = Some p ->
  Z.land SSTATUS_SPIE SSTATUS_SPP = 0 ->
  Z.land SSTATUS_SPIE SSTATUS_SIE = 0 ->
  exists s',
    usertrapret s = ([EvUserret (MAKE_SATP (p_pagetable p))], Done tt s') /\
    stvec (csrs s') = u64 (TRAMPOLINE + (uservec - trampoline)) /\
    sepc (csrs s') = tf_epc p /\
    Z.land (sstatus (csrs s')) SSTATUS_SPP = 0 /\
    Z.land (sstatus (csrs s')) SSTATUS_SIE = 0 /\
    Z.land (sstatus (csrs s')) SSTATUS_SPIE = SSTATUS_SPIE /\
    cur s' =
      Some (set_kernel_frame (satp (csrs s)) (u64 (p_kstack p + PGSIZE))
                             usertrap_addr (tp (csrs s)) p).
Proof.
  intros Hp Hpp Hpi.
  destruct (usertrapret_state s p Hp) as (s' & Hrun & Hcsr & Hcur).
  exists s'. split; [exact Hrun|]. rewrite Hcsr. simpl.
  split; [done|]. split; [done|].
  split; [by rewrite Z.land_lor_distr_l, land_cleared, Hpp|].
  split.
  - rewrite Z.land_lor_distr_l, Hpi, Z.lor_0_r.
    rewrite <- Z.land_assoc, (Z.land_comm (u64 _) SSTATUS_SIE), Z.land_assoc.
    by rewrite land_cleared.
  - split; [apply land_set|done].
Qed.

(** X27: the address test of the fault handler on 64-bit fields. When
    the end of a VMA does not pass 2^64, the VMA holds exactly the
    addresses from its start up to, and without, start plus length. When
    start plus length reaches 2^64 the sum wraps around and the VMA holds no
    address at all. *)
Theorem vma_contains_range v va :
  0 <= vma_addr v < 2^64 -> 0 <= vma_len v < 2^64 ->
  (vma_addr v + vma_len v < 2^64 ->
     (vma_contains v va = true <-> vma_addr v <= va < vma_addr v + vma_len v)) /\
  (2^64 <= vma_addr v + vma_len v -> vma_contains v va = false).
Proof.
  intros Ha Hl. unfold vma_contains, u64. split.
  - intros Hsum. rewrite Z.mod_small by lia.
    rewrite andb_true_iff, Z.geb_leb, Z.leb_le, Z.ltb_lt. lia.
  - intros Hwrap.
    replace ((vma_addr v + vma_len v) mod 2^64) with (vma_addr v + vma_len v - 2^64).
    2:{ apply Z.mod_unique with 1; lia. }
    apply andb_false_iff. rewrite Z.geb_leb, Z.leb_gt, Z.ltb_ge. lia.
Qed.

(** X28: the first valid VMA that holds the fault address decides,
    whatever later VMAs would allow: when its protection denies the access
    the process exits with -1. The report for an unexpected cause is
    printed twice, once inside the loop and once after it, because the loop
    is left with [find] still 0. *)
Theorem usertrap_first_match_decides s p v :
  cur s = Some p ->
  Z.land (sstatus (csrs s)) SSTATUS_SPP = 0 ->
  page_fault_cause (scause (csrs s)) ->
  vma_find (take (Z.to_nat MAX_VMA) (p_vma p)) (stval (csrs s)) = Some v ->
  vma_denies (scause (csrs s)) v = true ->
  usertrap s = (violation_report ++ violation_report,
                Exited (-1) (marked_killed (marked_killed (entered s)))).
Proof.
  intros Hp Hspp Hcause Hfind Hden.
  pose proof (entered_cur s p Hp) as Hcur.
  rewrite (usertrap_fault_in s p v Hp Hspp Hcause Hfind).
  rewrite (bind_run _ _ _ _ _ _ (fault_denied v _ _ _ Hcur Hden)).
  change (0 =? 0) with true. unfold when_ at 1, printf. mrun.
  pose proof (marked_killed_cur _ _ Hcur) as Hcur1.
  rewrite (bind_setkilled _ _ _ Hcur1).
  rewrite (fault_tail_killed _ _ (marked_killed_cur _ _ Hcur1)) by done.
  reflexivity.
Qed.

End Facts.

(** *** Runs on the [virt] machine *)
Section Runs.
#[local] Existing Instance qemu_virt.

(** C1 on the code: when the interrupt controller hands out the network
    card's identifier, [devintr] reports an unexpected interrupt and
    completes it; no interrupt entry of a driver is called in between. *)
Theorem devintr_network_irq_unexpected :
  devintr network_irq_pending =
    ([EvPlicClaim 33; EvPrintf "unexpected interrupt irq=%d\n"; EvPlicComplete 33],
     Done 1 network_irq_pending).
Proof. vm_compute. reflexivity. Qed.

(** C4 as the specification states it fails on the code: after a timer
    interrupt whose [yield] came back with another cause in [scause],
    [kerneltrap] returns with that other cause still there. *)
Lemma kerneltrap_leaves_scause_disturbed :
  exists t s',
    kerneltrap timer_then_nested_trap = (t, Done tt s') /\
    scause (csrs timer_then_nested_trap) = 0x8000000000000005 /\
    scause (csrs s') = 8 /\
    sepc (csrs s') = sepc (csrs timer_then_nested_trap) /\
    sstatus (csrs s') = sstatus (csrs timer_then_nested_trap).
Proof. eexists _, _. vm_compute. by repeat split. Qed.

Lemma kerneltrap_restores_sepc_and_sstatus_witness :
  exists t s',
    kerneltrap timer_then_nested_trap = (t, Done tt s') /\
    sepc (csrs s') = 0x80001234 /\ sstatus (csrs s') = 0x100.
Proof.
  destruct (kerneltrap_restores_sepc_and_sstatus (hdr := qemu_virt) timer_then_nested_trap)
    as [Hrestored Hreturns].
  destruct Hreturns as (t & s' & Hrun).
  - vm_compute. discriminate.
  - reflexivity.
  - right. reflexivity.
  - exists t, s'. split; [exact Hrun|]. exact (Hrestored t s' Hrun).
Defined.

Lemma usertrap_syscall_killed_exits_witness :
  (exists s', usertrap syscall_trap_killed = ([], Exited (-1) s')) /\
  (exists t o, usertrap syscall_trap = (EvSyscall 0x1004 0x22 :: t, o)).
Proof.
  split.
  - destruct (usertrap_syscall_killed_exits (hdr := qemu_virt) syscall_trap_killed
                (set_killed 1 demo_proc) eq_refl eq_refl eq_refl) as [Hkilled _].
    destruct Hkilled as (s' & Hrun & _); [discriminate|].
    by exists s'.
  - destruct (usertrap_syscall_killed_exits (hdr := qemu_virt) syscall_trap demo_proc
                eq_refl eq_refl eq_refl) as [_ Hlive].
    destruct (Hlive eq_refl) as (t & o & Hrun & _).
    exists t, o. exact Hrun.
Defined.

Lemma demo_vmas_disjoint :
  vmas_disjoint (take (Z.to_nat MAX_VMA) (p_vma demo_proc)).
Proof.
  intros i j v w a Hi Hj Hv Hw _ _.
  destruct i as [|[|i]]; destruct j as [|[|j]]; simpl in Hi, Hj;
    try discriminate; try reflexivity.
  - injection Hi as <-. by destruct Hv.
  - injection Hj as <-. by destruct Hw.
Defined.

Lemma demo_vma_in :
  mk_vma 1 0x40000000 (3 * 4096) 1 7 4096 ∈ take (Z.to_nat MAX_VMA) (p_vma demo_proc).
Proof. apply list_elem_of_further, list_elem_of_here. Defined.

Lemma usertrap_rejected_fault_exits_witness :
  (exists t s',
     usertrap store_fault = (t, Exited (-1) s') /\
     (forall pa, EvKalloc pa ∉ t) /\
     (forall pt va sz pa perm, EvMappages pt va sz pa perm ∉ t) /\
     freelist s' = freelist store_fault /\ mappings s' = [] /\
     mem s' = mem store_fault) /\
  (exists t s',
     usertrap stray_fault = (t, Exited (-1) s') /\
     (forall pa, EvKalloc pa ∉ t) /\
     (forall pt va sz pa perm, EvMappages pt va sz pa perm ∉ t) /\
     freelist s' = freelist stray_fault /\ mappings s' = [] /\
     mem s' = mem stray_fault).
Proof.
  split.
  - apply (usertrap_rejected_fault_exits (hdr := qemu_virt) store_fault demo_proc eq_refl eq_refl).
    + right. left. reflexivity.
    + left. split; [|exact demo_vmas_disjoint].
      exists (mk_vma 1 0x40000000 (3 * 4096) 1 7 4096).
      split; [exact demo_vma_in|]. split; [discriminate|]. split; reflexivity.
  - apply (usertrap_rejected_fault_exits (hdr := qemu_virt) stray_fault demo_proc eq_refl eq_refl).
    + left. reflexivity.
    + right. intros v Hin Hvalid.
      apply elem_of_cons in Hin as [->|Hin]; [by destruct Hvalid|].
      apply elem_of_cons in Hin as [->|Hin]; [reflexivity|].
      by apply elem_of_nil in Hin.
Defined.



(** *** Further runs on the [virt] machine *)

Lemma trap_run_pair {A B} (r : A * B) : r = (r.1, r.2).
Proof. by destruct r. Defined.

Lemma devintr_completes_what_it_claims_witness :
  scause (csrs network_irq_pending) = 0x8000000000000009 /\
  exists mid,
    devintr network_irq_pending = (EvPlicClaim 33 :: mid, Done 1 network_irq_pending) /\
    exists svc, mid = [svc; EvPlicComplete 33].
Proof.
  split; [reflexivity|].
  destruct (devintr_completes_what_it_claims (hdr := qemu_virt) network_irq_pending
              eq_refl) as (mid & Hrun & Hsome & _).
  exists mid. split; [exact Hrun|].
  destruct Hsome as (svc & Hmid & _); [discriminate|].
  by exists svc.
Defined.

Lemma kerneltrap_yields_on_timer_only_witness :
  kerneltrap timer_then_nested_trap =
    ((kerneltrap timer_then_nested_trap).1, Done tt timer_trap_handled) /\
  EvYield ∈ (kerneltrap timer_then_nested_trap).1 /\
  ticks timer_trap_handled = 42.
Proof.
  assert (Hrun : kerneltrap timer_then_nested_trap =
                 ((kerneltrap timer_then_nested_trap).1, Done tt timer_trap_handled))
    by (vm_compute; reflexivity).
  split; [exact Hrun|].
  destruct (kerneltrap_yields_on_timer_only (hdr := qemu_virt) _ _ _ Hrun)
    as (Hyield & _ & Hticks).
  split.
  - apply Hyield. split; [reflexivity|discriminate].
  - by destruct (Hticks eq_refl) as [-> _].
Defined.

Lemma usertrap_from_supervisor_panics_witness :
  Z.land (sstatus (csrs misrouted_trap)) SSTATUS_SPP <> 0 /\
  usertrap misrouted_trap = ([], Panicked "usertrap: not from user mode" misrouted_trap).
Proof.
  assert (H : Z.land (sstatus (csrs misrouted_trap)) (SSTATUS_SPP (kernel_h := qemu_virt)) <> 0)
    by (vm_compute; discriminate).
  split; [exact H|].
  exact (usertrap_from_supervisor_panics (hdr := qemu_virt) misrouted_trap H).
Defined.

Lemma usertrap_unknown_cause_exits_witness :
  cur illegal_instruction = Some demo_proc /\
  ~ page_fault_cause (scause (csrs illegal_instruction)) /\
  exists s',
    usertrap illegal_instruction = (violation_report, Exited (-1) s') /\
    (p_killed <$> cur s') = Some 1.
Proof.
  assert (Hpf : ~ page_fault_cause (scause (csrs illegal_instruction)))
    by (intros [H|[H|H]]; discriminate H).
  split; [reflexivity|]. split; [exact Hpf|].
  eexists. split.
  - apply (usertrap_unknown_cause_exits (hdr := qemu_virt) illegal_instruction demo_proc
             eq_refl eq_refl); [discriminate..|exact Hpf].
  - reflexivity.
Defined.

Lemma usertrap_device_interrupt_resumes_witness :
  cur user_timer_trap = Some demo_proc /\
  exists t s',
    usertrap user_timer_trap = (t ++ [EvUserret (MAKE_SATP 0x87fff000)], Done tt s') /\
    EvYield ∈ t /\ sepc (csrs s') = 0x1000.
Proof.
  split; [reflexivity|].
  destruct (usertrap_device_interrupt_resumes (hdr := qemu_virt) user_timer_trap demo_proc
              eq_refl eq_refl eq_refl (or_intror eq_refl))
    as (t & s' & Hrun & Hyield & Hepc & _).
  exists t, s'. split; [exact Hrun|]. split; [by apply Hyield|exact Hepc].
Defined.

Lemma usertrap_syscall_outcome_witness :
  cur syscall_trap = Some demo_proc /\
  exists s',
    usertrap syscall_trap =
      ([EvSyscall 0x1004 0x22; EvUserret (MAKE_SATP 0x87fff000)], Done tt s') /\
    sepc (csrs s') = 0x1004.
Proof.
  split; [reflexivity|].
  destruct (usertrap_syscall_outcome (hdr := qemu_virt) syscall_trap demo_proc
              eq_refl eq_refl eq_refl eq_refl) as (s' & Hrun & Hepc & _).
  exists s'. split; [exact Hrun|]. exact (Hepc eq_refl).
Defined.

Lemma usertrap_fault_without_page_witness :
  freelist load_fault_no_page = [] /\
  exists s',
    usertrap load_fault_no_page =
      ([EvKalloc 0; EvPrintf "usertrap(): kalloc failed\n";
        EvPrintf "usertrap(): unexpected scause 0x%lx pid=%d\n";
        EvPrintf "            sepc=0x%lx stval=0x%lx\n"], Exited (-1) s') /\
    mappings s' = [].
Proof.
  split; [reflexivity|].
  destruct (usertrap_fault_without_page (hdr := qemu_virt) load_fault_no_page demo_proc
              (mk_vma 1 0x40000000 (3 * 4096) 1 7 4096)
              eq_refl eq_refl (or_introl eq_refl) eq_refl eq_refl eq_refl)
    as (s' & Hrun & _ & Hmap & _).
  exists s'. split; [exact Hrun|exact Hmap].
Defined.

Lemma usertrap_fault_read_fails_witness :
  i_error (file_inode load_fault_bad_read !!! 7) = true /\
  exists s',
    usertrap load_fault_bad_read =
      ([EvKalloc 0x87654000; EvMemset 0x87654000 0 4096; EvBeginOp; EvIlock 7;
        EvReadi 7 0x87654000 4096 4096; EvIunlock 7; EvEndOp;
        EvKfree 0x87654000; EvPrintf "usertrap(): fileread failed\n"],
       Exited (-1) s') /\
    freelist s' = [0x87654000; 0x87655000] /\ mappings s' = [].
Proof.
  split; [reflexivity|].
  destruct (usertrap_fault_read_fails (hdr := qemu_virt) load_fault_bad_read demo_proc
              (mk_vma 1 0x40000000 (3 * 4096) 1 7 4096) 0x87654000 [0x87655000]
              eq_refl eq_refl (or_introl eq_refl) eq_refl eq_refl eq_refl)
    as (s' & Hrun & Hfree & Hmap); [discriminate|discriminate|reflexivity|].
  exists s'. split; [exact Hrun|]. split; [exact Hfree|exact Hmap].
Defined.

Lemma usertrap_fault_mapping_fails_witness :
  mappages_ret load_fault_bad_map <> 0 /\
  exists s',
    usertrap load_fault_bad_map =
      ([EvKalloc 0x87654000; EvMemset 0x87654000 0 4096; EvBeginOp; EvIlock 7;
        EvReadi 7 0x87654000 4096 4096; EvIunlock 7; EvEndOp;
        EvMappages 0x87fff000 0x40000000 4096 0x87654000 18;
        EvKfree 0x87654000; EvPrintf "usertrap(): mappages failed\n"],
       Exited (-1) s') /\
    freelist s' = [0x87654000; 0x87655000] /\ mappings s' = [].
Proof.
  assert (Hret : mappages_ret load_fault_bad_map <> 0) by discriminate.
  split; [exact Hret|].
  destruct (usertrap_fault_mapping_fails (hdr := qemu_virt) load_fault_bad_map demo_proc
              (mk_vma 1 0x40000000 (3 * 4096) 1 7 4096) 0x87654000 [0x87655000]
              eq_refl eq_refl (or_introl eq_refl) eq_refl eq_refl eq_refl)
    as (s' & Hrun & Hfree & Hmap);
    [discriminate|right; reflexivity|discriminate|exact Hret|].
  exists s'. split; [exact Hrun|]. split; [exact Hfree|exact Hmap].
Defined.


Lemma usertrapret_prepares_return_witness :
  cur syscall_trap = Some demo_proc /\
  exists s',
    usertrapret syscall_trap = ([EvUserret (MAKE_SATP 0x87fff000)], Done tt s') /\
    stvec (csrs s') = 0x3ffffff000 /\
    Z.land (sstatus (csrs s')) SSTATUS_SPP = 0 /\
    Z.land (sstatus (csrs s')) SSTATUS_SIE = 0.
Proof.
  split; [reflexivity|].
  destruct (usertrapret_prepares_return (hdr := qemu_virt) syscall_trap demo_proc
              eq_refl eq_refl eq_refl)
    as (s' & Hrun & Hvec & _ & Hspp & Hsie & _).
  exists s'. split; [exact Hrun|]. split; [exact Hvec|]. split; [exact Hspp|exact Hsie].
Defined.

Lemma vma_contains_range_witness :
  0 <= vma_addr top_vma < 2^64 /\ 0 <= vma_len top_vma < 2^64 /\
  vma_contains top_vma (2^64 - 100) = false /\
  (vma_contains (mk_vma 1 0x40000000 (3 * 4096) 1 7 4096) 0x40002fff = true <->
   0x40000000 <= 0x40002fff < 0x40000000 + 3 * 4096).
Proof.
  assert (H1 : 0 <= vma_addr top_vma < 2^64) by (simpl; lia).
  assert (H2 : 0 <= vma_len top_vma < 2^64) by (simpl; lia).
  split; [exact H1|]. split; [exact H2|]. split.
  - apply (proj2 (vma_contains_range top_vma (2^64 - 100) H1 H2)). simpl. lia.
  - apply (proj1 (vma_contains_range (mk_vma 1 0x40000000 (3 * 4096) 1 7 4096)
                    0x40002fff ltac:(simpl; lia) ltac:(simpl; lia))).
    simpl. lia.
Defined.

Lemma usertrap_first_match_decides_witness :
  cur overlap_store_fault = Some overlap_proc /\
  vma_denies (scause (csrs overlap_store_fault)) (mk_vma 1 0x40000000 4096 3 0 0) = false /\
  exists s',
    usertrap overlap_store_fault =
      (violation_report ++ violation_report, Exited (-1) s').
Proof.
  split; [reflexivity|]. split; [reflexivity|].
  eexists.
  exact (usertrap_first_match_decides (hdr := qemu_virt) overlap_store_fault overlap_proc
           (mk_vma 1 0x40000000 (3 * 4096) 1 0 0)
           eq_refl eq_refl (or_intror (or_introl eq_refl)) eq_refl eq_refl).
Defined.

End Runs.
End TrapFacts.
